(** * simpleblog: departments and employees over a relational store

    A shallow embedding of [models.go], [handlers.go] and of the schema of
    [migrations/00001_init.sql], with the properties of the specification
    stated and settled against it. *)

From Stdlib Require Import ZArith List String Ascii Bool Lia.
From stdpp Require Import base gmap list strings.
Import ListNotations.
Set Warnings "-register-all".
Local Open Scope string_scope.
Local Open Scope Z_scope.

(** ** Go strings

    A Go [string] is a sequence of bytes; [len] counts bytes.  The request
    bodies are decoded by [encoding/json], which only produces valid UTF-8. *)

Module GoString.

Definition len (s : string) : Z := Z.of_nat (String.length s).

Definition byte (c : ascii) : Z := Z.of_nat (nat_of_ascii c).

(** [strings.TrimSpace]: leading and trailing white space, as defined by
    Unicode, is removed.  The ASCII table of the library. *)
Definition asciiSpace (c : ascii) : bool :=
  let b := byte c in
  (b =? 9) || (b =? 10) || (b =? 11) || (b =? 12) || (b =? 13) || (b =? 32).

(** The white space above U+007F ([unicode.IsSpace]), by its UTF-8 encoding:
    U+0085 and U+00A0 on two bytes, and U+1680, U+2000..U+200A, U+2028,
    U+2029, U+202F, U+205F and U+3000 on three. *)
Definition space2 (b1 b2 : Z) : bool :=
  (b1 =? 194) && ((b2 =? 133) || (b2 =? 160)).

Definition space3 (b1 b2 b3 : Z) : bool :=
  ((b1 =? 225) && (b2 =? 154) && (b3 =? 128))
  || ((b1 =? 226) && (b2 =? 128)
      && (((128 <=? b3) && (b3 <=? 138)) || (b3 =? 168) || (b3 =? 169) || (b3 =? 175)))
  || ((b1 =? 226) && (b2 =? 129) && (b3 =? 159))
  || ((b1 =? 227) && (b2 =? 128) && (b3 =? 128)).

Fixpoint trimLeft (s : list ascii) : list ascii :=
  match s with
  | c1 :: s1 =>
      if asciiSpace c1 then trimLeft s1
      else match s1 with
           | c2 :: s2 =>
               if space2 (byte c1) (byte c2) then trimLeft s2
               else match s2 with
                    | c3 :: s3 =>
                        if space3 (byte c1) (byte c2) (byte c3) then trimLeft s3 else s
                    | [] => s
                    end
           | [] => s
           end
  | [] => []
  end.

(** The same scan from the end, on the reversed bytes. *)
Fixpoint trimRightRev (s : list ascii) : list ascii :=
  match s with
  | c1 :: s1 =>
      if asciiSpace c1 then trimRightRev s1
      else match s1 with
           | c2 :: s2 =>
               if space2 (byte c2) (byte c1) then trimRightRev s2
               else match s2 with
                    | c3 :: s3 =>
                        if space3 (byte c3) (byte c2) (byte c1) then trimRightRev s3 else s
                    | [] => s
                    end
           | [] => s
           end
  | [] => []
  end.

Definition TrimSpace (s : string) : string :=
  string_of_list_ascii
    (rev (trimRightRev (rev (trimLeft (list_ascii_of_string s))))).

(** The number of characters (code points) of a UTF-8 string: the bytes
    that are not continuation bytes [10xxxxxx]. *)
Definition isContinuation (c : ascii) : bool :=
  (128 <=? byte c) && (byte c <? 192).

Fixpoint runeCount (s : string) : Z :=
  match s with
  | EmptyString => 0
  | String c s' => (if isContinuation c then 0 else 1) + runeCount s'
  end.

End GoString.

(** ** [strconv] *)

Module strconv.

Definition isDigit (c : ascii) : bool :=
  (48 <=? GoString.byte c) && (GoString.byte c <=? 57).

Fixpoint digits (s : string) (acc : Z) : option Z :=
  match s with
  | EmptyString => Some acc
  | String c s' =>
      if isDigit c then digits s' (10 * acc + (GoString.byte c - 48)) else None
  end.

(** [strconv.Atoi]: an optional sign and at least one decimal digit, the
    value in the range of a 64-bit [int]; anything else is an error. *)
Definition Atoi (s : string) : option Z :=
  let '(neg, ds) :=
    match s with
    | String "-" s' => (true, s')
    | String "+" s' => (false, s')
    | _ => (false, s)
    end in
  match ds with
  | EmptyString => None
  | _ =>
      match digits ds 0 with
      | Some v =>
          let n := if (neg : bool) then - v else v in
          if (- 2 ^ 63 <=? n) && (n <=? 2 ^ 63 - 1) then Some n else None
      | None => None
      end
  end.

(** [strconv.ParseBool]. *)
Definition ParseBool (str : string) : option bool :=
  if (String.eqb str "1" || String.eqb str "t" || String.eqb str "T"
      || String.eqb str "true" || String.eqb str "TRUE" || String.eqb str "True")%bool
  then Some true
  else if (String.eqb str "0" || String.eqb str "f" || String.eqb str "F"
           || String.eqb str "false" || String.eqb str "FALSE" || String.eqb str "False")%bool
  then Some false
  else None.

End strconv.

(** ** Data model ([models.go]) *)

(** [time.Time] is an instant, here a number; [*int] and [*time.Time] are
    options. *)
Definition Time := Z.

Record Employee := mkEmployee {
  emp_ID : Z;
  emp_DepartmentID : Z;
  emp_FullName : string;
  emp_Position : string;
  emp_HiredAt : option Time;
  emp_CreatedAt : Time
}.

(** [Children] and [Employees] are the two fields that GORM is told to
    skip: they are never stored, and a record read from the store has both empty. *)
Inductive Department := mkDepartment {
  dept_ID : Z;
  dept_Name : string;
  dept_ParentID : option Z;
  dept_CreatedAt : Time;
  dept_Children : list Department;
  dept_Employees : list Employee
}.

(** A Go [error]: the sentinel of GORM, a failure reported by the store, or
    an [errors.New] of the program. *)
Inductive error :=
| ErrRecordNotFound
| ErrStore
| errors_New (msg : string).

Definition Error (e : error) : string :=
  match e with
  | ErrRecordNotFound => "record not found"
  | ErrStore => "store failure"
  | errors_New msg => msg
  end.

Inductive Result (A : Type) :=
| Ok (a : A)
| Err (e : error).
Arguments Ok {A} a.
Arguments Err {A} e.

(** ** The relational store ([migrations/00001_init.sql]) *)

Record DeptRow := mkDeptRow {
  row_id : Z;
  row_name : string;
  row_parent_id : option Z;
  row_created_at : Time
}.

(** The two tables, in the order the store enumerates their rows, and the
    two [SERIAL] sequences. *)
Record Store := mkStore {
  departments : list DeptRow;
  employees : list Employee;
  departments_id_seq : Z;
  employees_id_seq : Z
}.

Module Sql.

(** SQL equality on a nullable column: a comparison with NULL, on either
    side, is not true. *)
Definition eq_nullable (col arg : option Z) : bool :=
  match col, arg with
  | Some a, Some b => a =? b
  | _, _ => false
  end.

Definition has_department (s : Store) (id : Z) : bool :=
  existsb (fun r => row_id r =? id) (departments s).

(** [SELECT * FROM departments WHERE id = ? ORDER BY id LIMIT 1] *)
Definition select_department (s : Store) (id : Z) : option DeptRow :=
  find (fun r => row_id r =? id) (departments s).

(** [SELECT count FROM departments WHERE name = ? AND parent_id = ?],
    with [AND id != ?] when [self] is given. *)
Definition count_siblings (s : Store) (name : string) (parent : option Z)
    (self : option Z) : Z :=
  Z.of_nat (List.length (List.filter
    (fun r => String.eqb (row_name r) name
              && eq_nullable (row_parent_id r) parent
              && match self with
                 | Some id => negb (row_id r =? id)
                 | None => true
                 end)
    (departments s))).

(** [SELECT id FROM departments WHERE parent_id = ?] *)
Definition pluck_children (s : Store) (parent : Z) : list Z :=
  map row_id (List.filter (fun r => eq_nullable (row_parent_id r) (Some parent)) (departments s)).

(** [SELECT * FROM departments WHERE parent_id IN (...)] *)
Definition select_children_in (s : Store) (ids : list Z) : list DeptRow :=
  List.filter (fun r => existsb (fun id => eq_nullable (row_parent_id r) (Some id)) ids)
         (departments s).

(** [SELECT * FROM employees WHERE department_id IN (...)], before the
    [ORDER BY]. *)
Definition select_employees_in (s : Store) (ids : list Z) : list Employee :=
  List.filter (fun e => existsb (fun id => emp_DepartmentID e =? id) ids) (employees s).

(** The foreign key of [departments.parent_id] and of
    [employees.department_id]. *)
Definition fk_ok (s : Store) (ref : option Z) : bool :=
  match ref with
  | Some id => has_department s id
  | None => true
  end.

(** [INSERT INTO departments (name, parent_id, created_at)]: the sequence
    gives the identifier. *)
Definition insert_department (s : Store) (name : string) (parent : option Z)
    (now : Time) : Store * option DeptRow :=
  let id := departments_id_seq s + 1 in
  let row := mkDeptRow id name parent now in
  if fk_ok s parent
  then (mkStore (departments s ++ [row]) (employees s) id (employees_id_seq s), Some row)
  else (mkStore (departments s) (employees s) id (employees_id_seq s), None).

Definition insert_employee (s : Store) (e : Employee) (now : Time)
    : Store * option Employee :=
  let id := employees_id_seq s + 1 in
  let row := mkEmployee id (emp_DepartmentID e) (emp_FullName e) (emp_Position e)
               (emp_HiredAt e) now in
  if has_department s (emp_DepartmentID e)
  then (mkStore (departments s) (employees s ++ [row]) (departments_id_seq s) id, Some row)
  else (mkStore (departments s) (employees s) (departments_id_seq s) id, None).

(** [UPDATE departments SET name = ?, parent_id = ?, created_at = ? WHERE id = ?] *)
Definition update_department (s : Store) (row : DeptRow) : option Store :=
  if fk_ok s (row_parent_id row)
  then Some (mkStore (map (fun r => if row_id r =? row_id row then row else r) (departments s))
                     (employees s) (departments_id_seq s) (employees_id_seq s))
  else None.

(** [UPDATE employees SET department_id = ? WHERE department_id = ?] *)
Definition set_department (to : Z) (e : Employee) : Employee :=
  mkEmployee (emp_ID e) to (emp_FullName e) (emp_Position e) (emp_HiredAt e) (emp_CreatedAt e).

Definition update_employees_department (s : Store) (from to : Z) : option Store :=
  if has_department s to || negb (existsb (fun e => emp_DepartmentID e =? from) (employees s))
  then Some (mkStore (departments s)
                     (map (fun e => if emp_DepartmentID e =? from then set_department to e else e)
                          (employees s))
                     (departments_id_seq s) (employees_id_seq s))
  else None.

(** [UPDATE departments SET parent_id = ? WHERE parent_id = ?] *)
Definition set_parent (to : Z) (r : DeptRow) : DeptRow :=
  mkDeptRow (row_id r) (row_name r) (Some to) (row_created_at r).

Definition update_departments_parent (s : Store) (from to : Z) : option Store :=
  if has_department s to
     || negb (existsb (fun r => eq_nullable (row_parent_id r) (Some from)) (departments s))
  then Some (mkStore (map (fun r => if eq_nullable (row_parent_id r) (Some from)
                                    then set_parent to r else r)
                          (departments s))
                     (employees s) (departments_id_seq s) (employees_id_seq s))
  else None.

(** The rows that [ON DELETE CASCADE] removes with a department: the
    traversal follows [parent_id] from the deleted rows to the rows that
    reference them, every identifier expanded once. *)
Fixpoint walk (fuel : nat) (s : Store) (queue : list Z) (visited : gset Z)
    : option (gset Z) :=
  match fuel with
  | O => None
  | S fuel' =>
      match queue with
      | [] => Some visited
      | current :: queue' =>
          if decide (current ∈ visited) then walk fuel' s queue' visited
          else walk fuel' s (queue' ++ pluck_children s current) ({[current]} ∪ visited)
      end
  end.

Definition walk_fuel (s : Store) (queue : list Z) : nat :=
  S (List.length queue + List.length (departments s)).

Definition cascade (s : Store) (id : Z) : gset Z :=
  match walk (walk_fuel s [id]) s [id] ∅ with
  | Some doomed => doomed
  | None => ∅
  end.

(** [DELETE FROM departments WHERE id = ?], with both foreign keys
    [ON DELETE CASCADE]. *)
Definition delete_department (s : Store) (id : Z) : Store :=
  if has_department s id
  then let doomed := cascade s id in
       mkStore (List.filter (fun r => bool_decide (row_id r ∉ doomed)) (departments s))
               (List.filter (fun e => bool_decide (emp_DepartmentID e ∉ doomed)) (employees s))
               (departments_id_seq s) (employees_id_seq s)
  else s.

End Sql.

(** ** The database handle

    The statements the program issues, on the connection pool ([db]) or on
    a transaction ([tx]).  Any of them may be failed by the store. *)

Inductive Handle := Pool | Tx.

Inductive Stmt :=
| SelectDepartment (id : Z)
| CountSiblings (name : string) (parent : option Z) (self : option Z)
| PluckChildren (parent : Z)
| SelectChildrenIn (ids : list Z)
| SelectEmployeesIn (ids : list Z) (order : string)
| InsertDepartment
| InsertEmployee
| UpdateDepartment (id : Z)
| UpdateEmployeesDepartment (from to : Z)
| UpdateDepartmentsParent (from to : Z)
| DeleteDepartment (id : Z)
| Begin
| Commit
| Rollback.

(** What a hook or [CheckCycle] sees of the handle it is given: the rows
    and the statements that fail. *)
Record Conn := mkConn {
  conn_rows : Store;
  conn_fails : Stmt -> bool
}.

(** [tx.Model(&Department{}).Where("name = ? AND parent_id = ?", ...).Count(&count)],
    with [.Where("id != ?", ...)] when [self] is given *)
Definition Count (tx : Conn) (name : string) (parent self : option Z) : Result Z :=
  if conn_fails tx (CountSiblings name parent self) then Err ErrStore
  else Ok (Sql.count_siblings (conn_rows tx) name parent self).

(** [db.Model(&Department{}).Where("parent_id = ?", id).Pluck("id", &ids)] *)
Definition Pluck (db : Conn) (id : Z) : Result (list Z) :=
  if conn_fails db (PluckChildren id) then Err ErrStore
  else Ok (Sql.pluck_children (conn_rows db) id).

(** ** [models.go]: the hooks and the cycle check *)

Definition set_Name (d : Department) (name : string) : Department :=
  mkDepartment (dept_ID d) name (dept_ParentID d) (dept_CreatedAt d)
    (dept_Children d) (dept_Employees d).

Definition set_FullName (e : Employee) (v : string) : Employee :=
  mkEmployee (emp_ID e) (emp_DepartmentID e) v (emp_Position e) (emp_HiredAt e) (emp_CreatedAt e).

Definition set_Position (e : Employee) (v : string) : Employee :=
  mkEmployee (emp_ID e) (emp_DepartmentID e) (emp_FullName e) v (emp_HiredAt e) (emp_CreatedAt e).

(** [func (d *Department) BeforeSave(tx *gorm.DB) error]: the record as the
    method leaves it, and the error. *)
Definition Department_BeforeSave (tx : Conn) (d : Department) : Department * option error :=
  let d := set_Name d (GoString.TrimSpace (dept_Name d)) in
  if GoString.len (dept_Name d) =? 0 then
    (d, Some (errors_New "name cannot be empty"))
  else if GoString.len (dept_Name d) >? 200 then
    (d, Some (errors_New "name too long (max 200)"))
  else
    match Count tx (dept_Name d) (dept_ParentID d)
                (if dept_ID d =? 0 then None else Some (dept_ID d)) with
    | Err err => (d, Some err)
    | Ok count =>
        if count >? 0 then
          (d, Some (errors_New "department name must be unique within the same parent"))
        else (d, None)
    end.

(** [func (e *Employee) BeforeSave(tx *gorm.DB) error] *)
Definition Employee_BeforeSave (tx : Conn) (e : Employee) : Employee * option error :=
  let e := set_FullName e (GoString.TrimSpace (emp_FullName e)) in
  if GoString.len (emp_FullName e) =? 0 then
    (e, Some (errors_New "full_name cannot be empty"))
  else if GoString.len (emp_FullName e) >? 200 then
    (e, Some (errors_New "full_name too long (max 200)"))
  else
    let e := set_Position e (GoString.TrimSpace (emp_Position e)) in
    if GoString.len (emp_Position e) =? 0 then
      (e, Some (errors_New "position cannot be empty"))
    else if GoString.len (emp_Position e) >? 200 then
      (e, Some (errors_New "position too long (max 200)"))
    else (e, None).

(** The loop of [CheckCycle]: [None] when the fuel runs out, which the fuel
    of [CheckCycle] excludes ([cycleLoop_fuel]). *)
Fixpoint cycleLoop (fuel : nat) (db : Conn) (newParentID : Z) (queue : list Z)
    (visited : gset Z) : option (option error) :=
  match fuel with
  | O => None
  | S fuel' =>
      match queue with
      | [] => Some None
      | current :: queue' =>
          if decide (current ∈ visited) then
            cycleLoop fuel' db newParentID queue' visited
          else
            let visited' := {[current]} ∪ visited in
            if current =? newParentID then
              Some (Some (errors_New "cannot move department inside its own subtree"))
            else
              match Pluck db current with
              | Err err => Some (Some err)
              | Ok children =>
                  cycleLoop fuel' db newParentID (queue' ++ children) visited'
              end
      end
  end.

(** [func (d *Department) CheckCycle(db *gorm.DB, newParentID *int) error] *)
Definition CheckCycle (db : Conn) (d : Department) (newParentID : option Z) : option error :=
  match newParentID with
  | None => None
  | Some newParent =>
      if newParent =? dept_ID d then
        Some (errors_New "cannot be parent of itself")
      else
        match Pluck db (dept_ID d) with
        | Err err => Some err
        | Ok childIDs =>
            match cycleLoop (Sql.walk_fuel (conn_rows db) childIDs) db newParent childIDs
                    {[dept_ID d]} with
            | Some result => result
            | None => None
            end
        end
  end.

(** ** The world of a request

    The committed rows, the rows of the open transaction if there is one,
    the failures the store will report, the statements issued so far (the
    latest last), the clock, and the option [SkipHooks] of the session of
    the handle the handlers are given: [main] builds it with the default,
    [false], so that GORM runs the hooks of a model before it creates,
    saves or updates. *)

Record World := mkWorld {
  committed : Store;
  pending : option Store;
  fails : Handle -> Stmt -> bool;
  trace : list (Handle * Stmt);
  now : Time;
  SkipHooks : bool
}.

Definition M (A : Type) : Type := World -> A * World.

Definition ret {A} (a : A) : M A := fun w => (a, w).

Definition bind {A B} (c : M A) (k : A -> M B) : M B :=
  fun w => let '(a, w') := c w in k a w'.

Notation "x <- c ;; k" := (bind c (fun x => k))
  (at level 100, c at next level, right associativity).
Notation "c ;;; k" := (bind c (fun _ => k))
  (at level 100, right associativity).

Module gorm.

Definition view (w : World) (h : Handle) : option Store :=
  match h with
  | Pool => Some (committed w)
  | Tx => pending w
  end.

Definition logged (w : World) (h : Handle) (q : Stmt) : World :=
  mkWorld (committed w) (pending w) (fails w) (trace w ++ [(h, q)]) (now w) (SkipHooks w).

Definition log (h : Handle) (q : Stmt) : M unit :=
  fun w => (tt, logged w h q).

Definition failing (h : Handle) (q : Stmt) : M bool :=
  fun w => (fails w h q, w).

Definition rows (h : Handle) : M (option Store) :=
  fun w => (view w h, w).

Definition conn (h : Handle) : M (option Conn) :=
  fun w => (option_map (fun s => mkConn s (fails w h)) (view w h), w).

(** The pool itself, as [CheckCycle] is given it. *)
Definition pool : M Conn :=
  fun w => (mkConn (committed w) (fails w Pool), w).

Definition write (h : Handle) (s : Store) : M unit :=
  fun w =>
    (tt, match h with
         | Pool => mkWorld s (pending w) (fails w) (trace w) (now w) (SkipHooks w)
         | Tx => mkWorld (committed w) (Some s) (fails w) (trace w) (now w) (SkipHooks w)
         end).

Definition clock : M Time := fun w => (now w, w).

Definition skipHooks : M bool := fun w => (SkipHooks w, w).

(** A statement that only reads. *)
Definition query {A} (h : Handle) (q : Stmt) (f : Store -> Result A) : M (Result A) :=
  log h q ;;;
  bad <- failing h q ;;
  s <- rows h ;;
  ret (match bad, s with
       | false, Some s => f s
       | _, _ => Err ErrStore
       end).

Definition scan (r : DeptRow) : Department :=
  mkDepartment (row_id r) (row_name r) (row_parent_id r) (row_created_at r) [] [].

Definition row_of (d : Department) : DeptRow :=
  mkDeptRow (dept_ID d) (dept_Name d) (dept_ParentID d) (dept_CreatedAt d).

(** [db.First(&dept, id)] *)
Definition First (h : Handle) (id : Z) : M (Result Department) :=
  query h (SelectDepartment id) (fun s =>
    match Sql.select_department s id with
    | Some r => Ok (scan r)
    | None => Err ErrRecordNotFound
    end).

(** [db.Where("parent_id IN ?", ids).Find(&children)] *)
Definition Find_children (h : Handle) (ids : list Z) : M (Result (list Department)) :=
  query h (SelectChildrenIn ids) (fun s => Ok (map scan (Sql.select_children_in s ids))).

(** [db.Create(&dept)]: the [BeforeSave] hook on the record, then the
    insertion; the record gets its identifier and its creation time. *)
Definition Create_Department (h : Handle) (d : Department) : M (Result Department) :=
  log h InsertDepartment ;;;
  c <- conn h ;;
  match c with
  | None => ret (Err ErrStore)
  | Some c =>
      skip <- skipHooks ;;
      let '(d, err) := if (skip : bool) then (d, None) else Department_BeforeSave c d in
      match err with
      | Some err => ret (Err err)
      | None =>
          bad <- failing h InsertDepartment ;;
          if (bad : bool) then ret (Err ErrStore)
          else
            t <- clock ;;
            let '(s, r) := Sql.insert_department (conn_rows c) (dept_Name d) (dept_ParentID d) t in
            write h s ;;;
            ret (match r with
                 | Some r => Ok (mkDepartment (row_id r) (dept_Name d) (dept_ParentID d)
                                   (row_created_at r) (dept_Children d) (dept_Employees d))
                 | None => Err ErrStore
                 end)
      end
  end.

(** [db.Create(&emp)] *)
Definition Create_Employee (h : Handle) (e : Employee) : M (Result Employee) :=
  log h InsertEmployee ;;;
  c <- conn h ;;
  match c with
  | None => ret (Err ErrStore)
  | Some c =>
      skip <- skipHooks ;;
      let '(e, err) := if (skip : bool) then (e, None) else Employee_BeforeSave c e in
      match err with
      | Some err => ret (Err err)
      | None =>
          bad <- failing h InsertEmployee ;;
          if (bad : bool) then ret (Err ErrStore)
          else
            t <- clock ;;
            let '(s, r) := Sql.insert_employee (conn_rows c) e t in
            write h s ;;;
            ret (match r with
                 | Some r => Ok r
                 | None => Err ErrStore
                 end)
      end
  end.

(** [db.Save(&dept)] of a record that was read from the store: the
    [BeforeSave] hook, then the update of its row. *)
Definition Save_Department (h : Handle) (d : Department) : M (Result Department) :=
  log h (UpdateDepartment (dept_ID d)) ;;;
  c <- conn h ;;
  match c with
  | None => ret (Err ErrStore)
  | Some c =>
      skip <- skipHooks ;;
      let '(d, err) := if (skip : bool) then (d, None) else Department_BeforeSave c d in
      match err with
      | Some err => ret (Err err)
      | None =>
          bad <- failing h (UpdateDepartment (dept_ID d)) ;;
          if (bad : bool) then ret (Err ErrStore)
          else
            match Sql.update_department (conn_rows c) (row_of d) with
            | Some s => write h s ;;; ret (Ok d)
            | None => ret (Err ErrStore)
            end
      end
  end.

(** [tx.Model(&Employee{}).Where("department_id = ?", from).Update("department_id", to)]:
    [Update] runs the hooks of the model it is given, here the zero
    [Employee], before the statement (it is [UpdateColumn] that skips them). *)
Definition Update_Employees_department (h : Handle) (from to : Z) : M (option error) :=
  log h (UpdateEmployeesDepartment from to) ;;;
  c <- conn h ;;
  match c with
  | None => ret (Some ErrStore)
  | Some c =>
      skip <- skipHooks ;;
      match (if (skip : bool) then None
             else snd (Employee_BeforeSave c (mkEmployee 0 0 "" "" None 0))) with
      | Some err => ret (Some err)
      | None =>
          bad <- failing h (UpdateEmployeesDepartment from to) ;;
          if (bad : bool) then ret (Some ErrStore)
          else
            match Sql.update_employees_department (conn_rows c) from to with
            | Some s => write h s ;;; ret None
            | None => ret (Some ErrStore)
            end
      end
  end.

(** [tx.Model(&Department{}).Where("parent_id = ?", from).Update("parent_id", to)] *)
Definition Update_Departments_parent (h : Handle) (from to : Z) : M (option error) :=
  log h (UpdateDepartmentsParent from to) ;;;
  c <- conn h ;;
  match c with
  | None => ret (Some ErrStore)
  | Some c =>
      skip <- skipHooks ;;
      match (if (skip : bool) then None
             else snd (Department_BeforeSave c (mkDepartment 0 "" None 0 [] []))) with
      | Some err => ret (Some err)
      | None =>
          bad <- failing h (UpdateDepartmentsParent from to) ;;
          if (bad : bool) then ret (Some ErrStore)
          else
            match Sql.update_departments_parent (conn_rows c) from to with
            | Some s => write h s ;;; ret None
            | None => ret (Some ErrStore)
            end
      end
  end.

(** [tx.Delete(&dept)] *)
Definition Delete (h : Handle) (d : Department) : M (option error) :=
  log h (DeleteDepartment (dept_ID d)) ;;;
  bad <- failing h (DeleteDepartment (dept_ID d)) ;;
  s <- rows h ;;
  match bad, s with
  | false, Some s => write h (Sql.delete_department s (dept_ID d)) ;;; ret None
  | _, _ => ret (Some ErrStore)
  end.

(** [db.Begin()]: the error is the field [tx.Error]. *)
Definition Begin : M (option error) :=
  log Pool Begin ;;;
  bad <- failing Pool Begin ;;
  if (bad : bool) then ret (Some ErrStore)
  else fun w =>
         (None, mkWorld (committed w) (Some (committed w)) (fails w) (trace w) (now w)
                  (SkipHooks w)).

(** [tx.Commit()]: the rows of the transaction become the committed ones;
    a commit that fails leaves them as they were. *)
Definition Commit : M (option error) :=
  log Tx Commit ;;;
  bad <- failing Tx Commit ;;
  fun w =>
    match bad, pending w with
    | false, Some s => (None, mkWorld s None (fails w) (trace w) (now w) (SkipHooks w))
    | _, _ =>
        (Some ErrStore, mkWorld (committed w) None (fails w) (trace w) (now w) (SkipHooks w))
    end.

(** [tx.Rollback()] *)
Definition Rollback : M unit :=
  log Tx Rollback ;;;
  fun w => (tt, mkWorld (committed w) None (fails w) (trace w) (now w) (SkipHooks w)).

End gorm.

(** ** [handlers.go]: requests and responses *)

Record CreateDepartmentRequest := mkCreateDepartmentRequest {
  cdr_Name : string;
  cdr_ParentID : option Z
}.

Record UpdateDepartmentRequest := mkUpdateDepartmentRequest {
  udr_Name : option string;
  udr_ParentID : option Z
}.

Record CreateEmployeeRequest := mkCreateEmployeeRequest {
  cer_FullName : string;
  cer_Position : string;
  cer_HiredAt : option Time
}.

Record EmployeeResponse := mkEmployeeResponse {
  eresp_ID : Z;
  eresp_DepartmentID : Z;
  eresp_FullName : string;
  eresp_Position : string;
  eresp_HiredAt : option Time;
  eresp_CreatedAt : Time
}.

Inductive DepartmentResponse := mkDepartmentResponse {
  resp_ID : Z;
  resp_Name : string;
  resp_ParentID : option Z;
  resp_CreatedAt : Time;
  resp_Employees : list EmployeeResponse;
  resp_Children : list DepartmentResponse
}.

Inductive Body :=
| NoBody
| ErrorBody (message : string)
| DepartmentBody (d : Department)
| EmployeeBody (e : Employee)
| TreeBody (r : DepartmentResponse).

Record Response := mkResponse {
  status : Z;
  body : Body
}.

Definition StatusOK := 200.
Definition StatusCreated := 201.
Definition StatusNoContent := 204.
Definition StatusBadRequest := 400.
Definition StatusNotFound := 404.
Definition StatusConflict := 409.
Definition StatusInternalServerError := 500.

Definition respondJSON (status : Z) (data : Body) : Response := mkResponse status data.

Definition respondError (status : Z) (message : string) : Response :=
  respondJSON status (ErrorBody message).

(** [errors.Is(err, gorm.ErrRecordNotFound)] *)
Definition isRecordNotFound (err : error) : bool :=
  match err with
  | ErrRecordNotFound => true
  | _ => false
  end.

(** [r.URL.Query()]: the pairs of the query string in their order; [Get]
    gives the first value of a key, and the empty string when there is
    none. *)
Definition Values := list (string * string).

Fixpoint Get (v : Values) (key : string) : string :=
  match v with
  | [] => ""
  | (k, x) :: v' => if String.eqb k key then x else Get v' key
  end.

(** ** 1) [createDepartment]; the body is [None] when it does not decode. *)
Definition createDepartment (body : option CreateDepartmentRequest) : M Response :=
  match body with
  | None => ret (respondError StatusBadRequest "invalid request body")
  | Some req =>
      parent <- match cdr_ParentID req with
                | Some pid =>
                    r <- gorm.First Pool pid ;;
                    ret (match r with Err err => Some err | Ok _ => None end)
                | None => ret None
                end ;;
      match parent with
      | Some err =>
          ret (if isRecordNotFound err
               then respondError StatusNotFound "parent department not found"
               else respondError StatusInternalServerError "database error")
      | None =>
          r <- gorm.Create_Department Pool
                 (mkDepartment 0 (cdr_Name req) (cdr_ParentID req) 0 [] []) ;;
          ret (match r with
               | Err err => respondError StatusBadRequest (Error err)
               | Ok dept => respondJSON StatusCreated (DepartmentBody dept)
               end)
      end
  end.

(** ** 2) [createEmployee] *)
Definition createEmployee (idStr : string) (body : option CreateEmployeeRequest) : M Response :=
  match strconv.Atoi idStr with
  | None => ret (respondError StatusBadRequest "invalid department id")
  | Some deptID =>
      r <- gorm.First Pool deptID ;;
      match r with
      | Err err =>
          ret (if isRecordNotFound err
               then respondError StatusNotFound "department not found"
               else respondError StatusInternalServerError "database error")
      | Ok _ =>
          match body with
          | None => ret (respondError StatusBadRequest "invalid request body")
          | Some req =>
              r <- gorm.Create_Employee Pool
                     (mkEmployee 0 deptID (cer_FullName req) (cer_Position req)
                        (cer_HiredAt req) 0) ;;
              ret (match r with
                   | Err err => respondError StatusBadRequest (Error err)
                   | Ok emp => respondJSON StatusCreated (EmployeeBody emp)
                   end)
          end
      end
  end.

(** ** 4) [updateDepartment] *)
Definition updateDepartment (idStr : string) (body : option UpdateDepartmentRequest)
    : M Response :=
  match strconv.Atoi idStr with
  | None => ret (respondError StatusBadRequest "invalid department id")
  | Some deptID =>
      match body with
      | None => ret (respondError StatusBadRequest "invalid request body")
      | Some req =>
          r <- gorm.First Pool deptID ;;
          match r with
          | Err err =>
              ret (if isRecordNotFound err
                   then respondError StatusNotFound "department not found"
                   else respondError StatusInternalServerError "database error")
          | Ok dept =>
              moved <-
                match udr_ParentID req with
                | Some pid =>
                    parent <- (if negb (pid =? 0)
                               then r <- gorm.First Pool pid ;;
                                    ret (match r with Err err => Some err | Ok _ => None end)
                               else ret None) ;;
                    match parent with
                    | Some err =>
                        ret (inl (if isRecordNotFound err
                                  then respondError StatusNotFound "parent department not found"
                                  else respondError StatusInternalServerError "database error"))
                    | None =>
                        db <- gorm.pool ;;
                        match CheckCycle db dept (Some pid) with
                        | Some err => ret (inl (respondError StatusConflict (Error err)))
                        | None =>
                            ret (inr (mkDepartment (dept_ID dept) (dept_Name dept) (Some pid)
                                        (dept_CreatedAt dept) (dept_Children dept)
                                        (dept_Employees dept)))
                        end
                    end
                | None => ret (inr dept)
                end ;;
              match moved with
              | inl response => ret response
              | inr dept =>
                  let dept := match udr_Name req with
                              | Some name => set_Name dept name
                              | None => dept
                              end in
                  r <- gorm.Save_Department Pool dept ;;
                  ret (match r with
                       | Err err => respondError StatusBadRequest (Error err)
                       | Ok dept => respondJSON StatusOK (DepartmentBody dept)
                       end)
              end
          end
      end
  end.

(** ** 5) [deleteDepartment] *)
Definition deleteDepartment (idStr : string) (q : Values) : M Response :=
  match strconv.Atoi idStr with
  | None => ret (respondError StatusBadRequest "invalid department id")
  | Some deptID =>
      let mode := Get q "mode" in
      let mode := if String.eqb mode "" then "cascade" else mode in
      let reassignToStr := Get q "reassign_to_department_id" in
      match (if String.eqb reassignToStr "" then Some None
             else option_map Some (strconv.Atoi reassignToStr)) with
      | None => ret (respondError StatusBadRequest "invalid reassign_to_department_id")
      | Some reassignTo =>
          if String.eqb mode "reassign" && bool_decide (reassignTo = None) then
            ret (respondError StatusBadRequest
                   "reassign_to_department_id is required for reassign mode")
          else
            r <- gorm.First Pool deptID ;;
            match r with
            | Err err =>
                ret (if isRecordNotFound err
                     then respondError StatusNotFound "department not found"
                     else respondError StatusInternalServerError "database error")
            | Ok dept =>
                err <- gorm.Begin ;;
                match err with
                | Some _ => ret (respondError StatusInternalServerError "transaction error")
                | None =>
                    let commit : M Response :=
                      err <- gorm.Commit ;;
                      ret (match err with
                           | Some err => respondError StatusInternalServerError (Error err)
                           | None => mkResponse StatusNoContent NoBody
                           end) in
                    let abort (err : error) : M Response :=
                      gorm.Rollback ;;;
                      ret (respondError StatusInternalServerError (Error err)) in
                    if String.eqb mode "cascade" then
                      err <- gorm.Delete Tx dept ;;
                      match err with
                      | Some err => abort err
                      | None => commit
                      end
                    else if String.eqb mode "reassign" then
                      match reassignTo with
                      | None =>
                          (* a nil dereference: the deferred [recover] rolls back
                             and the handler ends without writing a response *)
                          gorm.Rollback ;;; ret (mkResponse StatusOK NoBody)
                      | Some target =>
                          r <- gorm.First Tx target ;;
                          match r with
                          | Err err =>
                              gorm.Rollback ;;;
                              ret (if isRecordNotFound err
                                   then respondError StatusNotFound
                                          "reassign target department not found"
                                   else respondError StatusInternalServerError "database error")
                          | Ok _ =>
                              err <- gorm.Update_Employees_department Tx deptID target ;;
                              match err with
                              | Some err => abort err
                              | None =>
                                  err <- gorm.Update_Departments_parent Tx deptID target ;;
                                  match err with
                                  | Some err => abort err
                                  | None =>
                                      err <- gorm.Delete Tx dept ;;
                                      match err with
                                      | Some err => abort err
                                      | None => commit
                                      end
                                  end
                              end
                          end
                      end
                    else
                      ret (respondError StatusBadRequest "mode must be 'cascade' or 'reassign'")
                end
            end
      end
  end.

(** ** 3) [getDepartment] *)

Record deptNode := mkDeptNode {
  node_Department : Department;
  node_Level : Z
}.

Record GetParams := mkGetParams {
  depth : Z;
  includeEmployees : bool;
  sortBy : string
}.

(** The query parameters (lines 137-162): the response of the handler when
    one is refused, and their values otherwise. *)
Definition getDepartment_params (q : Values) : Response + GetParams :=
  let d := Get q "depth" in
  match (if negb (String.eqb d "")
         then match strconv.Atoi d with
              | Some val => if (val >=? 1) && (val <=? 5) then Some val else None
              | None => None
              end
         else Some 1) with
  | None => inl (respondError StatusBadRequest "depth must be integer between 1 and 5")
  | Some depth =>
      let ie := Get q "include_employees" in
      match (if negb (String.eqb ie "") then strconv.ParseBool ie else Some true) with
      | None => inl (respondError StatusBadRequest "include_employees must be boolean")
      | Some includeEmployees =>
          let sortBy := Get q "sort_employees" in
          if String.eqb sortBy "" then inr (mkGetParams depth includeEmployees "full_name")
          else if negb (String.eqb sortBy "full_name") && negb (String.eqb sortBy "created_at")
          then inl (respondError StatusBadRequest
                      "sort_employees must be 'full_name' or 'created_at'")
          else inr (mkGetParams depth includeEmployees sortBy)
      end
  end.

Definition employeeResponse (emp : Employee) : EmployeeResponse :=
  mkEmployeeResponse (emp_ID emp) (emp_DepartmentID emp) (emp_FullName emp)
    (emp_Position emp) (emp_HiredAt emp) (emp_CreatedAt emp).

(** The closure [toResponse] of the handler, with the variables it
    captures as its first arguments. *)
Fixpoint toResponse (includeEmployees : bool) (depth : Z) (dept : Department)
    (currentDepth : Z) : DepartmentResponse :=
  mkDepartmentResponse (dept_ID dept) (dept_Name dept) (dept_ParentID dept)
    (dept_CreatedAt dept)
    (if includeEmployees then map employeeResponse (dept_Employees dept) else [])
    (if currentDepth <? depth
     then map (fun child => toResponse includeEmployees depth child (currentDepth + 1))
              (dept_Children dept)
     else []).

(** [parent.Children = append(parent.Children, node.Department)] for the
    node of key [k]: the node of the parent is updated in place, and what
    is appended is a copy of the child as it is at that moment. *)
Definition link (deptMap : gmap Z deptNode) (k : Z) : gmap Z deptNode :=
  match deptMap !! k with
  | Some node =>
      match dept_ParentID (node_Department node) with
      | Some pid =>
          match deptMap !! pid with
          | Some parent =>
              let p := node_Department parent in
              <[pid := mkDeptNode
                         (mkDepartment (dept_ID p) (dept_Name p) (dept_ParentID p)
                            (dept_CreatedAt p) (dept_Children p ++ [node_Department node])
                            (dept_Employees p))
                         (node_Level parent)]> deptMap
          | None => deptMap
          end
      | None => deptMap
      end
  | None => deptMap
  end.

(** [empMap[emp.DepartmentID] = append(empMap[emp.DepartmentID], emp)] *)
Definition groupEmployee (empMap : gmap Z (list Employee)) (emp : Employee)
    : gmap Z (list Employee) :=
  <[emp_DepartmentID emp := (default [] (empMap !! emp_DepartmentID emp) ++ [emp])%list]> empMap.

(** [node.Employees = empMap[node.ID]] *)
Definition setEmployees (empMap : gmap Z (list Employee)) (node : deptNode) : deptNode :=
  let d := node_Department node in
  mkDeptNode (mkDepartment (dept_ID d) (dept_Name d) (dept_ParentID d) (dept_CreatedAt d)
                (dept_Children d) (default [] (empMap !! dept_ID d)))
             (node_Level node).

Section GetDepartment.

(** The order in which [range] enumerates the keys of a Go map is not
    specified; the order of the rows of an [ORDER BY] is the store's. *)
Variable rangeKeys : gmap Z deptNode -> list Z.
Variable orderBy : string -> list Employee -> list Employee.

(** [query.Order(sortBy).Find(&employees)] *)
Definition Find_employees (h : Handle) (ids : list Z) (order : string)
    : M (Result (list Employee)) :=
  gorm.query h (SelectEmployeesIn ids order)
    (fun s => Ok (orderBy order (Sql.select_employees_in s ids))).

(** [for level := 1; level <= depth; level++], with [n] levels left. *)
Fixpoint loadLevels (n : nat) (level : Z) (currentIDs : list Z)
    (deptMap : gmap Z deptNode) : M (Result (gmap Z deptNode)) :=
  match n with
  | O => ret (Ok deptMap)
  | S n' =>
      match currentIDs with
      | [] => ret (Ok deptMap)
      | _ =>
          r <- gorm.Find_children Pool currentIDs ;;
          match r with
          | Err err => ret (Err err)
          | Ok children =>
              loadLevels n' (level + 1) (map dept_ID children)
                (fold_left (fun m child => <[dept_ID child := mkDeptNode child level]> m)
                           children deptMap)
          end
      end
  end.

(** Lines 175-233: the tree built in [deptMap]. *)
Definition buildTree (p : GetParams) (rootDept : Department)
    : M (Result (gmap Z deptNode)) :=
  r <- loadLevels (Z.to_nat (depth p)) 1 [dept_ID rootDept]
         {[dept_ID rootDept := mkDeptNode rootDept 0]} ;;
  match r with
  | Err err => ret (Err err)
  | Ok deptMap =>
      let deptMap := fold_left link (rangeKeys deptMap) deptMap in
      if includeEmployees p then
        r <- Find_employees Pool (rangeKeys deptMap) (sortBy p) ;;
        match r with
        | Err err => ret (Err err)
        | Ok employees =>
            let empMap := fold_left groupEmployee employees ∅ in
            ret (Ok (setEmployees empMap <$> deptMap))
        end
      else ret (Ok deptMap)
  end.

Definition getDepartment (idStr : string) (q : Values) : M Response :=
  match strconv.Atoi idStr with
  | None => ret (respondError StatusBadRequest "invalid department id")
  | Some deptID =>
      match getDepartment_params q with
      | inl response => ret response
      | inr p =>
          r <- gorm.First Pool deptID ;;
          match r with
          | Err err =>
              ret (if isRecordNotFound err
                   then respondError StatusNotFound "department not found"
                   else respondError StatusInternalServerError "database error")
          | Ok rootDept =>
              r <- buildTree p rootDept ;;
              match r with
              | Err _ => ret (respondError StatusInternalServerError "database error")
              | Ok _ =>
                  (* the response is rendered from [rootDept], not from its
                     node in [deptMap] *)
                  ret (respondJSON StatusOK
                         (TreeBody (toResponse (includeEmployees p) (depth p) rootDept 0)))
              end
          end
      end
  end.

End GetDepartment.

(** ** Notions of the specification *)

(** [c] is a child of [a]: a stored department whose [parent_id] is [a]. *)
Definition child_of (s : Store) (a c : Z) : Prop :=
  exists r, In r (departments s) /\ row_id r = c /\ row_parent_id r = Some a.

(** [x] is a descendant of [a]: reachable from [a] by one or more steps
    from a department to a child of it. *)
Inductive descendant (s : Store) (a : Z) : Z -> Prop :=
| descendant_child c :
    child_of s a c -> descendant s a c
| descendant_step c x :
    descendant s a c -> child_of s c x -> descendant s a x.

(** The store reports no failure. *)
Definition healthy (w : World) : Prop := forall h q, fails w h q = false.

(** The rows whose parent has not been expanded by a traversal that has
    visited [visited]: with the length of the queue, what bounds the steps
    that are left. *)
Definition unexpanded (s : Store) (visited : gset Z) : nat :=
  List.length (List.filter (fun r => match row_parent_id r with
                                | Some x => bool_decide (x ∉ visited)
                                | None => false
                                end) (departments s)).

(** The statements of a handler that opens at most one transaction, works
    in it only, and closes it: a read on the pool, [Begin], statements on
    the transaction, and [Commit] or [Rollback] as the last one. *)
Definition in_one_transaction (t : list (Handle * Stmt)) : Prop :=
  t = []
  \/ (exists q, t = [(Pool, q)])
  \/ (exists q, t = [(Pool, q); (Pool, Begin)])
  \/ (exists q steps final,
        t = ([(Pool, q); (Pool, Begin)] ++ map (pair Tx) steps ++ [(Tx, final)])%list
        /\ (final = Commit \/ final = Rollback)
        /\ Forall (fun step => step <> Begin /\ step <> Commit /\ step <> Rollback) steps).

(** ** Example data *)

Module Examples.

Definition no_failure : Handle -> Stmt -> bool := fun _ _ => false.

Definition empty : Store := mkStore [] [] 0 0.

(** One department, without a parent. *)
Definition one_root : Store := mkStore [mkDeptRow 1 "IT" None 10] [] 1 0.

(** Four levels: 1 is the root, 2 its child, 3 under 2, 4 under 3; one
    employee in 2 and one in 3. *)
Definition chain : Store :=
  mkStore [mkDeptRow 1 "Org" None 10; mkDeptRow 2 "Eng" (Some 1) 20;
           mkDeptRow 3 "Backend" (Some 2) 30; mkDeptRow 4 "Storage" (Some 3) 40]
          [mkEmployee 1 2 "Bob Stone" "Manager" None 50;
           mkEmployee 2 3 "Alice Smith" "Engineer" None 60]
          4 2.

(** A root with two children, the one that sorts first by name stored
    last. *)
Definition fork : Store :=
  mkStore [mkDeptRow 1 "Org" None 10; mkDeptRow 2 "Sales" (Some 1) 20;
           mkDeptRow 3 "Eng" (Some 1) 30]
          [] 3 0.

Definition world (s : Store) : World := mkWorld s None no_failure [] 100 false.

(** The same with a handle whose session skips the hooks. *)
Definition world_without_hooks (s : Store) : World := mkWorld s None no_failure [] 100 true.

(** Two enumerations of the keys of a map (of the keys from 1 to 8, which
    is all the examples have), and the order of rows as stored. *)
Definition ascending (m : gmap Z deptNode) : list Z :=
  List.filter (fun k => bool_decide (is_Some (m !! k))) [1; 2; 3; 4; 5; 6; 7; 8].
Definition descending (m : gmap Z deptNode) : list Z := rev (ascending m).
Definition as_stored (_ : string) (l : list Employee) : list Employee := l.

(** [n] times the two bytes of the Cyrillic letter U+0434. *)
Fixpoint cyrillic (n : nat) : string :=
  match n with
  | O => ""
  | S n' => String (ascii_of_nat 208) (String (ascii_of_nat 180) (cyrillic n'))
  end.

End Examples.

(** ** Tactics for running a handler on a symbolic world *)

Ltac run_handler :=
  cbv [bind ret gorm.First gorm.query gorm.log gorm.logged gorm.failing gorm.rows
       gorm.conn gorm.pool gorm.write gorm.clock gorm.skipHooks gorm.view gorm.Begin
       gorm.Commit
       gorm.Rollback gorm.Delete gorm.Update_Employees_department
       gorm.Update_Departments_parent option_map];
  cbn [committed pending fails trace now SkipHooks fst snd].

Ltac branch :=
  match goal with
  | |- context [if fails ?w ?h ?q then _ else _] => destruct (fails w h q) eqn:?
  | |- context [match Sql.select_department ?s ?i with _ => _ end] =>
      destruct (Sql.select_department s i) eqn:?
  | |- context [match pending ?w with _ => _ end] => destruct (pending w) eqn:?
  | |- context [if SkipHooks ?w then _ else _] => destruct (SkipHooks w) eqn:?
  | |- context [match Sql.update_employees_department ?s ?a ?b with _ => _ end] =>
      destruct (Sql.update_employees_department s a b) eqn:?
  | |- context [match Sql.update_departments_parent ?s ?a ?b with _ => _ end] =>
      destruct (Sql.update_departments_parent s a b) eqn:?
  end; cbn [committed pending fails trace now SkipHooks fst snd isRecordNotFound conn_rows].

Ltac one_transaction :=
  eexists; split; [rewrite <- ?app_assoc; reflexivity|];
  first
    [ left; reflexivity
    | right; left; eexists; reflexivity
    | right; right; left; eexists; reflexivity
    | right; right; right; eexists _, [], _; split; [reflexivity|];
      split; [auto|constructor]
    | right; right; right; eexists _, [_], _; split; [reflexivity|];
      split; [auto|repeat constructor; discriminate]
    | right; right; right; eexists _, [_; _], _; split; [reflexivity|];
      split; [auto|repeat constructor; discriminate]
    | right; right; right; eexists _, [_; _; _], _; split; [reflexivity|];
      split; [auto|repeat constructor; discriminate]
    | right; right; right; eexists _, [_; _; _; _], _; split; [reflexivity|];
      split; [auto|repeat constructor; discriminate] ].

Ltac run_healthy H :=
  repeat (progress (cbn [committed pending fails trace now SkipHooks fst snd]; rewrite ?H)).

Ltac run_deployed Hh Hk :=
  repeat (progress (cbn [committed pending fails trace now SkipHooks fst snd];
                    rewrite ?Hh, ?Hk)).

Ltac wrong_status :=
  let H := fresh in intros H; cbn in H; discriminate H.

Ltac run_create :=
  cbv [createDepartment createEmployee gorm.Create_Department gorm.Create_Employee];
  run_handler;
  cbn [cdr_Name cdr_ParentID cer_FullName cer_Position cer_HiredAt].

(** The identifiers of the children linked to the node of the root by
    lines 175-233, for a request of depth 1 on [root] and an enumeration
    [keys] of the map. *)
Definition linked_children (keys : gmap Z deptNode -> list Z) (s : Store) (root : DeptRow)
    : list Z :=
  match fst (buildTree keys (fun _ l => l) (mkGetParams 1 true "full_name")
               (gorm.scan root) (mkWorld s None (fun _ _ => false) [] 0 false)) with
  | Ok deptMap =>
      match deptMap !! row_id root with
      | Some node => map dept_ID (dept_Children (node_Department node))
      | None => []
      end
  | Err _ => []
  end.

(** ** Invariants of the store, and measures of a response *)

(** The integrity that the schema declares and the sequences give: the
    identifiers are positive, at most the last value of their sequence,
    and each is used once (the primary keys); every [parent_id] and every
    [department_id] is the identifier of a stored department (the foreign
    keys). *)
Definition consistent (s : Store) : Prop :=
  0 <= departments_id_seq s /\ 0 <= employees_id_seq s
  /\ NoDup (map row_id (departments s))
  /\ NoDup (map emp_ID (employees s))
  /\ (forall r, In r (departments s) ->
        0 < row_id r <= departments_id_seq s /\ Sql.fk_ok s (row_parent_id r) = true)
  /\ (forall e, In e (employees s) ->
        0 < emp_ID e <= employees_id_seq s
        /\ Sql.has_department s (emp_DepartmentID e) = true).

(** The departments form a forest: no department is among its own
    descendants. *)
Definition acyclic (s : Store) : Prop := forall x, ~ descendant s x x.

(** The rule of the hook, as the rows show it: under a parent, a name is
    that of one department at most. *)
Definition unique_sibling_names (s : Store) : Prop :=
  forall name parent, Sql.count_siblings s name (Some parent) None <= 1.

(** What is left of the bytes after a white space at their head, when
    there is one: the step of the scan of [TrimSpace] from the left. *)
Definition leadingSpace (s : list ascii) : option (list ascii) :=
  match s with
  | c1 :: s1 =>
      if GoString.asciiSpace c1 then Some s1
      else match s1 with
           | c2 :: s2 =>
               if GoString.space2 (GoString.byte c1) (GoString.byte c2) then Some s2
               else match s2 with
                    | c3 :: s3 =>
                        if GoString.space3 (GoString.byte c1) (GoString.byte c2)
                             (GoString.byte c3)
                        then Some s3 else None
                    | [] => None
                    end
           | [] => None
           end
  | [] => None
  end.

(** The same for the scan from the right, on the reversed bytes. *)
Definition trailingSpace (s : list ascii) : option (list ascii) :=
  match s with
  | c1 :: s1 =>
      if GoString.asciiSpace c1 then Some s1
      else match s1 with
           | c2 :: s2 =>
               if GoString.space2 (GoString.byte c2) (GoString.byte c1) then Some s2
               else match s2 with
                    | c3 :: s3 =>
                        if GoString.space3 (GoString.byte c3) (GoString.byte c2)
                             (GoString.byte c1)
                        then Some s3 else None
                    | [] => None
                    end
           | [] => None
           end
  | [] => None
  end.

(** A name as the hooks let it through: trimmed, not empty, and of 200
    bytes at most. *)
Definition valid_name (name : string) : Prop :=
  GoString.TrimSpace name = name /\ 1 <= GoString.len name <= 200.

(** The names that are stored are valid. *)
Definition names_valid (s : Store) : Prop :=
  (forall r, In r (departments s) -> valid_name (row_name r))
  /\ (forall e, In e (employees s) -> valid_name (emp_FullName e) /\ valid_name (emp_Position e)).

(** The statements that only read. *)
Definition reads (q : Stmt) : bool :=
  match q with
  | SelectDepartment _ | CountSiblings _ _ _ | PluckChildren _ | SelectChildrenIn _
  | SelectEmployeesIn _ _ => true
  | _ => false
  end.

(** The number of levels of a rendered tree, that of its root included. *)
Fixpoint levels (r : DepartmentResponse) : nat :=
  match r with
  | mkDepartmentResponse _ _ _ _ _ children =>
      S (fold_right (fun child n => Nat.max (levels child) n) O children)
  end.

(** The number of the employees that a rendered tree lists. *)
Fixpoint listed (r : DepartmentResponse) : nat :=
  match r with
  | mkDepartmentResponse _ _ _ _ emps children =>
      (List.length emps + fold_right (fun child n => listed child + n) O children)%nat
  end.

(** [x] is in the [k]-th generation below [a]: [a] itself for 0, the
    children of [a] for 1, their children for 2. *)
Inductive generation (s : Store) : nat -> Z -> Z -> Prop :=
| generation_O a : generation s O a a
| generation_S k a c x : child_of s a c -> generation s k c x -> generation s (S k) a x.

(** The statements of a handler that has written nothing. *)
Definition only_read (w w' : World) (bound : nat) : Prop :=
  exists t, w' = mkWorld (committed w) (pending w) (fails w) (trace w ++ t) (now w)
                   (SkipHooks w)
            /\ Forall (fun hq => fst hq = Pool /\ reads (snd hq) = true) t
            /\ (List.length t <= bound)%nat.

(** * Properties *)

(** ** The library functions, on examples *)

Example TrimSpace_ascii : GoString.TrimSpace "  IT dept   " = "IT dept".
Proof. reflexivity. Qed.

(** A no-break space (U+00A0, bytes 194 160) before and an ideographic
    space (U+3000, bytes 227 128 128) after are trimmed; the space inside
    stays. *)
Example TrimSpace_unicode :
  GoString.TrimSpace
    (String (ascii_of_nat 194) (String (ascii_of_nat 160)
       ("a b" ++ String (ascii_of_nat 227) (String (ascii_of_nat 128)
                   (String (ascii_of_nat 128) "")))))
  = "a b".
Proof. reflexivity. Qed.

Example TrimSpace_blank : GoString.TrimSpace "   " = "".
Proof. reflexivity. Qed.

Example Atoi_examples :
  strconv.Atoi "+3" = Some 3 /\ strconv.Atoi "-12" = Some (-12)
  /\ strconv.Atoi "007" = Some 7 /\ strconv.Atoi "" = None
  /\ strconv.Atoi "-" = None /\ strconv.Atoi "12a" = None
  /\ strconv.Atoi "9223372036854775807" = Some 9223372036854775807
  /\ strconv.Atoi "9223372036854775808" = None.
Proof. repeat split; reflexivity. Qed.

Example ParseBool_examples :
  strconv.ParseBool "T" = Some true /\ strconv.ParseBool "False" = Some false
  /\ strconv.ParseBool "yes" = None.
Proof. repeat split; reflexivity. Qed.

(** ** The traversal of the department tree *)

Section Traversal.

Variable s : Store.

Lemma pluck_children_spec (a c : Z) :
  c ∈ Sql.pluck_children s a <-> child_of s a c.
Proof.
  unfold Sql.pluck_children, child_of. rewrite list_elem_of_In, in_map_iff.
  split.
  - intros (r & Hid & Hr). apply filter_In in Hr as [Hin Hp]. exists r.
    split; [exact Hin|]. split; [exact Hid|].
    destruct (row_parent_id r) as [p|]; [|discriminate]. cbn in Hp.
    apply Z.eqb_eq in Hp. by subst.
  - intros (r & Hin & Hid & Hp). exists r. split; [exact Hid|].
    apply filter_In. split; [exact Hin|]. rewrite Hp. cbn. apply Z.eqb_refl.
Qed.

Lemma unexpanded_le (v : gset Z) :
  (unexpanded s v <= List.length (departments s))%nat.
Proof. unfold unexpanded. apply List.filter_length_le. Qed.

Lemma unexpanded_expand (c : Z) (v : gset Z) :
  c ∉ v ->
  (unexpanded s ({[c]} ∪ v) + List.length (Sql.pluck_children s c) = unexpanded s v)%nat.
Proof.
  intros Hc. unfold unexpanded, Sql.pluck_children.
  rewrite length_map.
  induction (departments s) as [|r rows IH]; simpl; [reflexivity|].
  destruct (row_parent_id r) as [x|]; simpl; [|exact IH].
  destruct (Z.eqb_spec x c) as [->|Hne].
  - rewrite (bool_decide_eq_false_2 (c ∉ {[c]} ∪ v)) by set_solver.
    rewrite (bool_decide_eq_true_2 (c ∉ v)) by assumption.
    simpl. lia.
  - destruct (decide (x ∈ v)) as [Hin|Hout].
    + rewrite (bool_decide_eq_false_2 (x ∉ {[c]} ∪ v)) by set_solver.
      rewrite (bool_decide_eq_false_2 (x ∉ v)) by set_solver.
      exact IH.
    + rewrite (bool_decide_eq_true_2 (x ∉ {[c]} ∪ v)) by set_solver.
      rewrite (bool_decide_eq_true_2 (x ∉ v)) by assumption.
      simpl. lia.
Qed.

(** The traversal ends within the fuel it is given. *)
Lemma walk_enough (fuel : nat) : forall (queue : list Z) (v : gset Z),
  (List.length queue + unexpanded s v < fuel)%nat ->
  is_Some (Sql.walk fuel s queue v).
Proof.
  induction fuel as [|fuel IH]; intros queue v Hlt; [lia|].
  destruct queue as [|c queue]; simpl; [eauto|].
  destruct (decide (c ∈ v)) as [Hin|Hout].
  - apply IH. simpl in Hlt. lia.
  - apply IH. pose proof (unexpanded_expand c v Hout) as Hstep.
    rewrite length_app. simpl in Hlt. lia.
Qed.

Lemma walk_incl (fuel : nat) : forall (queue : list Z) (v R : gset Z),
  Sql.walk fuel s queue v = Some R -> v ⊆ R.
Proof.
  induction fuel as [|fuel IH]; intros queue v R Hwalk; [discriminate|].
  destruct queue as [|c queue]; simpl in Hwalk.
  - injection Hwalk as <-. reflexivity.
  - destruct (decide (c ∈ v)).
    + eauto.
    + apply IH in Hwalk. set_solver.
Qed.

(** What is reached contains the queue and is closed under the step to a
    child, when the visited part is, up to the queue. *)
Lemma walk_closed (fuel : nat) : forall (queue : list Z) (v R : gset Z),
  Sql.walk fuel s queue v = Some R ->
  (forall x c, x ∈ v -> c ∈ Sql.pluck_children s x -> c ∈ v \/ c ∈ queue) ->
  (forall x, x ∈ queue -> x ∈ R)
  /\ (forall x c, x ∈ R -> c ∈ Sql.pluck_children s x -> c ∈ R).
Proof.
  induction fuel as [|fuel IH]; intros queue v R Hwalk Hinv; [discriminate|].
  destruct queue as [|c queue]; simpl in Hwalk.
  - injection Hwalk as <-. split.
    + intros x Hx. inversion Hx.
    + intros x c Hx Hc. destruct (Hinv x c Hx Hc) as [?|Hnil]; [assumption|inversion Hnil].
  - destruct (decide (c ∈ v)) as [Hin|Hout].
    + pose proof (walk_incl _ _ _ _ Hwalk) as Hsub.
      destruct (IH queue v R Hwalk) as [Hq Hcl].
      { intros x c' Hx Hc'. destruct (Hinv x c' Hx Hc') as [?|Hc0]; [by left|].
        apply elem_of_cons in Hc0 as [->|?]; [by left|by right]. }
      split; [|exact Hcl].
      intros x Hx. apply elem_of_cons in Hx as [->|?]; [set_solver|by apply Hq].
    + pose proof (walk_incl _ _ _ _ Hwalk) as Hsub.
      destruct (IH _ _ R Hwalk) as [Hq Hcl].
      { intros x c' Hx Hc'. apply elem_of_union in Hx as [Hx|Hx].
        - apply elem_of_singleton in Hx as ->. right. apply elem_of_app. by right.
        - destruct (Hinv x c' Hx Hc') as [?|Hc0]; [left; set_solver|].
          apply elem_of_cons in Hc0 as [->|?]; [left; set_solver|].
          right. apply elem_of_app. by left. }
      split; [|exact Hcl].
      intros x Hx. apply elem_of_cons in Hx as [->|?]; [set_solver|].
      apply Hq, elem_of_app. by left.
Qed.

(** What is reached satisfies every property of the start that the step
    to a child preserves. *)
Lemma walk_sound (P : Z -> Prop) (fuel : nat) : forall (queue : list Z) (v R : gset Z),
  (forall x c, P x -> c ∈ Sql.pluck_children s x -> P c) ->
  Sql.walk fuel s queue v = Some R ->
  (forall x, x ∈ v -> P x) -> (forall x, x ∈ queue -> P x) ->
  forall x, x ∈ R -> P x.
Proof.
  intros queue v R Hstep. revert queue v R.
  induction fuel as [|fuel IH]; intros queue v R Hwalk Hv Hq; [discriminate|].
  destruct queue as [|c queue]; simpl in Hwalk.
  - injection Hwalk as <-. exact Hv.
  - destruct (decide (c ∈ v)).
    + apply (IH queue v R Hwalk Hv). intros x Hx. apply Hq. by right.
    + apply (IH _ _ R Hwalk).
      * intros x Hx. apply elem_of_union in Hx as [Hx|Hx]; [|by apply Hv].
        apply elem_of_singleton in Hx as ->. apply Hq. by left.
      * intros x Hx. apply elem_of_app in Hx as [Hx|Hx].
        -- apply Hq. by right.
        -- apply (Hstep c); [apply Hq; by left|exact Hx].
Qed.

Lemma descendant_closed (a : Z) (R : gset Z) :
  (forall c, c ∈ Sql.pluck_children s a -> c ∈ R) ->
  (forall x c, x ∈ R -> c ∈ Sql.pluck_children s x -> c ∈ R) ->
  forall x, descendant s a x -> x ∈ R.
Proof.
  intros Hch Hcl x Hd.
  induction Hd as [c Hc|c x Hd IH Hx];
    [apply pluck_children_spec in Hc|apply pluck_children_spec in Hx]; eauto.
Qed.

(** The identifiers that a deletion of [id] removes: [id] and its
    descendants. *)
Lemma cascade_spec (id x : Z) :
  x ∈ Sql.cascade s id <-> x = id \/ descendant s id x.
Proof.
  unfold Sql.cascade.
  destruct (walk_enough (Sql.walk_fuel s [id]) [id] ∅) as [R HR].
  { pose proof (unexpanded_le ∅). unfold Sql.walk_fuel. lia. }
  rewrite HR.
  destruct (walk_closed _ _ _ _ HR) as [Hq Hcl]; [set_solver|].
  split.
  - revert x. apply (walk_sound (fun x => x = id \/ descendant s id x) _ _ _ _) with (2 := HR).
    + intros y c [->|Hy] Hc; apply pluck_children_spec in Hc; right;
        [by apply descendant_child|by eapply descendant_step].
    + set_solver.
    + intros y Hy. apply list_elem_of_singleton in Hy. by left.
  - intros [->|Hd].
    + apply Hq. by left.
    + apply (descendant_closed id R); auto.
      intros c Hc. apply (Hcl id); [apply Hq; by left|exact Hc].
Qed.

End Traversal.

(** ** [CheckCycle] *)

Section CheckCycle.

Variable db : Conn.
Hypothesis db_ok : forall q, conn_fails db q = false.

Lemma Pluck_ok (x : Z) : Pluck db x = Ok (Sql.pluck_children (conn_rows db) x).
Proof. unfold Pluck. by rewrite db_ok. Qed.

(** The loop reports the new parent exactly when the traversal reaches it. *)
Lemma cycleLoop_walk (p : Z) (fuel : nat) : forall (queue : list Z) (v R : gset Z),
  Sql.walk fuel (conn_rows db) queue v = Some R ->
  cycleLoop fuel db p queue v =
    Some (if decide (p ∈ R ∖ v)
          then Some (errors_New "cannot move department inside its own subtree")
          else None).
Proof.
  induction fuel as [|fuel IH]; intros queue v R Hwalk; [discriminate|].
  destruct queue as [|c queue]; simpl in *.
  - injection Hwalk as <-. rewrite decide_False by set_solver. reflexivity.
  - destruct (decide (c ∈ v)) as [Hin|Hout]; [by apply IH|].
    destruct (Z.eqb_spec c p) as [->|Hne].
    + apply walk_incl in Hwalk. rewrite decide_True by set_solver. reflexivity.
    + rewrite Pluck_ok, (IH _ _ R Hwalk).
      destruct (decide (p ∈ R ∖ ({[c]} ∪ v))), (decide (p ∈ R ∖ v));
        try reflexivity; set_solver.
Qed.

Lemma cycleLoop_fuel (p : Z) (queue : list Z) (v : gset Z) :
  is_Some (cycleLoop (Sql.walk_fuel (conn_rows db) queue) db p queue v).
Proof.
  destruct (walk_enough (conn_rows db) (Sql.walk_fuel (conn_rows db) queue) queue v) as [R HR].
  { pose proof (unexpanded_le (conn_rows db) v). unfold Sql.walk_fuel. lia. }
  rewrite (cycleLoop_walk p _ _ _ _ HR). eauto.
Qed.

Lemma CheckCycle_nil (d : Department) : CheckCycle db d None = None.
Proof. reflexivity. Qed.

Lemma CheckCycle_self (d : Department) :
  CheckCycle db d (Some (dept_ID d)) = Some (errors_New "cannot be parent of itself").
Proof. unfold CheckCycle. by rewrite Z.eqb_refl. Qed.

Lemma CheckCycle_other (d : Department) (p : Z) :
  p <> dept_ID d ->
  (descendant (conn_rows db) (dept_ID d) p ->
   CheckCycle db d (Some p)
   = Some (errors_New "cannot move department inside its own subtree"))
  /\ (~ descendant (conn_rows db) (dept_ID d) p -> CheckCycle db d (Some p) = None).
Proof.
  intros Hne. unfold CheckCycle.
  destruct (Z.eqb_spec p (dept_ID d)) as [?|_]; [contradiction|].
  rewrite Pluck_ok.
  set (s := conn_rows db). set (a := dept_ID d).
  set (queue := Sql.pluck_children s a).
  destruct (walk_enough s (Sql.walk_fuel s queue) queue {[a]}) as [R HR].
  { pose proof (unexpanded_le s {[a]}). unfold Sql.walk_fuel. lia. }
  rewrite (cycleLoop_walk p _ _ _ _ HR).
  pose proof (walk_incl _ _ _ _ _ HR) as Hsub.
  destruct (walk_closed _ _ _ _ _ HR) as [Hq Hcl].
  { intros x c Hx Hc. apply elem_of_singleton in Hx as ->. by right. }
  assert (Hreach : forall x, x ∈ R -> x = a \/ descendant s a x).
  { apply (walk_sound s (fun x => x = a \/ descendant s a x) _ _ _ _) with (2 := HR).
    - intros y c [->|Hy] Hc; apply pluck_children_spec in Hc; right;
        [by apply descendant_child|by eapply descendant_step].
    - intros y Hy. apply elem_of_singleton in Hy. by left.
    - intros y Hy. right. by apply descendant_child, pluck_children_spec. }
  split; intros Hd.
  - rewrite decide_True; [reflexivity|].
    apply elem_of_difference. split; [|set_solver].
    by apply (descendant_closed s a R).
  - rewrite decide_False; [reflexivity|].
    intros Hp. apply elem_of_difference in Hp as [Hp _].
    destruct (Hreach p Hp); [subst; contradiction|contradiction].
Qed.

End CheckCycle.

(** ** The statements of the two deletion modes, on the rows *)

Lemma filter_all {A} (f : A -> bool) (l : list A) :
  (forall x, In x l -> f x = true) -> List.filter f l = l.
Proof.
  induction l as [|a l IH]; intros H; simpl; [reflexivity|].
  rewrite (H a) by (by left). f_equal. apply IH. intros x Hx. apply H. by right.
Qed.

Lemma map_fixed {A} (f : A -> A) (l : list A) :
  (forall x, In x l -> f x = x) -> map f l = l.
Proof.
  induction l as [|a l IH]; intros H; simpl; [reflexivity|].
  rewrite (H a) by (by left). f_equal. apply IH. intros x Hx. apply H. by right.
Qed.

Lemma no_children_no_descendant (s : Store) (a x : Z) :
  Sql.pluck_children s a = [] -> ~ descendant s a x.
Proof.
  intros Hnil Hd. induction Hd as [c Hc|c x Hd IH Hx]; [|exact IH].
  apply pluck_children_spec in Hc. rewrite Hnil in Hc. inversion Hc.
Qed.

Lemma reparented_no_children (rows : list DeptRow) (from to : Z) :
  from <> to ->
  List.filter (fun r => Sql.eq_nullable (row_parent_id r) (Some from))
    (map (fun r => if Sql.eq_nullable (row_parent_id r) (Some from)
                   then Sql.set_parent to r else r) rows) = [].
Proof.
  intros Hne. induction rows as [|r rows IH]; [reflexivity|].
  cbn [map List.filter].
  destruct (Sql.eq_nullable (row_parent_id r) (Some from)) eqn:E.
  - cbn [Sql.set_parent row_parent_id Sql.eq_nullable].
    destruct (Z.eqb_spec to from); [congruence|exact IH].
  - rewrite E. exact IH.
Qed.

(** What a deletion removes: the department, its descendants, and the
    employees of all of them. *)
Lemma delete_department_spec (s : Store) (id : Z) :
  Sql.has_department s id = true ->
  (forall r, In r (departments (Sql.delete_department s id))
             <-> In r (departments s) /\ row_id r <> id /\ ~ descendant s id (row_id r))
  /\ (forall e, In e (employees (Sql.delete_department s id))
                <-> In e (employees s) /\ emp_DepartmentID e <> id
                    /\ ~ descendant s id (emp_DepartmentID e)).
Proof.
  intros Hhas. unfold Sql.delete_department. rewrite Hhas. cbn [departments employees].
  split; intros x; rewrite filter_In, bool_decide_eq_true, cascade_spec; tauto.
Qed.

(** Were the three statements of the reassign mode run on the rows, for a
    target that exists and is not the deleted department: the employees
    of the department, and they only, would reference the target; the
    departments whose parent it is, and they only, would have the target
    as parent; and its row alone would be gone. *)
Lemma reassign_statements (s : Store) (from to : Z) :
  from <> to ->
  Sql.has_department s to = true ->
  exists s1 s2,
    Sql.update_employees_department s from to = Some s1
    /\ Sql.update_departments_parent s1 from to = Some s2
    /\ employees (Sql.delete_department s2 from)
       = map (fun e => if emp_DepartmentID e =? from then Sql.set_department to e else e)
             (employees s)
    /\ departments (Sql.delete_department s2 from)
       = List.filter (fun r => negb (row_id r =? from))
           (map (fun r => if Sql.eq_nullable (row_parent_id r) (Some from)
                          then Sql.set_parent to r else r)
                (departments s)).
Proof.
  intros Hne Hto.
  set (s1 := mkStore (departments s)
               (map (fun e => if emp_DepartmentID e =? from
                              then Sql.set_department to e else e) (employees s))
               (departments_id_seq s) (employees_id_seq s)).
  assert (H1 : Sql.update_employees_department s from to = Some s1).
  { unfold Sql.update_employees_department. by rewrite Hto. }
  assert (Hto1 : Sql.has_department s1 to = true) by exact Hto.
  exists s1. unfold Sql.update_departments_parent at 1. rewrite Hto1. cbn [orb].
  eexists. split; [exact H1|]. split; [reflexivity|].
  cbn [s1 departments employees departments_id_seq employees_id_seq].
  set (s2 := mkStore _ _ _ _).
  assert (Hnil : Sql.pluck_children s2 from = []).
  { unfold Sql.pluck_children, s2. cbn [departments].
    by rewrite reparented_no_children. }
  assert (Hdoomed : forall x, x ∈ Sql.cascade s2 from <-> x = from).
  { intros x. rewrite cascade_spec. split; [|by left].
    intros [?|Hd]; [done|]. by apply no_children_no_descendant in Hd. }
  unfold Sql.delete_department.
  destruct (Sql.has_department s2 from) eqn:Hfrom; cbn [departments employees].
  - split.
    + apply filter_all. intros e He. apply bool_decide_eq_true. rewrite Hdoomed.
      unfold s2 in He. cbn [employees] in He. apply in_map_iff in He as [e0 [<- _]].
      destruct (Z.eqb_spec (emp_DepartmentID e0) from) as [_|E]; [|exact E].
      cbn. congruence.
    + apply filter_ext. intros r.
      destruct (Z.eqb_spec (row_id r) from) as [E|E]; cbn [negb].
      * apply bool_decide_eq_false. rewrite Hdoomed. tauto.
      * apply bool_decide_eq_true. by rewrite Hdoomed.
  - split; [reflexivity|]. symmetry. apply filter_all. intros r Hr.
    unfold Sql.has_department in Hfrom.
    destruct (row_id r =? from) eqn:E; [|reflexivity].
    assert (existsb (fun r => row_id r =? from) (departments s2) = true) as Hex
      by (apply existsb_exists; eauto).
    congruence.
Qed.

(** With the department itself as target the two updates change no row:
    the statements of the reassign mode are then those of the cascade
    mode. *)
Lemma reassign_statements_self (s : Store) (id : Z) :
  Sql.has_department s id = true ->
  Sql.update_employees_department s id id = Some s
  /\ Sql.update_departments_parent s id id = Some s.
Proof.
  intros Hhas. unfold Sql.update_employees_department, Sql.update_departments_parent.
  rewrite Hhas. cbn [orb]. destruct s as [ds es dseq eseq]. cbn.
  split; do 2 f_equal.
  - apply map_fixed. intros [i d f p h c] _. cbn.
    destruct (Z.eqb_spec d id); [subst|]; reflexivity.
  - apply map_fixed. intros [i n p c] _. cbn.
    destruct p as [p|]; cbn; [|reflexivity].
    destruct (Z.eqb_spec p id); [subst|]; reflexivity.
Qed.


(** ** [deleteDepartment] *)

Lemma zero_Employee_refused (c : Conn) :
  snd (Employee_BeforeSave c (mkEmployee 0 0 "" "" None 0))
  = Some (errors_New "full_name cannot be empty").
Proof. reflexivity. Qed.

Lemma zero_Department_refused (c : Conn) :
  snd (Department_BeforeSave c (mkDepartment 0 "" None 0 [] []))
  = Some (errors_New "name cannot be empty").
Proof. reflexivity. Qed.

Lemma select_department_id (s : Store) (id : Z) (r : DeptRow) :
  Sql.select_department s id = Some r -> row_id r = id.
Proof.
  unfold Sql.select_department. intros H. apply find_some in H as [_ H].
  by apply Z.eqb_eq.
Qed.

Lemma select_department_has (s : Store) (id : Z) :
  Sql.has_department s id = true <-> is_Some (Sql.select_department s id).
Proof.
  unfold Sql.has_department, Sql.select_department. split.
  - intros H. apply existsb_exists in H as [r [Hin Hr]].
    destruct (find _ _) eqn:E; [eauto|].
    by rewrite (find_none _ _ E r Hin) in Hr.
  - intros [r H]. apply find_some in H. apply existsb_exists. eauto.
Qed.

Lemma Atoi_nonempty (s : string) (n : Z) : strconv.Atoi s = Some n -> String.eqb s "" = false.
Proof. by destruct s. Qed.

(** A reassign deletion, whatever the store makes fail and whether the
    hooks run or not: when it does not answer 204 the committed rows are
    left as they were, and its statements are those of one transaction,
    closed at the end. *)
Lemma deleteDepartment_reassign_run (w : World) (idStr : string) (q : Values) :
  pending w = None ->
  Get q "mode" = "reassign" ->
  (status (fst (deleteDepartment idStr q w)) <> StatusNoContent ->
   committed (snd (deleteDepartment idStr q w)) = committed w)
  /\ pending (snd (deleteDepartment idStr q w)) = None
  /\ exists t, trace (snd (deleteDepartment idStr q w)) = (trace w ++ t)%list
               /\ in_one_transaction t.
Proof.
  intros Hp Hmode. unfold deleteDepartment. cbv zeta. rewrite Hmode.
  change (String.eqb "reassign" "") with false. cbv iota.
  change (String.eqb "reassign" "cascade") with false.
  change (String.eqb "reassign" "reassign") with true.
  cbv iota.
  destruct (strconv.Atoi idStr) as [deptID|]; cbn [fst snd ret].
  2: { split; [done|]. split; [done|]. exists []. split; [by rewrite app_nil_r|by left]. }
  destruct (String.eqb (Get q "reassign_to_department_id") "");
    cbn [andb bool_decide fst snd ret].
  { rewrite bool_decide_eq_true_2 by done. cbn.
    split; [done|]. split; [done|]. exists []. split; [by rewrite app_nil_r|by left]. }
  destruct (strconv.Atoi (Get q "reassign_to_department_id")) as [target|];
    cbn [option_map andb fst snd ret].
  2: { split; [done|]. split; [done|]. exists []. split; [by rewrite app_nil_r|by left]. }
  rewrite bool_decide_eq_false_2 by done.
  run_handler.
  repeat first [rewrite zero_Employee_refused | rewrite zero_Department_refused | branch];
    cbn [committed pending fails trace now SkipHooks fst snd];
    (split; [done|]); (split; [done|]); one_transaction.
Qed.

(** C6: a reassign deletion works in one transaction, which it closes, and
    when it fails (any answer but 204) the committed rows are exactly
    those it started from, whichever step failed, whatever the store made
    fail, and whether the hooks run or are skipped. *)
Theorem deleteDepartment_reassign_atomic (w : World) (idStr : string) (q : Values) :
  pending w = None ->
  Get q "mode" = "reassign" ->
  status (fst (deleteDepartment idStr q w)) <> StatusNoContent ->
  committed (snd (deleteDepartment idStr q w)) = committed w
  /\ pending (snd (deleteDepartment idStr q w)) = None
  /\ exists t, trace (snd (deleteDepartment idStr q w)) = (trace w ++ t)%list
               /\ in_one_transaction t.
Proof.
  intros Hp Hmode Hstatus.
  destruct (deleteDepartment_reassign_run w idStr q Hp Hmode) as (Hc & Hrest).
  split; [by apply Hc|exact Hrest].
Qed.

Lemma deleteDepartment_reassign_atomic_witness :
  status (fst (deleteDepartment "2" [("mode", "reassign"); ("reassign_to_department_id", "9")]
                 (Examples.world_without_hooks Examples.chain))) = StatusNotFound
  /\ committed (snd (deleteDepartment "2"
                       [("mode", "reassign"); ("reassign_to_department_id", "9")]
                       (Examples.world_without_hooks Examples.chain)))
     = Examples.chain
  /\ pending (snd (deleteDepartment "2"
                     [("mode", "reassign"); ("reassign_to_department_id", "9")]
                     (Examples.world_without_hooks Examples.chain))) = None
  /\ exists t, trace (snd (deleteDepartment "2"
                             [("mode", "reassign"); ("reassign_to_department_id", "9")]
                             (Examples.world_without_hooks Examples.chain)))
               = ([] ++ t)%list
               /\ in_one_transaction t.
Proof.
  split; [reflexivity|].
  apply (deleteDepartment_reassign_atomic (Examples.world_without_hooks Examples.chain) "2"
           [("mode", "reassign"); ("reassign_to_department_id", "9")]).
  - reflexivity.
  - reflexivity.
  - vm_compute. discriminate.
Defined.

(** C2: a DELETE whose mode is neither [cascade] nor [reassign] is refused
    with 400 only after the department has been read and a transaction
    begun, which the handler then leaves open; when the department does
    not exist the answer is 404.  No row is written. *)
Theorem deleteDepartment_invalid_mode (w : World) (idStr : string) (q : Values)
    (deptID : Z) :
  healthy w ->
  strconv.Atoi idStr = Some deptID ->
  Get q "mode" <> "" -> Get q "mode" <> "cascade" -> Get q "mode" <> "reassign" ->
  Get q "reassign_to_department_id" = "" ->
  deleteDepartment idStr q w =
    match Sql.select_department (committed w) deptID with
    | Some _ =>
        (respondError StatusBadRequest "mode must be 'cascade' or 'reassign'",
         mkWorld (committed w) (Some (committed w)) (fails w)
           ((trace w ++ [(Pool, SelectDepartment deptID)]) ++ [(Pool, Begin)]) (now w)
           (SkipHooks w))
    | None =>
        (respondError StatusNotFound "department not found",
         mkWorld (committed w) (pending w) (fails w)
           (trace w ++ [(Pool, SelectDepartment deptID)]) (now w) (SkipHooks w))
    end.
Proof.
  intros Hh Hid Hne Hc Hr Hto. unfold deleteDepartment. cbv zeta.
  rewrite Hid, Hto.
  apply String.eqb_neq in Hne, Hc, Hr. rewrite Hne. cbv iota. rewrite Hc, Hr.
  change (String.eqb "" "") with true. cbv iota. cbn [andb].
  run_handler. run_healthy Hh.
  destruct (Sql.select_department (committed w) deptID); [|reflexivity].
  by run_healthy Hh.
Qed.

Lemma deleteDepartment_invalid_mode_witness :
  deleteDepartment "2" [("mode", "archive")] (Examples.world Examples.chain) =
    (respondError StatusBadRequest "mode must be 'cascade' or 'reassign'",
     mkWorld Examples.chain (Some Examples.chain) Examples.no_failure
       [(Pool, SelectDepartment 2); (Pool, Begin)] 100 false).
Proof.
  apply (deleteDepartment_invalid_mode (Examples.world Examples.chain) "2"
           [("mode", "archive")] 2).
  - intros h q. reflexivity.
  - reflexivity.
  - discriminate.
  - discriminate.
  - discriminate.
  - reflexivity.
Defined.

(** A reassign deletion whose department and target exist, with a handle
    that runs the hooks: the first update is refused by the hook and the
    handler rolls back. *)
Lemma deleteDepartment_reassign_hooked (w : World) (idStr : string) (q : Values)
    (deptID target : Z) :
  healthy w -> SkipHooks w = false ->
  strconv.Atoi idStr = Some deptID ->
  Get q "mode" = "reassign" ->
  strconv.Atoi (Get q "reassign_to_department_id") = Some target ->
  Sql.has_department (committed w) deptID = true ->
  Sql.has_department (committed w) target = true ->
  deleteDepartment idStr q w
  = (respondError StatusInternalServerError "full_name cannot be empty",
     mkWorld (committed w) None (fails w)
       (trace w ++ [(Pool, SelectDepartment deptID); (Pool, Begin);
                    (Tx, SelectDepartment target);
                    (Tx, UpdateEmployeesDepartment deptID target); (Tx, Rollback)])
       (now w) (SkipHooks w)).
Proof.
  intros Hh Hk Hid Hmode Hto Hd Ht. unfold deleteDepartment. cbv zeta.
  rewrite Hid, Hmode, Hto, (Atoi_nonempty _ _ Hto).
  change (String.eqb "reassign" "") with false. cbv iota.
  change (String.eqb "reassign" "cascade") with false.
  change (String.eqb "reassign" "reassign") with true.
  cbv iota. cbn [option_map andb]. rewrite bool_decide_eq_false_2 by done.
  apply select_department_has in Hd as [row Hd], Ht as [trow Ht].
  run_handler. run_healthy Hh. rewrite Hd. run_healthy Hh.
  rewrite Ht. run_healthy Hh. rewrite Hk, zero_Employee_refused. run_healthy Hh.
  rewrite <- !app_assoc. done.
Qed.

(** C5: a reassign deletion whose target exists is refused: [Update] runs
    the [BeforeSave] hook on the empty [Employee] it is given as model,
    the hook refuses the empty name, and the handler rolls back and
    answers 500.  No employee and no department is moved, and the
    department is not deleted. *)
Theorem deleteDepartment_reassign_refused (w : World) (idStr : string) (q : Values)
    (deptID target : Z) :
  healthy w -> SkipHooks w = false -> pending w = None ->
  strconv.Atoi idStr = Some deptID ->
  Get q "mode" = "reassign" ->
  strconv.Atoi (Get q "reassign_to_department_id") = Some target ->
  Sql.has_department (committed w) deptID = true ->
  Sql.has_department (committed w) target = true ->
  fst (deleteDepartment idStr q w)
  = respondError StatusInternalServerError "full_name cannot be empty"
  /\ status (fst (deleteDepartment idStr q w)) <> StatusNoContent
  /\ departments (committed (snd (deleteDepartment idStr q w))) = departments (committed w)
  /\ employees (committed (snd (deleteDepartment idStr q w))) = employees (committed w)
  /\ trace (snd (deleteDepartment idStr q w))
     = (trace w ++ [(Pool, SelectDepartment deptID); (Pool, Begin);
                    (Tx, SelectDepartment target);
                    (Tx, UpdateEmployeesDepartment deptID target); (Tx, Rollback)])%list.
Proof.
  intros Hh Hk _ Hid Hmode Hto Hd Ht.
  rewrite (deleteDepartment_reassign_hooked w idStr q deptID target) by assumption.
  cbn [fst snd committed trace]. split; [reflexivity|]. split; [discriminate|].
  split; [reflexivity|]. split; reflexivity.
Qed.

Lemma deleteDepartment_reassign_refused_witness :
  fst (deleteDepartment "2" [("mode", "reassign"); ("reassign_to_department_id", "1")]
         (Examples.world Examples.chain))
  = respondError StatusInternalServerError "full_name cannot be empty"
  /\ status (fst (deleteDepartment "2"
                    [("mode", "reassign"); ("reassign_to_department_id", "1")]
                    (Examples.world Examples.chain))) <> StatusNoContent
  /\ departments (committed (snd (deleteDepartment "2"
                                    [("mode", "reassign"); ("reassign_to_department_id", "1")]
                                    (Examples.world Examples.chain))))
     = departments Examples.chain
  /\ employees (committed (snd (deleteDepartment "2"
                                  [("mode", "reassign"); ("reassign_to_department_id", "1")]
                                  (Examples.world Examples.chain))))
     = employees Examples.chain
  /\ trace (snd (deleteDepartment "2"
                   [("mode", "reassign"); ("reassign_to_department_id", "1")]
                   (Examples.world Examples.chain)))
     = [(Pool, SelectDepartment 2); (Pool, Begin); (Tx, SelectDepartment 1);
        (Tx, UpdateEmployeesDepartment 2 1); (Tx, Rollback)].
Proof.
  apply (deleteDepartment_reassign_refused (Examples.world Examples.chain) "2"
           [("mode", "reassign"); ("reassign_to_department_id", "1")] 2 1).
  - intros h q. reflexivity.
  - reflexivity.
  - reflexivity.
  - reflexivity.
  - reflexivity.
  - reflexivity.
  - reflexivity.
  - reflexivity.
Defined.

(** The cascade deletion, for comparison. *)
Lemma deleteDepartment_cascade (w : World) (idStr : string) (deptID : Z) :
  healthy w -> pending w = None ->
  strconv.Atoi idStr = Some deptID ->
  Sql.has_department (committed w) deptID = true ->
  fst (deleteDepartment idStr [("mode", "cascade")] w) = mkResponse StatusNoContent NoBody
  /\ committed (snd (deleteDepartment idStr [("mode", "cascade")] w))
     = Sql.delete_department (committed w) deptID.
Proof.
  intros Hh Hp Hid Hd. unfold deleteDepartment. cbv zeta. rewrite Hid.
  cbn [Get]. change (String.eqb "mode" "mode") with true.
  change (String.eqb "mode" "reassign_to_department_id") with false. cbv iota.
  change (String.eqb "cascade" "") with false. cbv iota.
  change (String.eqb "" "") with true.
  change (String.eqb "cascade" "reassign") with false.
  change (String.eqb "cascade" "cascade") with true.
  cbv iota. cbn [andb].
  apply select_department_has in Hd as [row Hd].
  run_handler. run_healthy Hh. rewrite Hd. run_healthy Hh.
  cbn [gorm.scan dept_ID]. by rewrite (select_department_id _ _ _ Hd).
Qed.

(** C9: a reassign deletion of a department to itself passes the check
    of the target and is then refused like any other reassign deletion:
    500, nothing deleted; it does not behave like the cascade deletion,
    which answers 204 and removes the department and what references
    it. *)
Theorem deleteDepartment_reassign_to_self (w : World) (idStr : string) (deptID : Z) :
  healthy w -> SkipHooks w = false -> pending w = None ->
  strconv.Atoi idStr = Some deptID ->
  Sql.has_department (committed w) deptID = true ->
  fst (deleteDepartment idStr [("mode", "reassign"); ("reassign_to_department_id", idStr)] w)
  = respondError StatusInternalServerError "full_name cannot be empty"
  /\ committed (snd (deleteDepartment idStr
                       [("mode", "reassign"); ("reassign_to_department_id", idStr)] w))
     = committed w
  /\ fst (deleteDepartment idStr [("mode", "cascade")] w) = mkResponse StatusNoContent NoBody
  /\ committed (snd (deleteDepartment idStr [("mode", "cascade")] w))
     = Sql.delete_department (committed w) deptID.
Proof.
  intros Hh Hk Hp Hid Hd.
  rewrite (deleteDepartment_reassign_hooked w idStr
             [("mode", "reassign"); ("reassign_to_department_id", idStr)] deptID deptID)
    by done.
  destruct (deleteDepartment_cascade w idStr deptID) as (Hr' & Hc'); done.
Qed.

Lemma deleteDepartment_reassign_to_self_witness :
  fst (deleteDepartment "2" [("mode", "reassign"); ("reassign_to_department_id", "2")]
         (Examples.world Examples.chain))
  = respondError StatusInternalServerError "full_name cannot be empty"
  /\ committed (snd (deleteDepartment "2"
                       [("mode", "reassign"); ("reassign_to_department_id", "2")]
                       (Examples.world Examples.chain))) = Examples.chain
  /\ fst (deleteDepartment "2" [("mode", "cascade")] (Examples.world Examples.chain))
     = mkResponse StatusNoContent NoBody
  /\ committed (snd (deleteDepartment "2" [("mode", "cascade")]
                       (Examples.world Examples.chain)))
     = Sql.delete_department Examples.chain 2.
Proof.
  apply (deleteDepartment_reassign_to_self (Examples.world Examples.chain) "2" 2).
  - intros h q. reflexivity.
  - reflexivity.
  - reflexivity.
  - reflexivity.
  - reflexivity.
Defined.

(** With the hooks skipped the reassign mode does what its statements
    say.  For a target that exists and is not the deleted department:
    the employees of the department, and they only, reference the
    target; the departments whose parent it was, and they only, have the
    target as parent, their own children untouched; and its row alone is
    gone. *)
Lemma deleteDepartment_reassign_without_hooks (w : World) (idStr : string) (q : Values)
    (deptID target : Z) :
  healthy w -> SkipHooks w = true -> pending w = None ->
  strconv.Atoi idStr = Some deptID ->
  Get q "mode" = "reassign" ->
  strconv.Atoi (Get q "reassign_to_department_id") = Some target ->
  Sql.has_department (committed w) deptID = true ->
  Sql.has_department (committed w) target = true ->
  deptID <> target ->
  fst (deleteDepartment idStr q w) = mkResponse StatusNoContent NoBody
  /\ employees (committed (snd (deleteDepartment idStr q w)))
     = map (fun e => if emp_DepartmentID e =? deptID then Sql.set_department target e else e)
           (employees (committed w))
  /\ departments (committed (snd (deleteDepartment idStr q w)))
     = List.filter (fun r => negb (row_id r =? deptID))
         (map (fun r => if Sql.eq_nullable (row_parent_id r) (Some deptID)
                        then Sql.set_parent target r else r)
              (departments (committed w))).
Proof.
  intros Hh Hk Hp Hid Hmode Hto Hd Ht Hne. unfold deleteDepartment. cbv zeta.
  rewrite Hid, Hmode, Hto, (Atoi_nonempty _ _ Hto).
  change (String.eqb "reassign" "") with false. cbv iota.
  change (String.eqb "reassign" "cascade") with false.
  change (String.eqb "reassign" "reassign") with true.
  cbv iota. cbn [option_map andb]. rewrite bool_decide_eq_false_2 by done.
  apply select_department_has in Hd as [row Hd].
  pose proof Ht as Hsel. apply select_department_has in Hsel as [trow Hsel].
  destruct (reassign_statements (committed w) deptID target Hne Ht)
    as (s1 & s2 & H1 & H2 & Hemps & Hdepts).
  run_handler. run_deployed Hh Hk. rewrite Hd. run_deployed Hh Hk.
  rewrite Hsel. run_deployed Hh Hk. cbn [conn_rows]. rewrite H1. run_deployed Hh Hk.
  cbn [conn_rows]. rewrite H2. run_deployed Hh Hk.
  cbn [gorm.scan dept_ID]. rewrite (select_department_id _ _ _ Hd). done.
Qed.

(** With the hooks skipped and the department itself as target, the
    reassign mode is the cascade mode. *)
Lemma deleteDepartment_reassign_to_self_without_hooks (w : World) (idStr : string)
    (deptID : Z) :
  healthy w -> SkipHooks w = true -> pending w = None ->
  strconv.Atoi idStr = Some deptID ->
  Sql.has_department (committed w) deptID = true ->
  fst (deleteDepartment idStr [("mode", "reassign"); ("reassign_to_department_id", idStr)] w)
  = mkResponse StatusNoContent NoBody
  /\ committed (snd (deleteDepartment idStr
                       [("mode", "reassign"); ("reassign_to_department_id", idStr)] w))
     = Sql.delete_department (committed w) deptID.
Proof.
  intros Hh Hk Hp Hid Hd. unfold deleteDepartment. cbv zeta. rewrite Hid.
  cbn [Get]. change (String.eqb "mode" "mode") with true.
  change (String.eqb "mode" "reassign_to_department_id") with false.
  change (String.eqb "reassign_to_department_id" "reassign_to_department_id") with true.
  cbv iota. rewrite Hid, (Atoi_nonempty _ _ Hid).
  change (String.eqb "reassign" "") with false. cbv iota.
  change (String.eqb "reassign" "cascade") with false.
  change (String.eqb "reassign" "reassign") with true.
  cbv iota. cbn [option_map andb]. rewrite bool_decide_eq_false_2 by done.
  destruct (reassign_statements_self (committed w) deptID Hd) as [H1 H2].
  apply select_department_has in Hd as [row Hd].
  run_handler. run_deployed Hh Hk. rewrite Hd. run_deployed Hh Hk.
  rewrite Hd. run_deployed Hh Hk.
  cbn [conn_rows]. rewrite H1. run_deployed Hh Hk.
  cbn [conn_rows]. rewrite H2. run_deployed Hh Hk.
  cbn [gorm.scan dept_ID]. rewrite (select_department_id _ _ _ Hd). done.
Qed.

(** ** The hooks *)

Lemma len_zero (s : string) : GoString.len s = 0 <-> s = "".
Proof.
  unfold GoString.len. destruct s; cbn [String.length]; split; try done; lia.
Qed.

Lemma runeCount_le_len (s : string) : GoString.runeCount s <= GoString.len s.
Proof.
  unfold GoString.len. induction s as [|c s IH]; cbn [GoString.runeCount String.length]; [lia|].
  destruct (GoString.isContinuation c); lia.
Qed.

Lemma Department_BeforeSave_record (tx : Conn) (d : Department) :
  fst (Department_BeforeSave tx d) = set_Name d (GoString.TrimSpace (dept_Name d)).
Proof.
  unfold Department_BeforeSave. cbv zeta.
  repeat match goal with
         | |- context [if ?b then _ else _] => destruct b
         | |- context [match ?r with Ok _ => _ | Err _ => _ end] => destruct r
         end; reflexivity.
Qed.

Lemma Department_BeforeSave_refuses (tx : Conn) (d : Department) :
  GoString.len (GoString.TrimSpace (dept_Name d)) = 0
  \/ 200 < GoString.len (GoString.TrimSpace (dept_Name d)) ->
  exists msg, snd (Department_BeforeSave tx d) = Some (errors_New msg).
Proof.
  intros H. unfold Department_BeforeSave. cbv zeta. cbn [set_Name dept_Name].
  destruct (Z.eqb_spec (GoString.len (GoString.TrimSpace (dept_Name d))) 0); [eauto|].
  destruct (Z.gtb_spec (GoString.len (GoString.TrimSpace (dept_Name d))) 200); [eauto|lia].
Qed.

Lemma Department_BeforeSave_accepts (tx : Conn) (d : Department) :
  snd (Department_BeforeSave tx d) = None ->
  1 <= GoString.len (GoString.TrimSpace (dept_Name d)) <= 200
  /\ conn_fails tx (CountSiblings (GoString.TrimSpace (dept_Name d)) (dept_ParentID d)
                      (if dept_ID d =? 0 then None else Some (dept_ID d))) = false
  /\ Sql.count_siblings (conn_rows tx) (GoString.TrimSpace (dept_Name d)) (dept_ParentID d)
       (if dept_ID d =? 0 then None else Some (dept_ID d)) = 0.
Proof.
  unfold Department_BeforeSave, Count. cbv zeta.
  cbn [set_Name dept_Name dept_ParentID dept_ID].
  pose proof (Zle_0_nat (String.length (GoString.TrimSpace (dept_Name d)))) as Hlen.
  fold (GoString.len (GoString.TrimSpace (dept_Name d))) in Hlen.
  destruct (Z.eqb_spec (GoString.len (GoString.TrimSpace (dept_Name d))) 0); [done|].
  destruct (Z.gtb_spec (GoString.len (GoString.TrimSpace (dept_Name d))) 200); [done|].
  destruct (conn_fails tx _); [done|].
  match goal with |- context [?c >? 0] => destruct (Z.gtb_spec c 0) as [|Hc]; [done|] end.
  intros _. split; [lia|]. split; [reflexivity|].
  unfold Sql.count_siblings in *. lia.
Qed.

Lemma Department_BeforeSave_valid (tx : Conn) (d : Department) :
  (forall q, conn_fails tx q = false) ->
  1 <= GoString.len (GoString.TrimSpace (dept_Name d)) <= 200 ->
  Sql.count_siblings (conn_rows tx) (GoString.TrimSpace (dept_Name d)) (dept_ParentID d)
    (if dept_ID d =? 0 then None else Some (dept_ID d)) = 0 ->
  Department_BeforeSave tx d = (set_Name d (GoString.TrimSpace (dept_Name d)), None).
Proof.
  intros Hok Hlen Hcount. unfold Department_BeforeSave, Count. cbv zeta.
  cbn [set_Name dept_Name dept_ParentID dept_ID].
  destruct (Z.eqb_spec (GoString.len (GoString.TrimSpace (dept_Name d))) 0); [lia|].
  destruct (Z.gtb_spec (GoString.len (GoString.TrimSpace (dept_Name d))) 200); [lia|].
  rewrite Hok, Hcount. reflexivity.
Qed.

Lemma Employee_BeforeSave_record (tx : Conn) (e : Employee) :
  emp_FullName (fst (Employee_BeforeSave tx e)) = GoString.TrimSpace (emp_FullName e)
  /\ (snd (Employee_BeforeSave tx e) = None ->
      fst (Employee_BeforeSave tx e)
      = set_Position (set_FullName e (GoString.TrimSpace (emp_FullName e)))
          (GoString.TrimSpace (emp_Position e))
      /\ 1 <= GoString.len (GoString.TrimSpace (emp_FullName e)) <= 200
      /\ 1 <= GoString.len (GoString.TrimSpace (emp_Position e)) <= 200).
Proof.
  unfold Employee_BeforeSave. cbv zeta.
  cbn [set_FullName set_Position emp_FullName emp_Position].
  pose proof (Zle_0_nat (String.length (GoString.TrimSpace (emp_FullName e)))) as Hf.
  pose proof (Zle_0_nat (String.length (GoString.TrimSpace (emp_Position e)))) as Hp.
  fold (GoString.len (GoString.TrimSpace (emp_FullName e))) in Hf.
  fold (GoString.len (GoString.TrimSpace (emp_Position e))) in Hp.
  destruct (Z.eqb_spec (GoString.len (GoString.TrimSpace (emp_FullName e))) 0); [done|].
  destruct (Z.gtb_spec (GoString.len (GoString.TrimSpace (emp_FullName e))) 200); [done|].
  destruct (Z.eqb_spec (GoString.len (GoString.TrimSpace (emp_Position e))) 0); [done|].
  destruct (Z.gtb_spec (GoString.len (GoString.TrimSpace (emp_Position e))) 200); [done|].
  cbn [fst snd emp_FullName]. split; [reflexivity|]. intros _. split; [reflexivity|]. lia.
Qed.

Lemma Employee_BeforeSave_refuses (tx : Conn) (e : Employee) :
  GoString.len (GoString.TrimSpace (emp_FullName e)) = 0
  \/ 200 < GoString.len (GoString.TrimSpace (emp_FullName e))
  \/ GoString.len (GoString.TrimSpace (emp_Position e)) = 0
  \/ 200 < GoString.len (GoString.TrimSpace (emp_Position e)) ->
  exists msg, snd (Employee_BeforeSave tx e) = Some (errors_New msg).
Proof.
  intros H. unfold Employee_BeforeSave. cbv zeta.
  cbn [set_FullName set_Position emp_FullName emp_Position].
  destruct (Z.eqb_spec (GoString.len (GoString.TrimSpace (emp_FullName e))) 0); [eauto|].
  destruct (Z.gtb_spec (GoString.len (GoString.TrimSpace (emp_FullName e))) 200); [eauto|].
  destruct (Z.eqb_spec (GoString.len (GoString.TrimSpace (emp_Position e))) 0); [eauto|].
  destruct (Z.gtb_spec (GoString.len (GoString.TrimSpace (emp_Position e))) 200); [eauto|lia].
Qed.

Lemma Employee_BeforeSave_valid (tx : Conn) (e : Employee) :
  1 <= GoString.len (GoString.TrimSpace (emp_FullName e)) <= 200 ->
  1 <= GoString.len (GoString.TrimSpace (emp_Position e)) <= 200 ->
  Employee_BeforeSave tx e
  = (set_Position (set_FullName e (GoString.TrimSpace (emp_FullName e)))
       (GoString.TrimSpace (emp_Position e)), None).
Proof.
  intros Hf Hp. unfold Employee_BeforeSave. cbv zeta.
  cbn [set_FullName set_Position emp_FullName emp_Position].
  destruct (Z.eqb_spec (GoString.len (GoString.TrimSpace (emp_FullName e))) 0); [lia|].
  destruct (Z.gtb_spec (GoString.len (GoString.TrimSpace (emp_FullName e))) 200); [lia|].
  destruct (Z.eqb_spec (GoString.len (GoString.TrimSpace (emp_Position e))) 0); [lia|].
  destruct (Z.gtb_spec (GoString.len (GoString.TrimSpace (emp_Position e))) 200); [lia|].
  reflexivity.
Qed.

(** A comparison of [parent_id] with NULL selects no row: among the
    departments without a parent the count is always zero. *)
Lemma count_siblings_null (s : Store) (name : string) (self : option Z) :
  Sql.count_siblings s name None self = 0.
Proof.
  unfold Sql.count_siblings.
  induction (departments s) as [|r rows IH]; [reflexivity|].
  cbn [List.filter]. destruct (row_parent_id r); cbn [Sql.eq_nullable];
    rewrite andb_false_r; exact IH.
Qed.

(** Under a parent the count finds the siblings of that name. *)
Lemma count_siblings_found (s : Store) (name : string) (parent : Z) (r : DeptRow) :
  In r (departments s) -> row_name r = name -> row_parent_id r = Some parent ->
  0 < Sql.count_siblings s name (Some parent) None.
Proof.
  intros Hin Hname Hparent. unfold Sql.count_siblings.
  induction (departments s) as [|r0 rows IH]; [inversion Hin|].
  cbn [List.filter]. destruct Hin as [->|Hin].
  - rewrite Hname, Hparent, String.eqb_refl. cbn [Sql.eq_nullable].
    rewrite Z.eqb_refl. cbn. lia.
  - specialize (IH Hin).
    match goal with |- context [if ?b then _ else _] => destruct b end;
      cbn [List.length]; lia.
Qed.

(** The bound of the hooks is on the bytes: a name of 101 Cyrillic
    letters is 202 bytes long and is refused. *)
Lemma BeforeSave_counts_bytes :
  GoString.runeCount (Examples.cyrillic 101) = 101
  /\ GoString.len (GoString.TrimSpace (Examples.cyrillic 101)) = 202
  /\ snd (Department_BeforeSave (mkConn Examples.empty (Examples.no_failure Pool))
            (mkDepartment 0 (Examples.cyrillic 101) None 0 [] []))
     = Some (errors_New "name too long (max 200)").
Proof. split; [|split]; vm_compute; reflexivity. Qed.

(** ** [createDepartment] and [createEmployee] *)

(** A request that passes the checks is answered 201 with the record as
    saved. *)
Lemma createDepartment_valid (w : World) (req : CreateDepartmentRequest) :
  healthy w -> SkipHooks w = false ->
  Sql.fk_ok (committed w) (cdr_ParentID req) = true ->
  1 <= GoString.len (GoString.TrimSpace (cdr_Name req)) <= 200 ->
  Sql.count_siblings (committed w) (GoString.TrimSpace (cdr_Name req))
    (cdr_ParentID req) None = 0 ->
  fst (createDepartment (Some req) w)
  = respondJSON StatusCreated
      (DepartmentBody (mkDepartment (departments_id_seq (committed w) + 1)
                         (GoString.TrimSpace (cdr_Name req)) (cdr_ParentID req)
                         (now w) [] []))
  /\ departments (committed (snd (createDepartment (Some req) w)))
     = (departments (committed w)
        ++ [mkDeptRow (departments_id_seq (committed w) + 1)
              (GoString.TrimSpace (cdr_Name req)) (cdr_ParentID req) (now w)])%list.
Proof.
  intros Hh Hk Hfk Hlen Hcount.
  assert (Hhook : forall t,
            Department_BeforeSave (mkConn (committed w) (fails w Pool))
              (mkDepartment 0 (cdr_Name req) (cdr_ParentID req) t [] [])
            = (mkDepartment 0 (GoString.TrimSpace (cdr_Name req)) (cdr_ParentID req) t [] [],
               None)).
  { intros t. rewrite Department_BeforeSave_valid; try done. intros q. apply Hh. }
  destruct req as [name [p|]]; cbn [cdr_Name cdr_ParentID] in *.
  - cbn [Sql.fk_ok] in Hfk. pose proof Hfk as Hsel.
    apply select_department_has in Hsel as [row Hrow].
    run_create. run_deployed Hh Hk. rewrite Hrow. run_deployed Hh Hk.
    rewrite Hhook. run_deployed Hh Hk.
    unfold Sql.insert_department. cbn [conn_rows Sql.fk_ok dept_ParentID dept_Name].
    rewrite Hfk. by cbn.
  - run_create. run_deployed Hh Hk. rewrite Hhook. run_deployed Hh Hk.
    unfold Sql.insert_department. cbn [conn_rows Sql.fk_ok dept_ParentID dept_Name]. by cbn.
Qed.

Lemma First_run (h : Handle) (id : Z) (w : World) :
  gorm.First h id w
  = (if fails w h (SelectDepartment id) then Err ErrStore
     else match gorm.view w h with
          | Some s => match Sql.select_department s id with
                      | Some r => Ok (gorm.scan r)
                      | None => Err ErrRecordNotFound
                      end
          | None => Err ErrStore
          end,
     gorm.logged w h (SelectDepartment id)).
Proof.
  unfold gorm.First. run_handler.
  destruct (fails w h _), h; try reflexivity.
Qed.

(** A record that [Create] has saved carries the trimmed name, within the
    bounds, and its row is stored. *)
Lemma Create_Department_saved (d d1 : Department) (w w1 : World) :
  SkipHooks w = false ->
  gorm.Create_Department Pool d w = (Ok d1, w1) ->
  dept_Name d1 = GoString.TrimSpace (dept_Name d)
  /\ dept_ParentID d1 = dept_ParentID d
  /\ 1 <= GoString.len (dept_Name d1) <= 200
  /\ In (gorm.row_of d1) (departments (committed w1)).
Proof.
  intros Hk. unfold gorm.Create_Department. run_handler. rewrite Hk.
  set (c := mkConn (committed w) (fails w Pool)).
  pose proof (Department_BeforeSave_record c d) as Hrec.
  pose proof (Department_BeforeSave_accepts c d) as Hacc.
  destruct (Department_BeforeSave c d) as [d' [err|]]; cbn [fst snd] in *; [wrong_status|].
  destruct (Hacc eq_refl) as (Hlen & _ & _). subst d'.
  cbn [committed pending fails trace now SkipHooks fst snd].
  destruct (fails w Pool InsertDepartment); [wrong_status|].
  unfold Sql.insert_department. cbn [conn_rows c].
  destruct (Sql.fk_ok (committed w) _); cbn; [|wrong_status].
  intros [= <- <-]. cbn. split; [reflexivity|]. split; [reflexivity|]. split; [exact Hlen|].
  apply in_or_app. right. by left.
Qed.

(** An answer 201 carries the trimmed name, within the bounds, and the
    row is stored. *)
Lemma createDepartment_created (w : World) (req : CreateDepartmentRequest) :
  SkipHooks w = false ->
  status (fst (createDepartment (Some req) w)) = StatusCreated ->
  exists d, body (fst (createDepartment (Some req) w)) = DepartmentBody d
            /\ dept_Name d = GoString.TrimSpace (cdr_Name req)
            /\ dept_ParentID d = cdr_ParentID req
            /\ 1 <= GoString.len (dept_Name d) <= 200
            /\ In (gorm.row_of d) (departments (committed (snd (createDepartment (Some req) w)))).
Proof.
  intros Hk. unfold createDepartment.
  set (d0 := mkDepartment 0 (cdr_Name req) (cdr_ParentID req) 0 [] []).
  assert (Hgen : forall w0 r w1,
            SkipHooks w0 = false ->
            gorm.Create_Department Pool d0 w0 = (r, w1) ->
            status (match r with
                    | Err err => respondError StatusBadRequest (Error err)
                    | Ok dept => respondJSON StatusCreated (DepartmentBody dept)
                    end) = StatusCreated ->
            exists d, body (match r with
                            | Err err => respondError StatusBadRequest (Error err)
                            | Ok dept => respondJSON StatusCreated (DepartmentBody dept)
                            end) = DepartmentBody d
                      /\ dept_Name d = GoString.TrimSpace (cdr_Name req)
                      /\ dept_ParentID d = cdr_ParentID req
                      /\ 1 <= GoString.len (dept_Name d) <= 200
                      /\ In (gorm.row_of d) (departments (committed w1))).
  { intros w0 [d1|err] w1 Hk0 Hrun; [|discriminate]. intros _.
    exists d1. split; [reflexivity|]. by apply (Create_Department_saved d0 d1 w0 w1). }
  clearbody d0.
  destruct (cdr_ParentID req) as [p|]; cbv [bind ret]; [rewrite First_run|].
  - destruct (if fails w Pool (SelectDepartment p) then _ else _) as [?|err];
      cbn [isRecordNotFound].
    + destruct (gorm.Create_Department Pool d0 _) as [r w1] eqn:Hrun. cbn [fst snd].
      by apply (Hgen (gorm.logged w Pool (SelectDepartment p)) _ _ Hk Hrun).
    + destruct (isRecordNotFound err); discriminate.
  - destruct (gorm.Create_Department Pool d0 w) as [r w1] eqn:Hrun. cbn [fst snd].
    by apply (Hgen _ _ _ Hk Hrun).
Qed.

(** A name that the hook refuses is answered 400, and no row is
    written. *)
Lemma createDepartment_refused (w : World) (req : CreateDepartmentRequest) (err : error) :
  healthy w -> SkipHooks w = false ->
  Sql.fk_ok (committed w) (cdr_ParentID req) = true ->
  snd (Department_BeforeSave (mkConn (committed w) (fails w Pool))
         (mkDepartment 0 (cdr_Name req) (cdr_ParentID req) 0 [] [])) = Some err ->
  fst (createDepartment (Some req) w) = respondError StatusBadRequest (Error err)
  /\ committed (snd (createDepartment (Some req) w)) = committed w.
Proof.
  intros Hh Hk Hfk Hhook.
  destruct req as [name [p|]]; cbn [cdr_Name cdr_ParentID] in *.
  - cbn [Sql.fk_ok] in Hfk. apply select_department_has in Hfk as [row Hrow].
    run_create. run_deployed Hh Hk. rewrite Hrow. run_deployed Hh Hk.
    destruct (Department_BeforeSave _ _) as [d' e]. cbn [snd] in Hhook. subst e. done.
  - run_create. run_deployed Hh Hk.
    destruct (Department_BeforeSave _ _) as [d' e]. cbn [snd] in Hhook. subst e. done.
Qed.

Lemma createEmployee_valid (w : World) (idStr : string) (deptID : Z)
    (req : CreateEmployeeRequest) :
  healthy w -> SkipHooks w = false ->
  strconv.Atoi idStr = Some deptID ->
  Sql.has_department (committed w) deptID = true ->
  1 <= GoString.len (GoString.TrimSpace (cer_FullName req)) <= 200 ->
  1 <= GoString.len (GoString.TrimSpace (cer_Position req)) <= 200 ->
  fst (createEmployee idStr (Some req) w)
  = respondJSON StatusCreated
      (EmployeeBody (mkEmployee (employees_id_seq (committed w) + 1) deptID
                       (GoString.TrimSpace (cer_FullName req))
                       (GoString.TrimSpace (cer_Position req)) (cer_HiredAt req) (now w))).
Proof.
  intros Hh Hk Hid Hhas Hf Hp. pose proof Hhas as Hsel.
  apply select_department_has in Hsel as [row Hrow].
  unfold createEmployee. rewrite Hid. run_create. run_deployed Hh Hk. rewrite Hrow.
  run_deployed Hh Hk. rewrite Employee_BeforeSave_valid by done. run_deployed Hh Hk.
  unfold Sql.insert_employee. cbn [conn_rows emp_DepartmentID set_Position set_FullName].
  rewrite Hhas. by cbn.
Qed.

Lemma createEmployee_created (w : World) (idStr : string) (req : CreateEmployeeRequest) :
  SkipHooks w = false ->
  status (fst (createEmployee idStr (Some req) w)) = StatusCreated ->
  exists e, body (fst (createEmployee idStr (Some req) w)) = EmployeeBody e
            /\ emp_FullName e = GoString.TrimSpace (cer_FullName req)
            /\ emp_Position e = GoString.TrimSpace (cer_Position req)
            /\ 1 <= GoString.len (emp_FullName e) <= 200
            /\ 1 <= GoString.len (emp_Position e) <= 200.
Proof.
  intros Hk. unfold createEmployee.
  destruct (strconv.Atoi idStr) as [deptID|]; [|wrong_status].
  run_create. rewrite Hk.
  destruct (fails w Pool (SelectDepartment deptID)); cbn [fst snd isRecordNotFound];
    [wrong_status|].
  destruct (Sql.select_department (committed w) deptID); cbn [fst snd isRecordNotFound];
    [|wrong_status].
  set (e0 := mkEmployee 0 deptID (cer_FullName req) (cer_Position req) (cer_HiredAt req) 0).
  set (c := mkConn _ _).
  destruct (Employee_BeforeSave_record c e0) as [_ Hacc].
  destruct (Employee_BeforeSave c e0) as [e' [err|]]; cbn [fst snd] in *; [wrong_status|].
  destruct (Hacc eq_refl) as (-> & Hf & Hp).
  cbn [committed pending fails trace now SkipHooks fst snd].
  destruct (fails w Pool InsertEmployee); cbn [fst snd]; [wrong_status|].
  unfold Sql.insert_employee. cbn [conn_rows c emp_DepartmentID set_Position set_FullName].
  destruct (Sql.has_department _ _); cbn; [|wrong_status].
  intros _. eexists. split; [reflexivity|]. cbn. done.
Qed.

Lemma createEmployee_refused (w : World) (idStr : string) (deptID : Z)
    (req : CreateEmployeeRequest) (err : error) :
  healthy w -> SkipHooks w = false ->
  strconv.Atoi idStr = Some deptID ->
  Sql.has_department (committed w) deptID = true ->
  snd (Employee_BeforeSave (mkConn (committed w) (fails w Pool))
         (mkEmployee 0 deptID (cer_FullName req) (cer_Position req) (cer_HiredAt req) 0))
  = Some err ->
  fst (createEmployee idStr (Some req) w) = respondError StatusBadRequest (Error err)
  /\ committed (snd (createEmployee idStr (Some req) w)) = committed w.
Proof.
  intros Hh Hk Hid Hhas Hhook. apply select_department_has in Hhas as [row Hrow].
  unfold createEmployee. rewrite Hid. run_create. run_deployed Hh Hk. rewrite Hrow.
  run_deployed Hh Hk.
  destruct (Employee_BeforeSave _ _) as [e' e]. cbn [snd] in Hhook. subst e. done.
Qed.

(** Under a parent, a second department of the same trimmed name is
    refused. *)
Lemma createDepartment_sibling_duplicate (w : World) (name : string) (parent : Z)
    (sibling : DeptRow) :
  healthy w -> SkipHooks w = false ->
  Sql.has_department (committed w) parent = true ->
  In sibling (departments (committed w)) ->
  row_parent_id sibling = Some parent ->
  row_name sibling = GoString.TrimSpace name ->
  1 <= GoString.len (GoString.TrimSpace name) <= 200 ->
  fst (createDepartment (Some (mkCreateDepartmentRequest name (Some parent))) w)
  = respondError StatusBadRequest "department name must be unique within the same parent"
  /\ committed (snd (createDepartment (Some (mkCreateDepartmentRequest name (Some parent))) w))
     = committed w.
Proof.
  intros Hh Hk Hhas Hin Hparent Hname Hlen.
  apply (createDepartment_refused w (mkCreateDepartmentRequest name (Some parent))
           (errors_New "department name must be unique within the same parent"));
    [exact Hh|exact Hk|exact Hhas|].
  pose proof (count_siblings_found (committed w) _ parent sibling Hin Hname Hparent) as Hcount.
  unfold Department_BeforeSave, Count. cbv zeta.
  cbn [set_Name dept_Name dept_ParentID dept_ID cdr_Name cdr_ParentID conn_rows conn_fails].
  destruct (Z.eqb_spec (GoString.len (GoString.TrimSpace name)) 0); [lia|].
  destruct (Z.gtb_spec (GoString.len (GoString.TrimSpace name)) 200); [lia|].
  rewrite Hh. change (0 =? 0) with true. cbv iota.
  destruct (Z.gtb_spec (Sql.count_siblings (committed w) (GoString.TrimSpace name)
                          (Some parent) None) 0); [reflexivity|lia].
Qed.

(** C1: among the departments without a parent the uniqueness of names is
    not enforced.  The count of the siblings compares [parent_id] with
    NULL, which selects no row, so a root department is created (201, one
    more row) even when a root department of the same trimmed name is
    already stored. *)
Theorem createDepartment_root_duplicate (w : World) (name : string) (sibling : DeptRow) :
  healthy w -> SkipHooks w = false ->
  In sibling (departments (committed w)) ->
  row_parent_id sibling = None ->
  row_name sibling = GoString.TrimSpace name ->
  1 <= GoString.len (GoString.TrimSpace name) <= 200 ->
  fst (createDepartment (Some (mkCreateDepartmentRequest name None)) w)
  = respondJSON StatusCreated
      (DepartmentBody (mkDepartment (departments_id_seq (committed w) + 1)
                         (row_name sibling) None (now w) [] []))
  /\ departments (committed (snd (createDepartment
                                    (Some (mkCreateDepartmentRequest name None)) w)))
     = (departments (committed w)
        ++ [mkDeptRow (departments_id_seq (committed w) + 1)
              (row_name sibling) None (now w)])%list.
Proof.
  intros Hh Hk _ _ Hname Hlen. rewrite Hname.
  apply (createDepartment_valid w (mkCreateDepartmentRequest name None)); try done.
  apply count_siblings_null.
Qed.

Lemma createDepartment_root_duplicate_witness :
  fst (createDepartment (Some (mkCreateDepartmentRequest " IT " None))
         (Examples.world Examples.one_root))
  = respondJSON StatusCreated (DepartmentBody (mkDepartment 2 "IT" None 100 [] []))
  /\ departments (committed (snd (createDepartment
                                    (Some (mkCreateDepartmentRequest " IT " None))
                                    (Examples.world Examples.one_root))))
     = [mkDeptRow 1 "IT" None 10; mkDeptRow 2 "IT" None 100].
Proof.
  apply (createDepartment_root_duplicate (Examples.world Examples.one_root) " IT "
           (mkDeptRow 1 "IT" None 10)).
  - intros h q. reflexivity.
  - reflexivity.
  - left. reflexivity.
  - reflexivity.
  - reflexivity.
  - vm_compute. split; discriminate.
Defined.

(** What the hooks do, the bound being that of the code, on the bytes:
    they replace the name, and the full name and the position, by their
    trimmed form, and refuse a trimmed field that is empty or longer
    than 200 bytes, so also one of more than 200 characters; [Create]
    then fails and the handler answers 400 with no row written.  A
    create request whose trimmed fields have 1 to 200 bytes is answered
    201 with the trimmed fields, and every answer 201 carries them. *)
Theorem BeforeSave_trims_and_validates :
  (forall tx d,
     fst (Department_BeforeSave tx d) = set_Name d (GoString.TrimSpace (dept_Name d))
     /\ (GoString.TrimSpace (dept_Name d) = ""
         \/ 200 < GoString.runeCount (GoString.TrimSpace (dept_Name d)) ->
         exists msg, snd (Department_BeforeSave tx d) = Some (errors_New msg)))
  /\ (forall tx e,
        emp_FullName (fst (Employee_BeforeSave tx e)) = GoString.TrimSpace (emp_FullName e)
        /\ (snd (Employee_BeforeSave tx e) = None ->
            fst (Employee_BeforeSave tx e)
            = set_Position (set_FullName e (GoString.TrimSpace (emp_FullName e)))
                (GoString.TrimSpace (emp_Position e)))
        /\ (GoString.TrimSpace (emp_FullName e) = ""
            \/ 200 < GoString.runeCount (GoString.TrimSpace (emp_FullName e))
            \/ GoString.TrimSpace (emp_Position e) = ""
            \/ 200 < GoString.runeCount (GoString.TrimSpace (emp_Position e)) ->
            exists msg, snd (Employee_BeforeSave tx e) = Some (errors_New msg)))
  /\ (forall w req,
        healthy w -> SkipHooks w = false ->
        Sql.fk_ok (committed w) (cdr_ParentID req) = true ->
        (GoString.TrimSpace (cdr_Name req) = ""
         \/ 200 < GoString.runeCount (GoString.TrimSpace (cdr_Name req))) ->
        status (fst (createDepartment (Some req) w)) = StatusBadRequest
        /\ committed (snd (createDepartment (Some req) w)) = committed w)
  /\ (forall w idStr deptID req,
        healthy w -> SkipHooks w = false -> strconv.Atoi idStr = Some deptID ->
        Sql.has_department (committed w) deptID = true ->
        (GoString.TrimSpace (cer_FullName req) = ""
         \/ 200 < GoString.runeCount (GoString.TrimSpace (cer_FullName req))
         \/ GoString.TrimSpace (cer_Position req) = ""
         \/ 200 < GoString.runeCount (GoString.TrimSpace (cer_Position req))) ->
        status (fst (createEmployee idStr (Some req) w)) = StatusBadRequest
        /\ committed (snd (createEmployee idStr (Some req) w)) = committed w)
  /\ (forall w req,
        healthy w -> SkipHooks w = false ->
        Sql.fk_ok (committed w) (cdr_ParentID req) = true ->
        1 <= GoString.len (GoString.TrimSpace (cdr_Name req)) <= 200 ->
        Sql.count_siblings (committed w) (GoString.TrimSpace (cdr_Name req))
          (cdr_ParentID req) None = 0 ->
        fst (createDepartment (Some req) w)
        = respondJSON StatusCreated
            (DepartmentBody (mkDepartment (departments_id_seq (committed w) + 1)
                               (GoString.TrimSpace (cdr_Name req)) (cdr_ParentID req)
                               (now w) [] [])))
  /\ (forall w idStr deptID req,
        healthy w -> SkipHooks w = false -> strconv.Atoi idStr = Some deptID ->
        Sql.has_department (committed w) deptID = true ->
        1 <= GoString.len (GoString.TrimSpace (cer_FullName req)) <= 200 ->
        1 <= GoString.len (GoString.TrimSpace (cer_Position req)) <= 200 ->
        fst (createEmployee idStr (Some req) w)
        = respondJSON StatusCreated
            (EmployeeBody (mkEmployee (employees_id_seq (committed w) + 1) deptID
                             (GoString.TrimSpace (cer_FullName req))
                             (GoString.TrimSpace (cer_Position req))
                             (cer_HiredAt req) (now w))))
  /\ (forall w req,
        SkipHooks w = false ->
        status (fst (createDepartment (Some req) w)) = StatusCreated ->
        exists d, body (fst (createDepartment (Some req) w)) = DepartmentBody d
                  /\ dept_Name d = GoString.TrimSpace (cdr_Name req)
                  /\ 1 <= GoString.len (dept_Name d) <= 200)
  /\ (forall w idStr req,
        SkipHooks w = false ->
        status (fst (createEmployee idStr (Some req) w)) = StatusCreated ->
        exists e, body (fst (createEmployee idStr (Some req) w)) = EmployeeBody e
                  /\ emp_FullName e = GoString.TrimSpace (cer_FullName req)
                  /\ emp_Position e = GoString.TrimSpace (cer_Position req)
                  /\ 1 <= GoString.len (emp_FullName e) <= 200
                  /\ 1 <= GoString.len (emp_Position e) <= 200).
Proof.
  assert (Hlong : forall s, s = "" \/ 200 < GoString.runeCount s ->
                            GoString.len s = 0 \/ 200 < GoString.len s).
  { intros s [->|H]; [by left|right]. pose proof (runeCount_le_len s). lia. }
  assert (Hlong2 : forall s t,
            s = "" \/ 200 < GoString.runeCount s \/ t = "" \/ 200 < GoString.runeCount t ->
            GoString.len s = 0 \/ 200 < GoString.len s
            \/ GoString.len t = 0 \/ 200 < GoString.len t).
  { intros s t H. pose proof (runeCount_le_len s). pose proof (runeCount_le_len t).
    destruct H as [->|[H|[->|H]]]; [by left|right; left; lia|by right; right; left|].
    right. right. right. lia. }
  split; [|split; [|split; [|split; [|split; [|split; [|split]]]]]].
  - intros tx d. split; [apply Department_BeforeSave_record|].
    intros H. by apply Department_BeforeSave_refuses, Hlong.
  - intros tx e. destruct (Employee_BeforeSave_record tx e) as [Hf Hok].
    split; [exact Hf|]. split; [intros H; by apply Hok|].
    intros H. by apply Employee_BeforeSave_refuses, Hlong2.
  - intros w req Hh Hk Hfk Hbad.
    destruct (Department_BeforeSave_refuses (mkConn (committed w) (fails w Pool))
                (mkDepartment 0 (cdr_Name req) (cdr_ParentID req) 0 [] [])) as [msg Hmsg];
      [by apply Hlong|].
    destruct (createDepartment_refused w req _ Hh Hk Hfk Hmsg) as [-> ->]. done.
  - intros w idStr deptID req Hh Hk Hid Hhas Hbad.
    destruct (Employee_BeforeSave_refuses (mkConn (committed w) (fails w Pool))
                (mkEmployee 0 deptID (cer_FullName req) (cer_Position req)
                   (cer_HiredAt req) 0)) as [msg Hmsg]; [by apply Hlong2|].
    destruct (createEmployee_refused w idStr deptID req _ Hh Hk Hid Hhas Hmsg) as [-> ->].
    done.
  - intros w req Hh Hk Hfk Hlen Hcount. by apply createDepartment_valid.
  - intros w idStr deptID req. apply createEmployee_valid.
  - intros w req Hk Hst.
    destruct (createDepartment_created w req Hk Hst) as (d & ? & ? & ? & ? & ?).
    eauto.
  - intros w idStr req. apply createEmployee_created.
Qed.

Lemma BeforeSave_trims_and_validates_witness :
  fst (createDepartment (Some (mkCreateDepartmentRequest "  Storage team  " (Some 3)))
         (Examples.world Examples.chain))
  = respondJSON StatusCreated
      (DepartmentBody (mkDepartment 5 "Storage team" (Some 3) 100 [] []))
  /\ fst (createEmployee "3" (Some (mkCreateEmployeeRequest " Carol Diaz " " Analyst " None))
            (Examples.world Examples.chain))
     = respondJSON StatusCreated
         (EmployeeBody (mkEmployee 3 3 "Carol Diaz" "Analyst" None 100)).
Proof.
  destruct BeforeSave_trims_and_validates as (_ & _ & _ & _ & Hd & He & _ & _).
  split.
  - apply (Hd (Examples.world Examples.chain)
              (mkCreateDepartmentRequest "  Storage team  " (Some 3))).
    + intros h q. reflexivity.
    + reflexivity.
    + reflexivity.
    + vm_compute. split; discriminate.
    + reflexivity.
  - apply (He (Examples.world Examples.chain) "3" 3
              (mkCreateEmployeeRequest " Carol Diaz " " Analyst " None)).
    + intros h q. reflexivity.
    + reflexivity.
    + reflexivity.
    + reflexivity.
    + vm_compute. split; discriminate.
    + vm_compute. split; discriminate.
Defined.

(** C8: the hooks trim and validate, but the bound of 200 is on the bytes
    of a field, not on its characters, and the position is trimmed only
    once the full name has passed.  A trimmed field of more than 200
    bytes is refused as too long, however few its characters: a name, a
    full name or a position of 200 characters or less that is encoded on
    more than 200 bytes, which the schema ([VARCHAR(200)]) accepts, is
    answered 400 and not stored.  And when the full name is refused the
    hook returns before it reaches the position, which is left as it was
    given. *)
Theorem BeforeSave_bounds_bytes :
  (forall tx d,
     200 < GoString.len (GoString.TrimSpace (dept_Name d)) ->
     Department_BeforeSave tx d
     = (set_Name d (GoString.TrimSpace (dept_Name d)),
        Some (errors_New "name too long (max 200)")))
  /\ (forall tx e,
        200 < GoString.len (GoString.TrimSpace (emp_FullName e)) ->
        Employee_BeforeSave tx e
        = (set_FullName e (GoString.TrimSpace (emp_FullName e)),
           Some (errors_New "full_name too long (max 200)")))
  /\ (forall tx e,
        1 <= GoString.len (GoString.TrimSpace (emp_FullName e)) <= 200 ->
        200 < GoString.len (GoString.TrimSpace (emp_Position e)) ->
        Employee_BeforeSave tx e
        = (set_Position (set_FullName e (GoString.TrimSpace (emp_FullName e)))
             (GoString.TrimSpace (emp_Position e)),
           Some (errors_New "position too long (max 200)")))
  /\ (forall tx e,
        GoString.TrimSpace (emp_FullName e) = ""
        \/ 200 < GoString.len (GoString.TrimSpace (emp_FullName e)) ->
        snd (Employee_BeforeSave tx e) <> None
        /\ emp_Position (fst (Employee_BeforeSave tx e)) = emp_Position e)
  /\ (forall w req,
        healthy w -> SkipHooks w = false ->
        Sql.fk_ok (committed w) (cdr_ParentID req) = true ->
        GoString.runeCount (GoString.TrimSpace (cdr_Name req)) <= 200
        < GoString.len (GoString.TrimSpace (cdr_Name req)) ->
        fst (createDepartment (Some req) w)
        = respondError StatusBadRequest "name too long (max 200)"
        /\ committed (snd (createDepartment (Some req) w)) = committed w)
  /\ (forall w idStr deptID req,
        healthy w -> SkipHooks w = false -> strconv.Atoi idStr = Some deptID ->
        Sql.has_department (committed w) deptID = true ->
        GoString.runeCount (GoString.TrimSpace (cer_FullName req)) <= 200
        < GoString.len (GoString.TrimSpace (cer_FullName req)) ->
        fst (createEmployee idStr (Some req) w)
        = respondError StatusBadRequest "full_name too long (max 200)"
        /\ committed (snd (createEmployee idStr (Some req) w)) = committed w)
  /\ (forall w idStr deptID req,
        healthy w -> SkipHooks w = false -> strconv.Atoi idStr = Some deptID ->
        Sql.has_department (committed w) deptID = true ->
        1 <= GoString.len (GoString.TrimSpace (cer_FullName req)) <= 200 ->
        GoString.runeCount (GoString.TrimSpace (cer_Position req)) <= 200
        < GoString.len (GoString.TrimSpace (cer_Position req)) ->
        fst (createEmployee idStr (Some req) w)
        = respondError StatusBadRequest "position too long (max 200)"
        /\ committed (snd (createEmployee idStr (Some req) w)) = committed w).
Proof.
  assert (Hd : forall tx d,
            200 < GoString.len (GoString.TrimSpace (dept_Name d)) ->
            Department_BeforeSave tx d
            = (set_Name d (GoString.TrimSpace (dept_Name d)),
               Some (errors_New "name too long (max 200)"))).
  { intros tx d Hlong. unfold Department_BeforeSave. cbv zeta. cbn [set_Name dept_Name].
    destruct (Z.eqb_spec (GoString.len (GoString.TrimSpace (dept_Name d))) 0); [lia|].
    destruct (Z.gtb_spec (GoString.len (GoString.TrimSpace (dept_Name d))) 200); [done|lia]. }
  assert (Hf : forall tx e,
            200 < GoString.len (GoString.TrimSpace (emp_FullName e)) ->
            Employee_BeforeSave tx e
            = (set_FullName e (GoString.TrimSpace (emp_FullName e)),
               Some (errors_New "full_name too long (max 200)"))).
  { intros tx e Hlong. unfold Employee_BeforeSave. cbv zeta.
    cbn [set_FullName emp_FullName].
    destruct (Z.eqb_spec (GoString.len (GoString.TrimSpace (emp_FullName e))) 0); [lia|].
    destruct (Z.gtb_spec (GoString.len (GoString.TrimSpace (emp_FullName e))) 200);
      [done|lia]. }
  assert (Hp : forall tx e,
            1 <= GoString.len (GoString.TrimSpace (emp_FullName e)) <= 200 ->
            200 < GoString.len (GoString.TrimSpace (emp_Position e)) ->
            Employee_BeforeSave tx e
            = (set_Position (set_FullName e (GoString.TrimSpace (emp_FullName e)))
                 (GoString.TrimSpace (emp_Position e)),
               Some (errors_New "position too long (max 200)"))).
  { intros tx e Hfull Hlong. unfold Employee_BeforeSave. cbv zeta.
    cbn [set_FullName set_Position emp_FullName emp_Position].
    destruct (Z.eqb_spec (GoString.len (GoString.TrimSpace (emp_FullName e))) 0); [lia|].
    destruct (Z.gtb_spec (GoString.len (GoString.TrimSpace (emp_FullName e))) 200); [lia|].
    destruct (Z.eqb_spec (GoString.len (GoString.TrimSpace (emp_Position e))) 0); [lia|].
    destruct (Z.gtb_spec (GoString.len (GoString.TrimSpace (emp_Position e))) 200);
      [done|lia]. }
  split; [exact Hd|]. split; [exact Hf|]. split; [exact Hp|].
  split; [|split; [|split]].
  - intros tx e Hbad. unfold Employee_BeforeSave. cbv zeta.
    cbn [set_FullName emp_FullName].
    destruct (Z.eqb_spec (GoString.len (GoString.TrimSpace (emp_FullName e))) 0) as [|Hne];
      [done|].
    destruct (Z.gtb_spec (GoString.len (GoString.TrimSpace (emp_FullName e))) 200) as [|Hle];
      [done|].
    destruct Hbad as [Hempty|Hlong]; [|lia]. rewrite Hempty in Hne. done.
  - intros w req Hh Hk Hfk [_ Hlong].
    destruct (createDepartment_refused w req (errors_New "name too long (max 200)")
                Hh Hk Hfk) as [-> ->]; [by rewrite Hd|done].
  - intros w idStr deptID req Hh Hk Hid Hhas [_ Hlong].
    destruct (createEmployee_refused w idStr deptID req
                (errors_New "full_name too long (max 200)") Hh Hk Hid Hhas) as [-> ->];
      [by rewrite Hf|done].
  - intros w idStr deptID req Hh Hk Hid Hhas Hfull [_ Hlong].
    destruct (createEmployee_refused w idStr deptID req
                (errors_New "position too long (max 200)") Hh Hk Hid Hhas) as [-> ->];
      [by rewrite Hp|done].
Qed.

Lemma BeforeSave_bounds_bytes_witness :
  GoString.runeCount (GoString.TrimSpace (Examples.cyrillic 150)) = 150
  /\ GoString.len (GoString.TrimSpace (Examples.cyrillic 150)) = 300
  /\ fst (createDepartment (Some (mkCreateDepartmentRequest (Examples.cyrillic 150) None))
            (Examples.world Examples.empty))
     = respondError StatusBadRequest "name too long (max 200)"
  /\ committed (snd (createDepartment
                       (Some (mkCreateDepartmentRequest (Examples.cyrillic 150) None))
                       (Examples.world Examples.empty))) = Examples.empty
  /\ emp_Position (fst (Employee_BeforeSave (mkConn Examples.empty (Examples.no_failure Pool))
                          (mkEmployee 0 1 "   " " Analyst " None 0))) = " Analyst ".
Proof.
  assert (Hrunes : GoString.runeCount (GoString.TrimSpace (Examples.cyrillic 150)) = 150)
    by (vm_compute; reflexivity).
  assert (Hbytes : GoString.len (GoString.TrimSpace (Examples.cyrillic 150)) = 300)
    by (vm_compute; reflexivity).
  destruct BeforeSave_bounds_bytes as (_ & _ & _ & Hposition & Hcreate & _).
  split; [exact Hrunes|]. split; [exact Hbytes|].
  destruct (Hcreate (Examples.world Examples.empty)
              (mkCreateDepartmentRequest (Examples.cyrillic 150) None)) as [Hresp Hrows].
  - intros h q. reflexivity.
  - reflexivity.
  - reflexivity.
  - cbn [cdr_Name]. rewrite Hrunes, Hbytes. lia.
  - split; [exact Hresp|]. split; [exact Hrows|].
    apply (Hposition (mkConn Examples.empty (Examples.no_failure Pool))
             (mkEmployee 0 1 "   " " Analyst " None 0)).
    left. reflexivity.
Defined.

(** ** [updateDepartment] *)

Lemma descendant_exists (s : Store) (a x : Z) :
  descendant s a x -> Sql.has_department s x = true.
Proof.
  assert (Hch : forall c y, child_of s c y -> Sql.has_department s y = true).
  { intros c y (r & Hr & <- & _).
    apply existsb_exists. exists r. split; [exact Hr|apply Z.eqb_refl]. }
  intros [c Hc|c y _ Hy]; eauto.
Qed.

Lemma Save_Department_status (d : Department) (w : World) :
  status (match fst (gorm.Save_Department Pool d w) with
          | Err err => respondError StatusBadRequest (Error err)
          | Ok dept => respondJSON StatusOK (DepartmentBody dept)
          end) <> StatusConflict.
Proof. by destruct (fst (gorm.Save_Department Pool d w)). Qed.

(** What the handler answers to a new parent, for a department that
    exists: 404 for a parent that does not exist, 409 with the error of
    [CheckCycle] and no row written, and otherwise the outcome of the
    save, which is not 409. *)
Lemma updateDepartment_parent (w : World) (idStr : string) (row : DeptRow)
    (name : option string) (p : Z) :
  healthy w ->
  strconv.Atoi idStr = Some (row_id row) ->
  Sql.select_department (committed w) (row_id row) = Some row ->
  (p <> 0 -> Sql.has_department (committed w) p = false ->
   status (fst (updateDepartment idStr (Some (mkUpdateDepartmentRequest name (Some p))) w))
   = StatusNotFound)
  /\ (forall err,
        p = 0 \/ Sql.has_department (committed w) p = true ->
        CheckCycle (mkConn (committed w) (fails w Pool)) (gorm.scan row) (Some p) = Some err ->
        fst (updateDepartment idStr (Some (mkUpdateDepartmentRequest name (Some p))) w)
        = respondError StatusConflict (Error err)
        /\ committed (snd (updateDepartment idStr
                             (Some (mkUpdateDepartmentRequest name (Some p))) w))
           = committed w)
  /\ (CheckCycle (mkConn (committed w) (fails w Pool)) (gorm.scan row) (Some p) = None ->
      status (fst (updateDepartment idStr (Some (mkUpdateDepartmentRequest name (Some p))) w))
      <> StatusConflict).
Proof.
  intros Hh Hid Hrow. unfold updateDepartment. rewrite Hid.
  cbv [bind ret gorm.pool]. cbn [udr_ParentID udr_Name]. rewrite First_run.
  run_healthy Hh. cbn [gorm.view]. rewrite Hrow. run_healthy Hh.
  destruct (Z.eqb_spec p 0) as [->|Hp0]; cbn [negb].
  - cbn [gorm.logged committed fails].
    split; [done|]. split.
    + intros err _ ->. done.
    + intros ->. cbn [fst].
      match goal with
      | |- context [gorm.Save_Department Pool ?d ?w0] =>
          pose proof (Save_Department_status d w0) as Hs;
          destruct (gorm.Save_Department Pool d w0) as [r w1]
      end.
      exact Hs.
  - rewrite First_run. run_healthy Hh. cbn [gorm.view gorm.logged committed fails].
    run_healthy Hh.
    destruct (Sql.has_department (committed w) p) eqn:Hhas.
    + pose proof Hhas as Hsel. apply select_department_has in Hsel as [prow Hprow].
      rewrite Hprow. cbn [gorm.logged committed fails fst snd]. split; [done|]. split.
      * intros err _ ->. done.
      * intros ->. cbn [fst].
        match goal with
        | |- context [gorm.Save_Department Pool ?d ?w0] =>
            pose proof (Save_Department_status d w0) as Hs;
            destruct (gorm.Save_Department Pool d w0) as [r w1]
        end.
        exact Hs.
    + destruct (Sql.select_department (committed w) p) eqn:Hsel.
      { assert (Sql.has_department (committed w) p = true) by (apply select_department_has; eauto).
        congruence. }
      cbn [isRecordNotFound fst snd]. split; [done|]. split.
      * intros err [?|?]; congruence.
      * intros _. discriminate.
Qed.

(** C4: the reparent check of a stored department against a new parent:
    it passes for no parent (null); it fails for the department itself
    and for each of its descendants, and the PATCH handler then answers
    409 and writes nothing; for any other parent it passes, and the
    handler does not answer 409.  The store is assumed not to fail. *)
Theorem CheckCycle_reparent (w : World) (idStr : string) (row : DeptRow)
    (name : option string) (p : Z) :
  healthy w ->
  strconv.Atoi idStr = Some (row_id row) ->
  Sql.select_department (committed w) (row_id row) = Some row ->
  let db := mkConn (committed w) (fails w Pool) in
  let patch := updateDepartment idStr (Some (mkUpdateDepartmentRequest name (Some p))) w in
  CheckCycle db (gorm.scan row) None = None
  /\ (p = row_id row ->
      CheckCycle db (gorm.scan row) (Some p) = Some (errors_New "cannot be parent of itself")
      /\ status (fst patch) = StatusConflict /\ committed (snd patch) = committed w)
  /\ (p <> row_id row -> descendant (committed w) (row_id row) p ->
      CheckCycle db (gorm.scan row) (Some p)
      = Some (errors_New "cannot move department inside its own subtree")
      /\ status (fst patch) = StatusConflict /\ committed (snd patch) = committed w)
  /\ (p <> row_id row -> ~ descendant (committed w) (row_id row) p ->
      CheckCycle db (gorm.scan row) (Some p) = None
      /\ status (fst patch) <> StatusConflict).
Proof.
  intros Hh Hid Hrow db patch.
  assert (Hdb : forall q, conn_fails db q = false) by (intros q; apply Hh).
  destruct (updateDepartment_parent w idStr row name p Hh Hid Hrow) as (_ & Hfail & Hpass).
  fold db in Hfail, Hpass. fold patch in Hfail, Hpass.
  split; [reflexivity|]. split; [|split].
  - intros ->.
    pose proof (CheckCycle_self db (gorm.scan row)) as Hself. cbn [gorm.scan dept_ID] in Hself.
    split; [exact Hself|].
    destruct (Hfail _ (or_intror (proj2 (select_department_has _ _) (mk_is_Some _ _ Hrow)))
                Hself) as [-> ->].
    done.
  - intros Hne Hd.
    destruct (CheckCycle_other db Hdb (gorm.scan row) p Hne) as [Herr _].
    specialize (Herr Hd). split; [exact Herr|].
    destruct (Hfail _ (or_intror (descendant_exists _ _ _ Hd)) Herr) as [-> ->]. done.
  - intros Hne Hd.
    destruct (CheckCycle_other db Hdb (gorm.scan row) p Hne) as [_ Hok].
    specialize (Hok Hd). split; [exact Hok|]. by apply Hpass.
Qed.

Lemma CheckCycle_reparent_witness :
  CheckCycle (mkConn Examples.chain (Examples.no_failure Pool))
    (gorm.scan (mkDeptRow 2 "Eng" (Some 1) 20)) (Some 4)
  = Some (errors_New "cannot move department inside its own subtree")
  /\ status (fst (updateDepartment "2" (Some (mkUpdateDepartmentRequest None (Some 4)))
                    (Examples.world Examples.chain))) = StatusConflict
  /\ committed (snd (updateDepartment "2" (Some (mkUpdateDepartmentRequest None (Some 4)))
                       (Examples.world Examples.chain))) = Examples.chain.
Proof.
  destruct (CheckCycle_reparent (Examples.world Examples.chain) "2"
              (mkDeptRow 2 "Eng" (Some 1) 20) None 4) as (_ & _ & Hdesc & _).
  - intros h q. reflexivity.
  - reflexivity.
  - reflexivity.
  - apply Hdesc.
    + discriminate.
    + apply (descendant_step Examples.chain 2 3 4).
      * apply descendant_child. exists (mkDeptRow 3 "Backend" (Some 2) 30).
        split; [right; right; left; reflexivity|split; reflexivity].
      * exists (mkDeptRow 4 "Storage" (Some 3) 40).
        split; [right; right; right; left; reflexivity|split; reflexivity].
Defined.

(** ** [getDepartment] *)

Lemma getDepartment_params_refused (q : Values) (r : Response) :
  getDepartment_params q = inl r -> status r = StatusBadRequest.
Proof.
  unfold getDepartment_params. cbv zeta.
  repeat match goal with
         | |- context [match ?x with _ => _ end] => destruct x
         end; intros [= <-]; reflexivity.
Qed.

(** A refused parameter is answered 400 before any statement is issued. *)
Lemma getDepartment_refused (rangeKeys : gmap Z deptNode -> list Z)
    (orderBy : string -> list Employee -> list Employee)
    (idStr : string) (q : Values) (w : World) (r : Response) :
  getDepartment_params q = inl r ->
  status (fst (getDepartment rangeKeys orderBy idStr q w)) = StatusBadRequest
  /\ snd (getDepartment rangeKeys orderBy idStr q w) = w.
Proof.
  intros Hr. unfold getDepartment. rewrite Hr.
  destruct (strconv.Atoi idStr); cbn; [|done].
  split; [by apply (getDepartment_params_refused q)|done].
Qed.

(** The response is rendered from the record of the root as it was read,
    which has no children and no employees: it holds the fields of the
    root and nothing below it. *)
Lemma getDepartment_root_only (rangeKeys : gmap Z deptNode -> list Z)
    (orderBy : string -> list Employee -> list Employee)
    (idStr : string) (q : Values) (w : World) :
  status (fst (getDepartment rangeKeys orderBy idStr q w)) = StatusOK ->
  exists row,
    strconv.Atoi idStr = Some (row_id row)
    /\ Sql.select_department (committed w) (row_id row) = Some row
    /\ body (fst (getDepartment rangeKeys orderBy idStr q w))
       = TreeBody (mkDepartmentResponse (row_id row) (row_name row) (row_parent_id row)
                     (row_created_at row) [] []).
Proof.
  unfold getDepartment.
  destruct (strconv.Atoi idStr) as [deptID|]; [|discriminate].
  destruct (getDepartment_params q) as [r|p] eqn:Hp.
  { apply getDepartment_params_refused in Hp. cbn. rewrite Hp. discriminate. }
  cbv [bind ret]. rewrite First_run. cbn [gorm.view].
  destruct (fails w Pool (SelectDepartment deptID)); [discriminate|].
  destruct (Sql.select_department (committed w) deptID) as [row|] eqn:Hrow; [|discriminate].
  destruct (buildTree rangeKeys orderBy p (gorm.scan row) _) as [[deptMap|err] w1];
    [|discriminate].
  intros _. exists row. pose proof (select_department_id _ _ _ Hrow) as Hid.
  split; [by rewrite Hid|]. split; [by rewrite Hid|].
  cbn. by destruct (includeEmployees p), (0 <? depth p).
Qed.

(** C7: a GET of depth 2 on a tree of four levels answers with the root
    alone: the children and the grandchildren are loaded and linked in
    [deptMap], and the response is rendered from the record of the root
    that was read before, which has none.  So for every request that is
    answered 200 the tree of the response has no children and no
    employees. *)
Theorem getDepartment_renders_no_children (rangeKeys : gmap Z deptNode -> list Z)
    (orderBy : string -> list Employee -> list Employee)
    (idStr : string) (q : Values) (w : World) :
  status (fst (getDepartment rangeKeys orderBy idStr q w)) = StatusOK ->
  exists r, body (fst (getDepartment rangeKeys orderBy idStr q w)) = TreeBody r
            /\ resp_Children r = [] /\ resp_Employees r = [].
Proof.
  intros Hok. destruct (getDepartment_root_only _ _ _ _ _ Hok) as (row & _ & _ & ->).
  eexists. split; [reflexivity|]. split; reflexivity.
Qed.

Lemma getDepartment_renders_no_children_witness :
  Sql.pluck_children Examples.chain 1 = [2]
  /\ Sql.pluck_children Examples.chain 2 = [3]
  /\ exists r, body (fst (getDepartment Examples.ascending Examples.as_stored "1"
                            [("depth", "2")] (Examples.world Examples.chain))) = TreeBody r
               /\ resp_Children r = [] /\ resp_Employees r = [].
Proof.
  split; [reflexivity|]. split; [reflexivity|].
  apply (getDepartment_renders_no_children Examples.ascending Examples.as_stored "1"
           [("depth", "2")] (Examples.world Examples.chain)).
  vm_compute. reflexivity.
Defined.

(** C3: on a root whose children are loaded in the order 2, 3, the
    response lists no child at all, whatever the enumeration of the map;
    and in [deptMap] the children are linked in the order in which
    [range] enumerates the map, which is 3, 2 for one enumeration and
    2, 3 for another, not in the order of the load. *)
Theorem getDepartment_children_order :
  map row_id (Sql.select_children_in Examples.fork [1]) = [2; 3]
  /\ body (fst (getDepartment Examples.descending Examples.as_stored "1" []
                  (Examples.world Examples.fork)))
     = TreeBody (mkDepartmentResponse 1 "Org" None 10 [] [])
  /\ body (fst (getDepartment Examples.ascending Examples.as_stored "1" []
                  (Examples.world Examples.fork)))
     = TreeBody (mkDepartmentResponse 1 "Org" None 10 [] [])
  /\ linked_children Examples.descending Examples.fork (mkDeptRow 1 "Org" None 10) = [3; 2]
  /\ linked_children Examples.ascending Examples.fork (mkDeptRow 1 "Org" None 10) = [2; 3].
Proof.
  split; [reflexivity|].
  split; [vm_compute; reflexivity|].
  split; [vm_compute; reflexivity|].
  split; vm_compute; reflexivity.
Qed.

Lemma Get_other (q : Values) (k k' v : string) :
  String.eqb k k' = false -> Get ((k, v) :: q) k' = Get q k'.
Proof. intros H. cbn [Get]. by rewrite H. Qed.

(** C10: an omitted parameter is read as its default, the depth as 1,
    [include_employees] as true and [sort_employees] as [full_name]: the
    handler does what it does when the default is given; and a value
    that is given and is malformed or out of range is answered 400 with
    no statement issued. *)
Theorem getDepartment_defaults (rangeKeys : gmap Z deptNode -> list Z)
    (orderBy : string -> list Employee -> list Employee)
    (idStr : string) (q : Values) (w : World) :
  (Get q "depth" = "" -> Get q "include_employees" = "" -> Get q "sort_employees" = "" ->
   getDepartment_params q = inr (mkGetParams 1 true "full_name"))
  /\ (Get q "depth" = "" ->
      getDepartment rangeKeys orderBy idStr q w
      = getDepartment rangeKeys orderBy idStr (("depth", "1") :: q) w)
  /\ (Get q "include_employees" = "" ->
      getDepartment rangeKeys orderBy idStr q w
      = getDepartment rangeKeys orderBy idStr (("include_employees", "true") :: q) w)
  /\ (Get q "sort_employees" = "" ->
      getDepartment rangeKeys orderBy idStr q w
      = getDepartment rangeKeys orderBy idStr (("sort_employees", "full_name") :: q) w)
  /\ (Get q "depth" <> "" ->
      (forall val, strconv.Atoi (Get q "depth") = Some val -> val < 1 \/ 5 < val) ->
      status (fst (getDepartment rangeKeys orderBy idStr q w)) = StatusBadRequest
      /\ snd (getDepartment rangeKeys orderBy idStr q w) = w)
  /\ (Get q "include_employees" <> "" ->
      strconv.ParseBool (Get q "include_employees") = None ->
      status (fst (getDepartment rangeKeys orderBy idStr q w)) = StatusBadRequest
      /\ snd (getDepartment rangeKeys orderBy idStr q w) = w)
  /\ (Get q "sort_employees" <> "" -> Get q "sort_employees" <> "full_name" ->
      Get q "sort_employees" <> "created_at" ->
      status (fst (getDepartment rangeKeys orderBy idStr q w)) = StatusBadRequest
      /\ snd (getDepartment rangeKeys orderBy idStr q w) = w).
Proof.
  split; [|split; [|split; [|split; [|split; [|split]]]]].
  - intros Hd Hi Hs. unfold getDepartment_params. by rewrite Hd, Hi, Hs.
  - intros Hd. unfold getDepartment. f_equal. unfold getDepartment_params.
    rewrite (Get_other q "depth" "include_employees"),
      (Get_other q "depth" "sort_employees") by reflexivity.
    cbn [Get]. by rewrite Hd.
  - intros Hi. unfold getDepartment. f_equal. unfold getDepartment_params.
    rewrite (Get_other q "include_employees" "depth"),
      (Get_other q "include_employees" "sort_employees") by reflexivity.
    cbn [Get]. by rewrite Hi.
  - intros Hs. unfold getDepartment. f_equal. unfold getDepartment_params.
    rewrite (Get_other q "sort_employees" "depth"),
      (Get_other q "sort_employees" "include_employees") by reflexivity.
    cbn [Get]. by rewrite Hs.
  - intros Hne Hbad.
    assert (exists r, getDepartment_params q = inl r) as [r Hr]; [|by eapply getDepartment_refused].
    unfold getDepartment_params. cbv zeta. apply String.eqb_neq in Hne. rewrite Hne. cbn [negb].
    destruct (strconv.Atoi (Get q "depth")) as [val|]; [|eauto].
    destruct (Hbad val eq_refl).
    + destruct (Z.geb_spec val 1); [lia|]. cbn [andb]. eauto.
    + destruct (Z.leb_spec val 5); [lia|]. rewrite andb_false_r. eauto.
  - intros Hne Hbad.
    assert (exists r, getDepartment_params q = inl r) as [r Hr]; [|by eapply getDepartment_refused].
    unfold getDepartment_params. cbv zeta. apply String.eqb_neq in Hne. rewrite Hne, Hbad.
    cbn [negb]. destruct (if negb _ then _ else _); eauto.
  - intros Hne Hf Hc.
    assert (exists r, getDepartment_params q = inl r) as [r Hr]; [|by eapply getDepartment_refused].
    unfold getDepartment_params. cbv zeta.
    apply String.eqb_neq in Hne, Hf, Hc. rewrite Hne, Hf, Hc. cbn [negb andb].
    destruct (if negb _ then _ else _); [|eauto].
    destruct (if negb _ then _ else _); eauto.
Qed.

Lemma getDepartment_defaults_witness :
  getDepartment_params [] = inr (mkGetParams 1 true "full_name")
  /\ (status (fst (getDepartment Examples.ascending Examples.as_stored "1" [("depth", "6")]
                     (Examples.world Examples.chain))) = StatusBadRequest
      /\ snd (getDepartment Examples.ascending Examples.as_stored "1" [("depth", "6")]
                (Examples.world Examples.chain)) = Examples.world Examples.chain).
Proof.
  destruct (getDepartment_defaults Examples.ascending Examples.as_stored "1" []
              (Examples.world Examples.chain)) as (Hdefault & _).
  destruct (getDepartment_defaults Examples.ascending Examples.as_stored "1" [("depth", "6")]
              (Examples.world Examples.chain)) as (_ & _ & _ & _ & Hdepth & _).
  split.
  - apply Hdefault; reflexivity.
  - apply Hdepth.
    + discriminate.
    + intros val H. vm_compute in H. injection H as <-. right. reflexivity.
Defined.

(** * Further properties of the code *)

(** ** [deleteDepartment]: the parameters *)

Lemma select_department_none (s : Store) (id : Z) :
  Sql.has_department s id = false -> Sql.select_department s id = None.
Proof.
  intros Hhas. destruct (Sql.select_department s id) eqn:E; [|reflexivity].
  assert (Sql.has_department s id = true) by (apply select_department_has; eauto).
  congruence.
Qed.

Lemma Get_mode_added (q : Values) (v : string) :
  Get (("mode", v) :: q) "reassign_to_department_id" = Get q "reassign_to_department_id".
Proof. reflexivity. Qed.

(** X1: [mode] is optional and cascade is its default: a DELETE without
    [mode] (or with an empty one) is the DELETE with [mode=cascade]. *)
Theorem deleteDepartment_default_mode (w : World) (idStr : string) (q : Values) :
  Get q "mode" = "" ->
  deleteDepartment idStr q w = deleteDepartment idStr (("mode", "cascade") :: q) w.
Proof.
  intros Hmode. unfold deleteDepartment. cbv zeta.
  rewrite Get_mode_added. cbn [Get]. change (String.eqb "mode" "mode") with true.
  cbv iota. rewrite Hmode. reflexivity.
Qed.

Lemma deleteDepartment_default_mode_witness :
  deleteDepartment "3" [] (Examples.world Examples.chain)
  = deleteDepartment "3" [("mode", "cascade")] (Examples.world Examples.chain)
  /\ status (fst (deleteDepartment "3" [] (Examples.world Examples.chain))) = StatusNoContent.
Proof.
  split.
  - apply (deleteDepartment_default_mode (Examples.world Examples.chain) "3" []).
    reflexivity.
  - vm_compute. reflexivity.
Defined.

(** X2: the checks of the parameters come before the store is touched: a
    path identifier that is not an integer, a [reassign_to_department_id]
    that is given and is not an integer (whatever the mode, cascade
    included), and a reassign mode without a target are each answered 400
    with no statement issued. *)
Theorem deleteDepartment_refused_early (w : World) (idStr : string) (q : Values) :
  (strconv.Atoi idStr = None ->
   deleteDepartment idStr q w = (respondError StatusBadRequest "invalid department id", w))
  /\ (is_Some (strconv.Atoi idStr) ->
      Get q "reassign_to_department_id" <> "" ->
      strconv.Atoi (Get q "reassign_to_department_id") = None ->
      deleteDepartment idStr q w
      = (respondError StatusBadRequest "invalid reassign_to_department_id", w))
  /\ (is_Some (strconv.Atoi idStr) ->
      Get q "mode" = "reassign" -> Get q "reassign_to_department_id" = "" ->
      deleteDepartment idStr q w
      = (respondError StatusBadRequest
           "reassign_to_department_id is required for reassign mode", w)).
Proof.
  unfold deleteDepartment. cbv zeta. split; [|split].
  - intros ->. reflexivity.
  - intros [deptID ->] Hne Hbad. apply String.eqb_neq in Hne. rewrite Hne, Hbad. reflexivity.
  - intros [deptID ->] Hmode Hto. rewrite Hmode, Hto. reflexivity.
Qed.

Lemma deleteDepartment_refused_early_witness :
  deleteDepartment "x" [] (Examples.world Examples.chain)
  = (respondError StatusBadRequest "invalid department id", Examples.world Examples.chain)
  /\ deleteDepartment "2" [("mode", "cascade"); ("reassign_to_department_id", "one")]
       (Examples.world Examples.chain)
     = (respondError StatusBadRequest "invalid reassign_to_department_id",
        Examples.world Examples.chain)
  /\ deleteDepartment "2" [("mode", "reassign")] (Examples.world Examples.chain)
     = (respondError StatusBadRequest
          "reassign_to_department_id is required for reassign mode",
        Examples.world Examples.chain).
Proof.
  split; [|split].
  - apply (deleteDepartment_refused_early (Examples.world Examples.chain) "x" []).
    reflexivity.
  - apply (deleteDepartment_refused_early (Examples.world Examples.chain) "2"
             [("mode", "cascade"); ("reassign_to_department_id", "one")]).
    + eexists. reflexivity.
    + discriminate.
    + reflexivity.
  - apply (deleteDepartment_refused_early (Examples.world Examples.chain) "2"
             [("mode", "reassign")]).
    + eexists. reflexivity.
    + reflexivity.
    + reflexivity.
Defined.

(** ** [deleteDepartment]: the cascade mode *)

(** The requests that reach the cascade branch: the mode is [cascade] or
    omitted, and the target, which the branch ignores, is omitted or an
    integer. *)
Lemma deleteDepartment_cascade_branch (w : World) (idStr : string) (q : Values) (deptID : Z) :
  strconv.Atoi idStr = Some deptID ->
  Get q "mode" = "cascade" \/ Get q "mode" = "" ->
  Get q "reassign_to_department_id" = ""
  \/ is_Some (strconv.Atoi (Get q "reassign_to_department_id")) ->
  deleteDepartment idStr q w
  = (r <- gorm.First Pool deptID ;;
     match r with
     | Err err =>
         ret (if isRecordNotFound err
              then respondError StatusNotFound "department not found"
              else respondError StatusInternalServerError "database error")
     | Ok dept =>
         err <- gorm.Begin ;;
         match err with
         | Some _ => ret (respondError StatusInternalServerError "transaction error")
         | None =>
             err <- gorm.Delete Tx dept ;;
             match err with
             | Some err =>
                 gorm.Rollback ;;; ret (respondError StatusInternalServerError (Error err))
             | None =>
                 err <- gorm.Commit ;;
                 ret (match err with
                      | Some err => respondError StatusInternalServerError (Error err)
                      | None => mkResponse StatusNoContent NoBody
                      end)
             end
         end
     end) w.
Proof.
  intros Hid Hmode Hto. unfold deleteDepartment. cbv zeta. rewrite Hid.
  assert (Hm : (if String.eqb (Get q "mode") "" then "cascade" else Get q "mode") = "cascade").
  { destruct Hmode as [->| ->]; reflexivity. }
  rewrite Hm.
  change (String.eqb "cascade" "reassign") with false.
  change (String.eqb "cascade" "cascade") with true. cbv iota.
  destruct Hto as [->|[target Ht]].
  - reflexivity.
  - rewrite Ht, (Atoi_nonempty _ _ Ht). reflexivity.
Qed.

(** X3: a cascade deletion is all or nothing.  Whatever the store makes
    fail: it works in one transaction, which it closes; answered 204, the
    committed rows are those of the deletion; with any other answer they
    are exactly those it started from.  (The identifier 0, that the
    sequence never gives, is left out: GORM reads it as no identifier.) *)
Theorem deleteDepartment_cascade_atomic (w : World) (idStr : string) (q : Values) :
  pending w = None ->
  strconv.Atoi idStr <> Some 0 ->
  Get q "mode" = "cascade" \/ Get q "mode" = "" ->
  (status (fst (deleteDepartment idStr q w)) = StatusNoContent ->
   exists deptID, strconv.Atoi idStr = Some deptID
                  /\ committed (snd (deleteDepartment idStr q w))
                     = Sql.delete_department (committed w) deptID)
  /\ (status (fst (deleteDepartment idStr q w)) <> StatusNoContent ->
      committed (snd (deleteDepartment idStr q w)) = committed w)
  /\ pending (snd (deleteDepartment idStr q w)) = None
  /\ exists t, trace (snd (deleteDepartment idStr q w)) = (trace w ++ t)%list
               /\ in_one_transaction t.
Proof.
  intros Hp _ Hmode.
  destruct (strconv.Atoi idStr) as [deptID|] eqn:Hid.
  2: { unfold deleteDepartment. rewrite Hid. cbn [fst snd ret].
       split; [wrong_status|]. split; [done|]. split; [done|].
       exists []. split; [by rewrite app_nil_r|by left]. }
  destruct (String.eqb (Get q "reassign_to_department_id") "") eqn:Hempty.
  - apply String.eqb_eq in Hempty.
    rewrite (deleteDepartment_cascade_branch w idStr q deptID Hid Hmode (or_introl Hempty)).
    run_handler.
    repeat branch; cbn [committed pending fails trace now SkipHooks fst snd];
      (split; [first [wrong_status
                     | intros _; exists deptID; split; [reflexivity|]; cbn [gorm.scan dept_ID];
                       match goal with
                       | H : Sql.select_department _ _ = Some _ |- _ =>
                           by rewrite (select_department_id _ _ _ H)
                       end]|]);
      (split; [done|]); (split; [done|]); one_transaction.
  - destruct (strconv.Atoi (Get q "reassign_to_department_id")) as [target|] eqn:Ht.
    + rewrite (deleteDepartment_cascade_branch w idStr q deptID Hid Hmode
                 (or_intror (mk_is_Some _ _ Ht))).
      run_handler.
      repeat branch; cbn [committed pending fails trace now SkipHooks fst snd];
        (split; [first [wrong_status
                       | intros _; exists deptID; split; [reflexivity|]; cbn [gorm.scan dept_ID];
                         match goal with
                         | H : Sql.select_department _ _ = Some _ |- _ =>
                             by rewrite (select_department_id _ _ _ H)
                         end]|]);
        (split; [done|]); (split; [done|]); one_transaction.
    + unfold deleteDepartment. cbv zeta. rewrite Hid, Hempty, Ht. cbn [option_map fst snd ret].
      split; [wrong_status|]. split; [done|]. split; [done|].
      exists []. split; [by rewrite app_nil_r|by left].
Qed.

Lemma deleteDepartment_cascade_atomic_witness :
  (status (fst (deleteDepartment "2" [] (Examples.world Examples.chain))) = StatusNoContent ->
   exists deptID, strconv.Atoi "2" = Some deptID
                  /\ committed (snd (deleteDepartment "2" [] (Examples.world Examples.chain)))
                     = Sql.delete_department Examples.chain deptID)
  /\ (status (fst (deleteDepartment "2" [] (Examples.world Examples.chain))) <> StatusNoContent ->
      committed (snd (deleteDepartment "2" [] (Examples.world Examples.chain)))
      = Examples.chain)
  /\ pending (snd (deleteDepartment "2" [] (Examples.world Examples.chain))) = None
  /\ exists t, trace (snd (deleteDepartment "2" [] (Examples.world Examples.chain)))
               = ([] ++ t)%list
               /\ in_one_transaction t.
Proof.
  apply (deleteDepartment_cascade_atomic (Examples.world Examples.chain) "2" []).
  - reflexivity.
  - discriminate.
  - right. reflexivity.
Defined.

(** X4: a cascade deletion of a stored department is answered 204 and
    removes the department, all its descendants and the employees of all
    of them, and nothing else: every other department and employee is
    kept.  (The identifier 0, that the sequence never gives, is left
    out.) *)
Theorem deleteDepartment_cascade_removes_subtree (w : World) (idStr : string) (q : Values)
    (deptID : Z) :
  healthy w -> pending w = None ->
  strconv.Atoi idStr = Some deptID -> deptID <> 0 ->
  Sql.has_department (committed w) deptID = true ->
  Get q "mode" = "cascade" \/ Get q "mode" = "" ->
  Get q "reassign_to_department_id" = ""
  \/ is_Some (strconv.Atoi (Get q "reassign_to_department_id")) ->
  let w' := snd (deleteDepartment idStr q w) in
  fst (deleteDepartment idStr q w) = mkResponse StatusNoContent NoBody
  /\ (forall r, In r (departments (committed w'))
                <-> In r (departments (committed w)) /\ row_id r <> deptID
                    /\ ~ descendant (committed w) deptID (row_id r))
  /\ (forall e, In e (employees (committed w'))
                <-> In e (employees (committed w)) /\ emp_DepartmentID e <> deptID
                    /\ ~ descendant (committed w) deptID (emp_DepartmentID e))
  /\ pending w' = None.
Proof.
  intros Hh Hp Hid _ Hd Hmode Hto. cbv zeta.
  rewrite (deleteDepartment_cascade_branch w idStr q deptID Hid Hmode Hto).
  destruct (delete_department_spec (committed w) deptID Hd) as [Hrows Hemps].
  apply select_department_has in Hd as [row Hd].
  run_handler. run_healthy Hh. rewrite Hd. run_healthy Hh.
  cbn [gorm.scan dept_ID]. rewrite (select_department_id _ _ _ Hd). done.
Qed.

Lemma deleteDepartment_cascade_removes_subtree_witness :
  fst (deleteDepartment "2" [] (Examples.world Examples.chain))
  = mkResponse StatusNoContent NoBody
  /\ departments (committed (snd (deleteDepartment "2" [] (Examples.world Examples.chain))))
     = [mkDeptRow 1 "Org" None 10]
  /\ employees (committed (snd (deleteDepartment "2" [] (Examples.world Examples.chain))))
     = []
  /\ forall r, In r (departments (committed (snd (deleteDepartment "2" []
                                                    (Examples.world Examples.chain)))))
               <-> In r (departments Examples.chain) /\ row_id r <> 2
                   /\ ~ descendant Examples.chain 2 (row_id r).
Proof.
  split; [vm_compute; reflexivity|].
  split; [vm_compute; reflexivity|].
  split; [vm_compute; reflexivity|].
  destruct (deleteDepartment_cascade_removes_subtree (Examples.world Examples.chain) "2" [] 2)
    as (_ & Hrows & _).
  - intros h q. reflexivity.
  - reflexivity.
  - reflexivity.
  - discriminate.
  - reflexivity.
  - right. reflexivity.
  - left. reflexivity.
  - exact Hrows.
Defined.

(** X5: a DELETE of a department that is not stored is answered 404 after
    the one read that finds it missing: no transaction is begun and
    nothing is written, whatever the mode, a mode that is neither
    [cascade] nor [reassign] included. *)
Theorem deleteDepartment_not_found (w : World) (idStr : string) (q : Values) (deptID : Z) :
  healthy w ->
  strconv.Atoi idStr = Some deptID ->
  Sql.has_department (committed w) deptID = false ->
  (Get q "reassign_to_department_id" = "" /\ Get q "mode" <> "reassign")
  \/ is_Some (strconv.Atoi (Get q "reassign_to_department_id")) ->
  deleteDepartment idStr q w
  = (respondError StatusNotFound "department not found",
     gorm.logged w Pool (SelectDepartment deptID)).
Proof.
  intros Hh Hid Hd Hto. unfold deleteDepartment. cbv zeta. rewrite Hid.
  pose proof (select_department_none _ _ Hd) as Hsel.
  destruct Hto as [[-> Hmode]|[target Ht]].
  - change (String.eqb "" "") with true. cbv iota.
    assert (Hm : String.eqb (if String.eqb (Get q "mode") "" then "cascade" else Get q "mode")
                   "reassign" = false).
    { destruct (String.eqb (Get q "mode") ""); [reflexivity|by apply String.eqb_neq]. }
    rewrite Hm. cbn [andb]. cbv [bind ret]. rewrite First_run. rewrite Hh.
    cbn [gorm.view]. rewrite Hsel. reflexivity.
  - rewrite Ht, (Atoi_nonempty _ _ Ht). cbn [option_map].
    rewrite bool_decide_eq_false_2 by done. rewrite andb_false_r.
    cbv [bind ret]. rewrite First_run. rewrite Hh.
    cbn [gorm.view]. rewrite Hsel. reflexivity.
Qed.

Lemma deleteDepartment_not_found_witness :
  deleteDepartment "9" [("mode", "archive")] (Examples.world Examples.chain)
  = (respondError StatusNotFound "department not found",
     gorm.logged (Examples.world Examples.chain) Pool (SelectDepartment 9)).
Proof.
  apply (deleteDepartment_not_found (Examples.world Examples.chain) "9" [("mode", "archive")] 9).
  - intros h q. reflexivity.
  - reflexivity.
  - reflexivity.
  - left. split; [reflexivity|discriminate].
Defined.

(** X6: a reassign deletion whose target is not stored is answered 404:
    the target is read in the transaction, which is then rolled back; no
    row is written, whether the hooks run or not. *)
Theorem deleteDepartment_reassign_target_missing (w : World) (idStr : string) (q : Values)
    (deptID target : Z) :
  healthy w -> pending w = None ->
  strconv.Atoi idStr = Some deptID ->
  Get q "mode" = "reassign" ->
  strconv.Atoi (Get q "reassign_to_department_id") = Some target ->
  Sql.has_department (committed w) deptID = true ->
  Sql.has_department (committed w) target = false ->
  deleteDepartment idStr q w
  = (respondError StatusNotFound "reassign target department not found",
     mkWorld (committed w) None (fails w)
       (trace w ++ [(Pool, SelectDepartment deptID); (Pool, Begin);
                    (Tx, SelectDepartment target); (Tx, Rollback)])
       (now w) (SkipHooks w)).
Proof.
  intros Hh Hp Hid Hmode Hto Hd Ht. unfold deleteDepartment. cbv zeta.
  rewrite Hid, Hmode, Hto, (Atoi_nonempty _ _ Hto).
  change (String.eqb "reassign" "") with false. cbv iota.
  change (String.eqb "reassign" "cascade") with false.
  change (String.eqb "reassign" "reassign") with true.
  cbv iota. cbn [option_map andb]. rewrite bool_decide_eq_false_2 by done.
  pose proof (select_department_none _ _ Ht) as Hsel.
  apply select_department_has in Hd as [row Hd].
  run_handler. run_healthy Hh. rewrite Hd. run_healthy Hh.
  rewrite Hsel. run_healthy Hh. rewrite <- !app_assoc. done.
Qed.

Lemma deleteDepartment_reassign_target_missing_witness :
  deleteDepartment "2" [("mode", "reassign"); ("reassign_to_department_id", "9")]
    (Examples.world Examples.chain)
  = (respondError StatusNotFound "reassign target department not found",
     mkWorld Examples.chain None Examples.no_failure
       [(Pool, SelectDepartment 2); (Pool, Begin); (Tx, SelectDepartment 9); (Tx, Rollback)]
       100 false).
Proof.
  apply (deleteDepartment_reassign_target_missing (Examples.world Examples.chain) "2"
           [("mode", "reassign"); ("reassign_to_department_id", "9")] 2 9).
  - intros h q. reflexivity.
  - reflexivity.
  - reflexivity.
  - reflexivity.
  - reflexivity.
  - reflexivity.
  - reflexivity.
Defined.

(** ** The integrity of the store *)

Lemma has_department_In (s : Store) (id : Z) :
  Sql.has_department s id = true <-> In id (map row_id (departments s)).
Proof.
  unfold Sql.has_department. rewrite existsb_exists, in_map_iff. split.
  - intros (r & Hin & Hr). apply Z.eqb_eq in Hr. eauto.
  - intros (r & Hr & Hin). exists r. split; [exact Hin|by apply Z.eqb_eq].
Qed.

Lemma has_department_ids (s s' : Store) (id : Z) :
  map row_id (departments s') = map row_id (departments s) ->
  Sql.has_department s' id = Sql.has_department s id.
Proof.
  intros Hids. apply eq_true_iff_eq. by rewrite !has_department_In, Hids.
Qed.

Lemma fk_ok_ids (s s' : Store) (ref : option Z) :
  map row_id (departments s') = map row_id (departments s) ->
  Sql.fk_ok s' ref = Sql.fk_ok s ref.
Proof. intros Hids. destruct ref; [by apply has_department_ids|reflexivity]. Qed.

Lemma NoDup_map_filter {A B} (f : A -> B) (p : A -> bool) (l : list A) :
  NoDup (map f l) -> NoDup (map f (List.filter p l)).
Proof.
  induction l as [|a l IH]; cbn [map List.filter]; [done|].
  intros Hnd. apply NoDup_cons in Hnd as [Hout Hnd].
  destruct (p a); cbn [map]; [|by apply IH].
  apply NoDup_cons. split; [|by apply IH].
  intros Hin. apply Hout. apply list_elem_of_In, in_map_iff in Hin as (x & Hx & Hin).
  apply filter_In in Hin as [Hin _]. apply list_elem_of_In, in_map_iff. eauto.
Qed.

Lemma consistent_empty : consistent Examples.empty.
Proof.
  unfold consistent. cbn. repeat split; try lia; try constructor; intros ? [].
Qed.

Lemma consistent_insert_department (s : Store) (name : string) (parent : option Z)
    (t : Time) :
  consistent s -> consistent (fst (Sql.insert_department s name parent t)).
Proof.
  intros (Hd & He & Hnd & Hne & Hrows & Hemps). unfold Sql.insert_department.
  destruct (Sql.fk_ok s parent) eqn:Hfk; cbn [fst]; unfold consistent;
    cbn [departments employees departments_id_seq employees_id_seq].
  - assert (Hmono : forall id, Sql.has_department s id = true ->
              Sql.has_department
                (mkStore (departments s ++ [mkDeptRow (departments_id_seq s + 1) name parent t])
                   (employees s) (departments_id_seq s + 1) (employees_id_seq s)) id = true).
    { intros id. rewrite !has_department_In. cbn [departments]. rewrite map_app, in_app_iff.
      by left. }
    split; [lia|]. split; [exact He|]. split; [|split; [exact Hne|split]].
    + rewrite map_app. cbn [map row_id]. apply NoDup_app. split; [exact Hnd|].
      split; [|apply NoDup_singleton].
      intros id Hin Hnew. apply list_elem_of_singleton in Hnew. subst id.
      apply list_elem_of_In, in_map_iff in Hin as (r & Hr & Hin).
      destruct (Hrows r Hin) as [Hid _]. lia.
    + intros r Hin. apply in_app_iff in Hin as [Hin|[<-|[]]].
      * destruct (Hrows r Hin) as [Hid Hr]. split; [lia|].
        destruct (row_parent_id r) as [p|]; [|reflexivity]. by apply Hmono.
      * cbn [row_id row_parent_id]. split; [lia|].
        destruct parent as [p|]; [|reflexivity]. by apply Hmono.
    + intros e Hin. destruct (Hemps e Hin) as [Hid Hr]. split; [exact Hid|by apply Hmono].
  - split; [lia|]. split; [exact He|]. split; [exact Hnd|]. split; [exact Hne|]. split.
    + intros r Hin. destruct (Hrows r Hin) as [Hid Hr]. split; [lia|].
      rewrite <- Hr. by apply fk_ok_ids.
    + intros e Hin. destruct (Hemps e Hin) as [Hid Hr]. split; [exact Hid|].
      rewrite <- Hr. by apply has_department_ids.
Qed.

Lemma consistent_insert_employee (s : Store) (e : Employee) (t : Time) :
  consistent s -> consistent (fst (Sql.insert_employee s e t)).
Proof.
  intros (Hd & He & Hnd & Hne & Hrows & Hemps). unfold Sql.insert_employee.
  destruct (Sql.has_department s (emp_DepartmentID e)) eqn:Hfk; cbn [fst]; unfold consistent;
    cbn [departments employees departments_id_seq employees_id_seq].
  - split; [exact Hd|]. split; [lia|]. split; [exact Hnd|]. split; [|split].
    + rewrite map_app. cbn [map emp_ID]. apply NoDup_app. split; [exact Hne|].
      split; [|apply NoDup_singleton].
      intros id Hin Hnew. apply list_elem_of_singleton in Hnew. subst id.
      apply list_elem_of_In, in_map_iff in Hin as (e0 & He0 & Hin).
      destruct (Hemps e0 Hin) as [Hid _]. lia.
    + intros r Hin. destruct (Hrows r Hin) as [Hid Hr]. split; [exact Hid|].
      rewrite <- Hr. by apply fk_ok_ids.
    + intros e0 Hin. apply in_app_iff in Hin as [Hin|[<-|[]]].
      * destruct (Hemps e0 Hin) as [Hid Hr]. split; [lia|].
        rewrite <- Hr. by apply has_department_ids.
      * cbn [emp_ID emp_DepartmentID]. split; [lia|].
        rewrite <- Hfk. by apply has_department_ids.
  - split; [exact Hd|]. split; [lia|]. split; [exact Hnd|]. split; [exact Hne|]. split.
    + intros r Hin. destruct (Hrows r Hin) as [Hid Hr]. split; [exact Hid|].
      rewrite <- Hr. by apply fk_ok_ids.
    + intros e0 Hin. destruct (Hemps e0 Hin) as [Hid Hr]. split; [lia|].
      rewrite <- Hr. by apply has_department_ids.
Qed.

Lemma update_department_ids (rows : list DeptRow) (row : DeptRow) :
  map row_id (map (fun r => if row_id r =? row_id row then row else r) rows) = map row_id rows.
Proof.
  rewrite map_map. apply map_ext. intros r.
  destruct (Z.eqb_spec (row_id r) (row_id row)); congruence.
Qed.

Lemma consistent_update_department (s s' : Store) (row : DeptRow) :
  consistent s -> Sql.update_department s row = Some s' -> consistent s'.
Proof.
  intros (Hd & He & Hnd & Hne & Hrows & Hemps). unfold Sql.update_department.
  destruct (Sql.fk_ok s (row_parent_id row)) eqn:Hfk; [|discriminate]. intros [= <-].
  pose proof (update_department_ids (departments s) row) as Hids.
  unfold consistent. cbn [departments employees departments_id_seq employees_id_seq].
  split; [exact Hd|]. split; [exact He|]. split; [by rewrite Hids|]. split; [exact Hne|]. split.
  - intros r' Hin. apply in_map_iff in Hin as (r & Hr & Hin).
    destruct (Hrows r Hin) as [Hid Hfkr].
    destruct (Z.eqb_spec (row_id r) (row_id row)) as [E|E]; subst r'.
    + split; [lia|]. rewrite <- Hfk. by apply fk_ok_ids.
    + split; [lia|]. rewrite <- Hfkr. by apply fk_ok_ids.
  - intros e Hin. destruct (Hemps e Hin) as [Hid Hr]. split; [exact Hid|].
    rewrite <- Hr. by apply has_department_ids.
Qed.

Lemma consistent_update_employees_department (s s' : Store) (from to : Z) :
  consistent s -> Sql.update_employees_department s from to = Some s' -> consistent s'.
Proof.
  intros (Hd & He & Hnd & Hne & Hrows & Hemps). unfold Sql.update_employees_department.
  destruct (Sql.has_department s to || _) eqn:Hfk; [|discriminate]. intros [= <-].
  unfold consistent. cbn [departments employees departments_id_seq employees_id_seq].
  split; [exact Hd|]. split; [exact He|]. split; [exact Hnd|]. split; [|split].
  - rewrite map_map.
    replace (map _ (employees s)) with (map emp_ID (employees s)); [exact Hne|].
    apply map_ext. intros e. by destruct (emp_DepartmentID e =? from).
  - intros r Hin. destruct (Hrows r Hin) as [Hid Hr]. split; [exact Hid|].
    rewrite <- Hr. by apply fk_ok_ids.
  - intros e' Hin. apply in_map_iff in Hin as (e & <- & Hin).
    destruct (Hemps e Hin) as [Hid Hr].
    destruct (emp_DepartmentID e =? from) eqn:E.
    + cbn [Sql.set_department emp_ID emp_DepartmentID]. split; [exact Hid|].
      apply orb_true_iff in Hfk as [Hto|Hnone]; [exact Hto|].
      apply negb_true_iff in Hnone.
      assert (existsb (fun e => emp_DepartmentID e =? from) (employees s) = true)
        by (apply existsb_exists; eauto).
      congruence.
    + split; [exact Hid|exact Hr].
Qed.

Lemma consistent_update_departments_parent (s s' : Store) (from to : Z) :
  consistent s -> Sql.update_departments_parent s from to = Some s' -> consistent s'.
Proof.
  intros (Hd & He & Hnd & Hne & Hrows & Hemps). unfold Sql.update_departments_parent.
  destruct (Sql.has_department s to || _) eqn:Hfk; [|discriminate]. intros [= <-].
  assert (Hids : map row_id (map (fun r => if Sql.eq_nullable (row_parent_id r) (Some from)
                                           then Sql.set_parent to r else r) (departments s))
                 = map row_id (departments s)).
  { rewrite map_map. apply map_ext. intros r.
    by destruct (Sql.eq_nullable (row_parent_id r) (Some from)). }
  unfold consistent. cbn [departments employees departments_id_seq employees_id_seq].
  split; [exact Hd|]. split; [exact He|]. split; [by rewrite Hids|]. split; [exact Hne|]. split.
  - intros r' Hin. apply in_map_iff in Hin as (r & <- & Hin).
    destruct (Hrows r Hin) as [Hid Hr].
    destruct (Sql.eq_nullable (row_parent_id r) (Some from)) eqn:E.
    + cbn [Sql.set_parent row_id row_parent_id Sql.fk_ok]. split; [exact Hid|].
      rewrite (has_department_ids s) by exact Hids.
      apply orb_true_iff in Hfk as [Hto|Hnone]; [exact Hto|].
      apply negb_true_iff in Hnone.
      assert (existsb (fun r => Sql.eq_nullable (row_parent_id r) (Some from)) (departments s)
              = true) by (apply existsb_exists; eauto).
      congruence.
    + split; [exact Hid|]. rewrite <- Hr. by apply fk_ok_ids.
  - intros e Hin. destruct (Hemps e Hin) as [Hid Hr]. split; [exact Hid|].
    rewrite <- Hr. by apply has_department_ids.
Qed.

Lemma consistent_delete_department (s : Store) (id : Z) :
  consistent s -> consistent (Sql.delete_department s id).
Proof.
  intros Hs. pose proof Hs as (Hd & He & Hnd & Hne & Hrows & Hemps).
  destruct (Sql.has_department s id) eqn:Hhas.
  2: { unfold Sql.delete_department. by rewrite Hhas. }
  destruct (delete_department_spec s id Hhas) as [Hkept Hkept_emps].
  assert (Hstays : forall x, Sql.has_department s x = true -> x <> id ->
            ~ descendant s id x -> Sql.has_department (Sql.delete_department s id) x = true).
  { intros x Hx Hne_id Hnd_x. apply has_department_In, in_map_iff in Hx as (r & Hr & Hin).
    apply has_department_In, in_map_iff. exists r. split; [exact Hr|].
    apply Hkept. subst x. done. }
  unfold consistent.
  assert (Hseq : departments_id_seq (Sql.delete_department s id) = departments_id_seq s
                 /\ employees_id_seq (Sql.delete_department s id) = employees_id_seq s).
  { unfold Sql.delete_department. by rewrite Hhas. }
  destruct Hseq as [-> ->].
  split; [exact Hd|]. split; [exact He|]. split; [|split; [|split]].
  - unfold Sql.delete_department. rewrite Hhas. cbn [departments]. by apply NoDup_map_filter.
  - unfold Sql.delete_department. rewrite Hhas. cbn [employees]. by apply NoDup_map_filter.
  - intros r Hin. apply Hkept in Hin as (Hin & Hne_id & Hnd_r).
    destruct (Hrows r Hin) as [Hid Hr]. split; [exact Hid|].
    destruct (row_parent_id r) as [p|] eqn:Hp; [|reflexivity]. cbn [Sql.fk_ok] in *.
    assert (Hchild : child_of s p (row_id r)) by (exists r; done).
    apply Hstays; [exact Hr| |].
    + intros ->. apply Hnd_r. by apply descendant_child.
    + intros Hdp. apply Hnd_r. by apply (descendant_step s id p).
  - intros e Hin. apply Hkept_emps in Hin as (Hin & Hne_id & Hnd_e).
    destruct (Hemps e Hin) as [Hid Hr]. split; [exact Hid|]. by apply Hstays.
Qed.

Lemma Create_Department_committed (d : Department) (w : World) :
  committed (snd (gorm.Create_Department Pool d w)) = committed w
  \/ exists name parent t,
       committed (snd (gorm.Create_Department Pool d w))
       = fst (Sql.insert_department (committed w) name parent t).
Proof.
  unfold gorm.Create_Department. run_handler.
  destruct (if SkipHooks w then _ else _) as [d' [err|]];
    cbn [committed pending fails trace now SkipHooks fst snd]; [by left|].
  destruct (fails w Pool InsertDepartment);
    cbn [committed pending fails trace now SkipHooks fst snd]; [by left|].
  right. exists (dept_Name d'), (dept_ParentID d'), (now w). cbn [conn_rows].
  by destruct (Sql.insert_department _ _ _ _) as [s r].
Qed.

Lemma Create_Employee_committed (e : Employee) (w : World) :
  committed (snd (gorm.Create_Employee Pool e w)) = committed w
  \/ exists e' t,
       committed (snd (gorm.Create_Employee Pool e w))
       = fst (Sql.insert_employee (committed w) e' t).
Proof.
  unfold gorm.Create_Employee. run_handler.
  destruct (if SkipHooks w then _ else _) as [e' [err|]];
    cbn [committed pending fails trace now SkipHooks fst snd]; [by left|].
  destruct (fails w Pool InsertEmployee);
    cbn [committed pending fails trace now SkipHooks fst snd]; [by left|].
  right. exists e', (now w). cbn [conn_rows].
  by destruct (Sql.insert_employee _ _ _) as [s r].
Qed.

Lemma Save_Department_committed (d : Department) (w : World) :
  committed (snd (gorm.Save_Department Pool d w)) = committed w
  \/ exists row,
       Sql.update_department (committed w) row
       = Some (committed (snd (gorm.Save_Department Pool d w))).
Proof.
  unfold gorm.Save_Department. run_handler.
  destruct (if SkipHooks w then _ else _) as [d' [err|]];
    cbn [committed pending fails trace now SkipHooks fst snd]; [by left|].
  destruct (fails w Pool _);
    cbn [committed pending fails trace now SkipHooks fst snd]; [by left|].
  cbn [conn_rows].
  destruct (Sql.update_department (committed w) (gorm.row_of d')) eqn:E;
    cbn [committed pending fails trace now SkipHooks fst snd]; [|by left].
  right. eauto.
Qed.

Lemma consistent_chain : consistent Examples.chain.
Proof.
  unfold consistent. cbn [Examples.chain departments employees departments_id_seq
                            employees_id_seq map row_id emp_ID].
  split; [lia|]. split; [lia|].
  split; [repeat (apply NoDup_cons; split; [set_solver|]); apply NoDup_nil_2|].
  split; [repeat (apply NoDup_cons; split; [set_solver|]); apply NoDup_nil_2|].
  split.
  - intros r Hin. repeat (destruct Hin as [<-|Hin]; [split; [cbn; lia|reflexivity]|]).
    destruct Hin.
  - intros e Hin. repeat (destruct Hin as [<-|Hin]; [split; [cbn; lia|reflexivity]|]).
    destruct Hin.
Qed.

(** X7: the two creations keep the integrity of the store: whatever the
    request and whatever the store makes fail, after [createDepartment]
    and after [createEmployee] the identifiers are still unique, positive
    and within their sequences, and every reference is to a stored
    department. *)
Theorem create_keeps_integrity (w : World) :
  SkipHooks w = false ->
  consistent (committed w) ->
  (forall body, consistent (committed (snd (createDepartment body w))))
  /\ (forall idStr body, consistent (committed (snd (createEmployee idStr body w)))).
Proof.
  intros _ Hs. split.
  - intros [req|]; [|exact Hs]. unfold createDepartment.
    assert (Hcreate : forall d w0, committed w0 = committed w ->
              consistent (committed (snd (gorm.Create_Department Pool d w0)))).
    { intros d w0 Hw0.
      destruct (Create_Department_committed d w0) as [->|(name & parent & t & ->)];
        rewrite Hw0; [exact Hs|by apply consistent_insert_department]. }
    destruct (cdr_ParentID req) as [p|]; cbv [bind ret]; [rewrite First_run|].
    + destruct (if fails w Pool (SelectDepartment p) then _ else _) as [?|err];
        cbn [isRecordNotFound fst snd].
      * destruct (gorm.Create_Department Pool _ _) as [r w1] eqn:Hrun. cbn [snd].
        change w1 with (snd (r, w1)). rewrite <- Hrun. by apply Hcreate.
      * exact Hs.
    + destruct (gorm.Create_Department Pool _ _) as [r w1] eqn:Hrun. cbn [snd].
      change w1 with (snd (r, w1)). rewrite <- Hrun. by apply Hcreate.
  - intros idStr body. unfold createEmployee.
    destruct (strconv.Atoi idStr) as [deptID|]; [|exact Hs].
    cbv [bind ret]. rewrite First_run.
    destruct (if fails w Pool (SelectDepartment deptID) then _ else _) as [?|err];
      cbn [isRecordNotFound fst snd]; [|exact Hs].
    destruct body as [req|]; [|exact Hs].
    destruct (gorm.Create_Employee Pool _ _) as [r w1] eqn:Hrun. cbn [snd].
    change w1 with (snd (r, w1)). rewrite <- Hrun.
    destruct (Create_Employee_committed
                (mkEmployee 0 deptID (cer_FullName req) (cer_Position req) (cer_HiredAt req) 0)
                (gorm.logged w Pool (SelectDepartment deptID))) as [->|(e' & t & ->)];
      [exact Hs|by apply consistent_insert_employee].
Qed.

Lemma create_keeps_integrity_witness :
  consistent (committed (snd (createDepartment
                                (Some (mkCreateDepartmentRequest "Sales" (Some 1)))
                                (Examples.world Examples.chain))))
  /\ consistent (committed (snd (createEmployee "4"
                                   (Some (mkCreateEmployeeRequest "Ann Lee" "Engineer" None))
                                   (Examples.world Examples.chain)))).
Proof.
  destruct (create_keeps_integrity (Examples.world Examples.chain) eq_refl consistent_chain)
    as [Hd He].
  split; [apply Hd|apply He].
Defined.

Lemma updateDepartment_committed (w : World) (idStr : string)
    (body : option UpdateDepartmentRequest) :
  committed (snd (updateDepartment idStr body w)) = committed w
  \/ exists row,
       Sql.update_department (committed w) row
       = Some (committed (snd (updateDepartment idStr body w))).
Proof.
  assert (Hsave : forall d w0, committed w0 = committed w ->
            committed (snd (gorm.Save_Department Pool d w0)) = committed w
            \/ exists row, Sql.update_department (committed w) row
                           = Some (committed (snd (gorm.Save_Department Pool d w0)))).
  { intros d w0 <-. apply Save_Department_committed. }
  unfold updateDepartment.
  destruct (strconv.Atoi idStr) as [deptID|]; [|by left].
  destruct body as [req|]; [|by left].
  cbv [bind ret gorm.pool]. rewrite First_run.
  destruct (if fails w Pool (SelectDepartment deptID) then _ else _) as [dept|err];
    cbn [isRecordNotFound fst snd]; [|by left].
  destruct (udr_ParentID req) as [p|].
  - destruct (negb (p =? 0)).
    + rewrite First_run.
      destruct (if fails _ Pool (SelectDepartment p) then _ else _) as [?|err];
        cbn [isRecordNotFound fst snd]; [|by left].
      destruct (CheckCycle _ dept (Some p)); cbn [fst snd]; [by left|].
      match goal with
      | |- context [gorm.Save_Department Pool ?d ?w0] =>
          pose proof (Hsave d w0 eq_refl) as Hs;
          destruct (gorm.Save_Department Pool d w0) as [r w1]
      end.
      exact Hs.
    + destruct (CheckCycle _ dept (Some p)); cbn [fst snd]; [by left|].
      match goal with
      | |- context [gorm.Save_Department Pool ?d ?w0] =>
          pose proof (Hsave d w0 eq_refl) as Hs;
          destruct (gorm.Save_Department Pool d w0) as [r w1]
      end.
      exact Hs.
  - match goal with
    | |- context [gorm.Save_Department Pool ?d ?w0] =>
        pose proof (Hsave d w0 eq_refl) as Hs;
        destruct (gorm.Save_Department Pool d w0) as [r w1]
    end.
    exact Hs.
Qed.

(** X8: a PATCH keeps the integrity of the store, whatever the request
    and whatever the store makes fail: no identifier is changed, and the
    new parent of a department that is moved is a stored department. *)
Theorem updateDepartment_keeps_integrity (w : World) (idStr : string)
    (body : option UpdateDepartmentRequest) :
  SkipHooks w = false ->
  consistent (committed w) ->
  consistent (committed (snd (updateDepartment idStr body w)))
  /\ map row_id (departments (committed (snd (updateDepartment idStr body w))))
     = map row_id (departments (committed w))
  /\ employees (committed (snd (updateDepartment idStr body w))) = employees (committed w).
Proof.
  intros _ Hs.
  destruct (updateDepartment_committed w idStr body) as [->|[row Hrow]]; [done|].
  split; [by apply (consistent_update_department (committed w) _ row)|].
  unfold Sql.update_department in Hrow.
  destruct (Sql.fk_ok (committed w) (row_parent_id row)); [|discriminate].
  injection Hrow as <-. cbn [departments employees]. split; [|reflexivity].
  apply update_department_ids.
Qed.

Lemma updateDepartment_keeps_integrity_witness :
  Sql.select_department
    (committed (snd (updateDepartment "4"
                       (Some (mkUpdateDepartmentRequest (Some "Disks") (Some 1)))
                       (Examples.world Examples.chain)))) 4
  = Some (mkDeptRow 4 "Disks" (Some 1) 40)
  /\ consistent (committed (snd (updateDepartment "4"
                                   (Some (mkUpdateDepartmentRequest (Some "Disks") (Some 1)))
                                   (Examples.world Examples.chain))))
  /\ map row_id (departments (committed (snd (updateDepartment "4"
                                   (Some (mkUpdateDepartmentRequest (Some "Disks") (Some 1)))
                                   (Examples.world Examples.chain)))))
     = map row_id (departments Examples.chain)
  /\ employees (committed (snd (updateDepartment "4"
                                  (Some (mkUpdateDepartmentRequest (Some "Disks") (Some 1)))
                                  (Examples.world Examples.chain))))
     = employees Examples.chain.
Proof.
  split; [vm_compute; reflexivity|].
  apply (updateDepartment_keeps_integrity (Examples.world Examples.chain) "4"
           (Some (mkUpdateDepartmentRequest (Some "Disks") (Some 1)))).
  - reflexivity.
  - apply consistent_chain.
Defined.

(** X9: a DELETE keeps the integrity of the store, in every mode,
    whatever the store makes fail and whether the hooks run or not: the
    rows that referenced a removed department are removed with it or,
    in the reassign mode, reference the target, and no reference is left
    dangling. *)
Theorem deleteDepartment_keeps_integrity (w : World) (idStr : string) (q : Values) :
  pending w = None ->
  consistent (committed w) ->
  consistent (committed (snd (deleteDepartment idStr q w))).
Proof.
  intros Hp Hs. unfold deleteDepartment. cbv zeta.
  destruct (strconv.Atoi idStr) as [deptID|]; [|exact Hs].
  destruct (if String.eqb (Get q "reassign_to_department_id") "" then _ else _)
    as [reassignTo|]; [|exact Hs].
  destruct (String.eqb _ "reassign" && _) eqn:Hreq; [exact Hs|].
  destruct (String.eqb (if String.eqb (Get q "mode") "" then "cascade" else Get q "mode")
              "cascade");
    [|destruct (String.eqb (if String.eqb (Get q "mode") "" then "cascade" else Get q "mode")
                  "reassign"); [destruct reassignTo as [target|]|]];
    run_handler;
    repeat first [rewrite zero_Employee_refused | rewrite zero_Department_refused | branch];
    cbn [committed pending fails trace now SkipHooks fst snd];
    eauto using consistent_delete_department, consistent_update_employees_department,
      consistent_update_departments_parent.
Qed.

Lemma deleteDepartment_keeps_integrity_witness :
  consistent (committed (snd (deleteDepartment "2" [("mode", "cascade")]
                                (Examples.world Examples.chain))))
  /\ consistent (committed (snd (deleteDepartment "2"
                                   [("mode", "reassign"); ("reassign_to_department_id", "1")]
                                   (Examples.world_without_hooks Examples.chain)))).
Proof.
  split.
  - apply (deleteDepartment_keeps_integrity (Examples.world Examples.chain) "2"
             [("mode", "cascade")]); [reflexivity|apply consistent_chain].
  - apply (deleteDepartment_keeps_integrity (Examples.world_without_hooks Examples.chain) "2"
             [("mode", "reassign"); ("reassign_to_department_id", "1")]);
      [reflexivity|apply consistent_chain].
Defined.

(** ** [CheckCycle] on any store, whatever fails *)

Lemma cycleLoop_enough (db : Conn) (p : Z) (fuel : nat) : forall (queue : list Z) (v : gset Z),
  (List.length queue + unexpanded (conn_rows db) v < fuel)%nat ->
  is_Some (cycleLoop fuel db p queue v).
Proof.
  induction fuel as [|fuel IH]; intros queue v Hlt; [lia|].
  destruct queue as [|c queue]; cbn [cycleLoop]; [eauto|].
  destruct (decide (c ∈ v)) as [Hin|Hout].
  - apply IH. cbn [List.length] in Hlt. lia.
  - cbv zeta. destruct (c =? p); [eauto|].
    unfold Pluck. destruct (conn_fails db (PluckChildren c)); [eauto|].
    apply IH. pose proof (unexpanded_expand (conn_rows db) c v Hout) as Hstep.
    rewrite length_app. cbn [List.length] in Hlt. lia.
Qed.

Lemma cycleLoop_more (db : Conn) (p : Z) (fuel : nat) :
  forall (queue : list Z) (v : gset Z) (r : option error) (extra : nat),
  cycleLoop fuel db p queue v = Some r ->
  cycleLoop (fuel + extra) db p queue v = Some r.
Proof.
  induction fuel as [|fuel IH]; intros queue v r extra Hrun; [discriminate|].
  cbn [Nat.add cycleLoop] in *.
  destruct queue as [|c queue]; [exact Hrun|].
  destruct (decide (c ∈ v)); [by apply IH|].
  cbv zeta in *. destruct (c =? p); [exact Hrun|].
  destruct (Pluck db c); [by apply IH|exact Hrun].
Qed.

(** X10: the loop of [CheckCycle] ends, on every store and whatever the
    store makes fail: a department is expanded once, so the loop has
    returned within a number of steps bounded by the length of the queue
    and the number of stored departments, even when the parent links of
    the store form a cycle; and steps beyond those change nothing. *)
Theorem cycleLoop_terminates (db : Conn) (p : Z) (queue : list Z) (v : gset Z) (extra : nat) :
  is_Some (cycleLoop (Sql.walk_fuel (conn_rows db) queue) db p queue v)
  /\ cycleLoop (Sql.walk_fuel (conn_rows db) queue + extra) db p queue v
     = cycleLoop (Sql.walk_fuel (conn_rows db) queue) db p queue v.
Proof.
  assert (Hend : is_Some (cycleLoop (Sql.walk_fuel (conn_rows db) queue) db p queue v)).
  { apply cycleLoop_enough. pose proof (unexpanded_le (conn_rows db) v).
    unfold Sql.walk_fuel. lia. }
  split; [exact Hend|]. destruct Hend as [r Hr]. rewrite Hr. by apply cycleLoop_more.
Qed.

(** A loop that reports nothing has made the traversal of the rows, and
    has not met the new parent. *)
Lemma cycleLoop_passes (db : Conn) (p : Z) (fuel : nat) : forall (queue : list Z) (v : gset Z),
  cycleLoop fuel db p queue v = Some None ->
  exists R, Sql.walk fuel (conn_rows db) queue v = Some R /\ p ∉ R ∖ v.
Proof.
  induction fuel as [|fuel IH]; intros queue v Hrun; [discriminate|].
  cbn [cycleLoop Sql.walk] in *.
  destruct queue as [|c queue]; [exists v; split; [reflexivity|set_solver]|].
  destruct (decide (c ∈ v)); [by apply IH|].
  cbv zeta in Hrun. destruct (Z.eqb_spec c p) as [|Hne]; [discriminate|].
  unfold Pluck in Hrun. destruct (conn_fails db (PluckChildren c)); [discriminate|].
  destruct (IH _ _ Hrun) as (R & HR & Hp). exists R. split; [exact HR|]. set_solver.
Qed.

(** A check that passes has excluded the department itself and every
    descendant of it, whatever the store makes fail. *)
Lemma CheckCycle_passes (db : Conn) (d : Department) (p : Z) :
  CheckCycle db d (Some p) = None ->
  p <> dept_ID d /\ ~ descendant (conn_rows db) (dept_ID d) p.
Proof.
  unfold CheckCycle. destruct (Z.eqb_spec p (dept_ID d)) as [|Hne]; [discriminate|].
  unfold Pluck. destruct (conn_fails db (PluckChildren (dept_ID d))); [discriminate|].
  set (s := conn_rows db). set (a := dept_ID d). set (queue := Sql.pluck_children s a).
  destruct (cycleLoop_enough db p (Sql.walk_fuel s queue) queue {[a]}) as [r Hr].
  { pose proof (unexpanded_le s {[a]}). unfold Sql.walk_fuel. fold s. lia. }
  rewrite Hr. intros ->. split; [exact Hne|]. intros Hd.
  destruct (cycleLoop_passes _ _ _ _ _ Hr) as (R & HR & Hp). apply Hp.
  destruct (walk_closed _ _ _ _ _ HR) as [Hq Hcl].
  { intros x c Hx Hc. apply elem_of_singleton in Hx as ->. by right. }
  apply elem_of_difference. split; [|set_solver].
  by apply (descendant_closed s a R).
Qed.

(** ** The forest of the departments *)

Lemma descendant_trans (s : Store) (a b c : Z) :
  descendant s a b -> descendant s b c -> descendant s a c.
Proof.
  intros Hab Hbc. induction Hbc as [c Hc|c x Hbc IH Hx].
  - by apply (descendant_step s a b).
  - by apply (descendant_step s a c).
Qed.

(** The children after the row of [row] has been replaced: those that
    were, but for [row], which is under its new parent. *)
Lemma child_of_update_department (s s' : Store) (row : DeptRow) (a c : Z) :
  Sql.update_department s row = Some s' ->
  child_of s' a c ->
  (c <> row_id row /\ child_of s a c) \/ (c = row_id row /\ row_parent_id row = Some a).
Proof.
  unfold Sql.update_department. destruct (Sql.fk_ok s (row_parent_id row)); [|discriminate].
  intros [= <-] (r' & Hin & Hid & Hp). cbn [departments] in Hin.
  apply in_map_iff in Hin as (r & Hr & Hin).
  destruct (Z.eqb_spec (row_id r) (row_id row)) as [E|E]; subst r'.
  - right. done.
  - left. split; [congruence|]. by exists r.
Qed.

Lemma descendant_update_department (s s' : Store) (row : DeptRow) (p x y : Z) :
  Sql.update_department s row = Some s' ->
  row_parent_id row = Some p ->
  descendant s' x y ->
  descendant s x y
  \/ ((x = p \/ descendant s x p) /\ (y = row_id row \/ descendant s (row_id row) y)).
Proof.
  intros Hupd Hp Hd. induction Hd as [c Hc|c y Hd IH Hy].
  - destruct (child_of_update_department _ _ _ _ _ Hupd Hc) as [[_ Hc']|[-> Hc']].
    + left. by apply descendant_child.
    + right. split; [left; congruence|by left].
  - destruct (child_of_update_department _ _ _ _ _ Hupd Hy) as [[_ Hy']|[-> Hy']].
    + destruct IH as [IH|[Hx [->|Hc]]].
      * left. by apply (descendant_step s x c).
      * right. split; [exact Hx|]. right. by apply descendant_child.
      * right. split; [exact Hx|]. right. by apply (descendant_step s _ c).
    + assert (c = p) as -> by congruence.
      destruct IH as [IH|[Hx _]]; right; (split; [|by left]); [by right|exact Hx].
Qed.

Lemma acyclic_update_department_parent (s s' : Store) (row : DeptRow) (p : Z) :
  acyclic s ->
  Sql.update_department s row = Some s' ->
  row_parent_id row = Some p ->
  p <> row_id row -> ~ descendant s (row_id row) p ->
  acyclic s'.
Proof.
  intros Hs Hupd Hp Hne Hnd x Hx.
  destruct (descendant_update_department _ _ _ p _ _ Hupd Hp Hx) as [Hold|[Hxp Hax]].
  - by apply (Hs x).
  - apply Hnd. destruct Hxp as [->|Hxp], Hax as [->|Hax]; try done.
    by apply (descendant_trans s _ x).
Qed.

(** A row that keeps the parent of a stored row of its identifier adds no
    child. *)
Lemma acyclic_update_department_same (s s' : Store) (row old : DeptRow) :
  acyclic s ->
  Sql.update_department s row = Some s' ->
  In old (departments s) -> row_id old = row_id row ->
  row_parent_id row = row_parent_id old ->
  acyclic s'.
Proof.
  intros Hs Hupd Hold Hid Hp.
  assert (Hch : forall a c, child_of s' a c -> child_of s a c).
  { intros a c Hc.
    destruct (child_of_update_department _ _ _ _ _ Hupd Hc) as [[_ Hc']|[-> Hc']];
      [exact Hc'|].
    exists old. split; [exact Hold|]. split; [exact Hid|congruence]. }
  assert (Hdesc : forall x y, descendant s' x y -> descendant s x y).
  { intros x y Hd. induction Hd as [c Hc|c y Hd IH Hy].
    - by apply descendant_child, Hch.
    - by apply (descendant_step s x c); [|apply Hch]. }
  intros x Hx. by apply (Hs x), Hdesc.
Qed.

(** ** [updateDepartment]: what a PATCH writes *)

(** [Save] writes nothing, or the row of the record as the hook has left
    it. *)
Lemma Save_Department_saved (d : Department) (w : World) :
  committed (snd (gorm.Save_Department Pool d w)) = committed w
  \/ exists d',
       (if SkipHooks w then (d, None)
        else Department_BeforeSave (mkConn (committed w) (fails w Pool)) d) = (d', None)
       /\ Sql.update_department (committed w) (gorm.row_of d')
          = Some (committed (snd (gorm.Save_Department Pool d w))).
Proof.
  unfold gorm.Save_Department. run_handler.
  destruct (if SkipHooks w then _ else _) as [d' [err|]];
    cbn [committed pending fails trace now SkipHooks fst snd]; [by left|].
  destruct (fails w Pool _);
    cbn [committed pending fails trace now SkipHooks fst snd]; [by left|].
  cbn [conn_rows].
  destruct (Sql.update_department (committed w) (gorm.row_of d')) eqn:E;
    cbn [committed pending fails trace now SkipHooks fst snd]; [|by left].
  right. eauto.
Qed.

(** A PATCH writes nothing, or replaces the row of the department it was
    sent for by the record that it read, with the new parent when one is
    given and [CheckCycle] has passed it, with the new name when one is
    given, as the hook has left it. *)
Lemma updateDepartment_saved (w : World) (idStr : string)
    (body : option UpdateDepartmentRequest) :
  committed (snd (updateDepartment idStr body w)) = committed w
  \/ exists deptID req old d',
       strconv.Atoi idStr = Some deptID /\ body = Some req
       /\ Sql.select_department (committed w) deptID = Some old
       /\ match udr_ParentID req with
          | Some p =>
              CheckCycle (mkConn (committed w) (fails w Pool)) (gorm.scan old) (Some p) = None
          | None => True
          end
       /\ (if SkipHooks w
           then (mkDepartment (row_id old)
                   (match udr_Name req with Some name => name | None => row_name old end)
                   (match udr_ParentID req with Some p => Some p | None => row_parent_id old end)
                   (row_created_at old) [] [], None)
           else Department_BeforeSave (mkConn (committed w) (fails w Pool))
                  (mkDepartment (row_id old)
                     (match udr_Name req with Some name => name | None => row_name old end)
                     (match udr_ParentID req with
                      | Some p => Some p
                      | None => row_parent_id old
                      end)
                     (row_created_at old) [] [])) = (d', None)
       /\ Sql.update_department (committed w) (gorm.row_of d')
          = Some (committed (snd (updateDepartment idStr body w))).
Proof.
  unfold updateDepartment.
  destruct (strconv.Atoi idStr) as [deptID|]; [|by left].
  destruct body as [req|]; [|by left].
  cbv [bind ret gorm.pool]. rewrite First_run. cbn [gorm.view].
  destruct (fails w Pool (SelectDepartment deptID));
    cbn [isRecordNotFound fst snd]; [by left|].
  destruct (Sql.select_department (committed w) deptID) as [old|] eqn:Hold;
    cbn [isRecordNotFound fst snd]; [|by left].
  assert (Hsave : forall d w0,
            committed w0 = committed w -> fails w0 = fails w -> SkipHooks w0 = SkipHooks w ->
            committed (snd (gorm.Save_Department Pool d w0)) = committed w
            \/ exists d',
                 (if SkipHooks w then (d, None)
                  else Department_BeforeSave (mkConn (committed w) (fails w Pool)) d)
                 = (d', None)
                 /\ Sql.update_department (committed w) (gorm.row_of d')
                    = Some (committed (snd (gorm.Save_Department Pool d w0)))).
  { intros d w0 <- <- <-. apply Save_Department_saved. }
  destruct req as [name [p|]]; cbn [udr_ParentID udr_Name].
  - destruct (negb (p =? 0)).
    + rewrite First_run. cbn [gorm.view gorm.logged committed fails].
      destruct (fails w Pool (SelectDepartment p));
        cbn [isRecordNotFound fst snd]; [by left|].
      destruct (Sql.select_department (committed w) p);
        cbn [isRecordNotFound fst snd]; [|by left].
      cbn [gorm.logged committed fails].
      destruct (CheckCycle (mkConn (committed w) (fails w Pool)) (gorm.scan old) (Some p))
        eqn:Hcc; cbn [fst snd]; [by left|].
      match goal with
      | |- context [gorm.Save_Department Pool ?d ?w0] =>
          destruct (Hsave d w0 eq_refl eq_refl eq_refl) as [Hs|(d' & Hhook & Hupd)];
          destruct (gorm.Save_Department Pool d w0) as [r w1]
      end; cbn [fst snd] in *; [by left|].
      right. exists deptID, (mkUpdateDepartmentRequest name (Some p)), old, d'.
      cbn [udr_ParentID udr_Name]. repeat split; try done.
      rewrite <- Hhook. cbn [gorm.scan dept_ID dept_Name dept_CreatedAt dept_Children
                              dept_Employees set_Name].
      by destruct name.
    + cbn [gorm.logged committed fails].
      destruct (CheckCycle (mkConn (committed w) (fails w Pool)) (gorm.scan old) (Some p))
        eqn:Hcc; cbn [fst snd]; [by left|].
      match goal with
      | |- context [gorm.Save_Department Pool ?d ?w0] =>
          destruct (Hsave d w0 eq_refl eq_refl eq_refl) as [Hs|(d' & Hhook & Hupd)];
          destruct (gorm.Save_Department Pool d w0) as [r w1]
      end; cbn [fst snd] in *; [by left|].
      right. exists deptID, (mkUpdateDepartmentRequest name (Some p)), old, d'.
      cbn [udr_ParentID udr_Name]. repeat split; try done.
      rewrite <- Hhook. cbn [gorm.scan dept_ID dept_Name dept_CreatedAt dept_Children
                              dept_Employees set_Name].
      by destruct name.
  - match goal with
    | |- context [gorm.Save_Department Pool ?d ?w0] =>
        destruct (Hsave d w0 eq_refl eq_refl eq_refl) as [Hs|(d' & Hhook & Hupd)];
        destruct (gorm.Save_Department Pool d w0) as [r w1]
    end; cbn [fst snd] in *; [by left|].
    right. exists deptID, (mkUpdateDepartmentRequest name None), old, d'.
    cbn [udr_ParentID udr_Name]. repeat split; try done.
    rewrite <- Hhook. by destruct name.
Qed.

Lemma select_department_In (s : Store) (id : Z) (r : DeptRow) :
  Sql.select_department s id = Some r -> In r (departments s).
Proof. unfold Sql.select_department. intros H. by apply find_some in H as [H _]. Qed.

(** The row that a PATCH writes, by its fields. *)
Lemma updateDepartment_row (w : World) (req : UpdateDepartmentRequest) (old : DeptRow)
    (d' : Department) :
  (if SkipHooks w
   then (mkDepartment (row_id old)
           (match udr_Name req with Some name => name | None => row_name old end)
           (match udr_ParentID req with Some p => Some p | None => row_parent_id old end)
           (row_created_at old) [] [], None)
   else Department_BeforeSave (mkConn (committed w) (fails w Pool))
          (mkDepartment (row_id old)
             (match udr_Name req with Some name => name | None => row_name old end)
             (match udr_ParentID req with Some p => Some p | None => row_parent_id old end)
             (row_created_at old) [] [])) = (d', None) ->
  row_id (gorm.row_of d') = row_id old
  /\ row_parent_id (gorm.row_of d')
     = match udr_ParentID req with Some p => Some p | None => row_parent_id old end
  /\ row_created_at (gorm.row_of d') = row_created_at old.
Proof.
  destruct (SkipHooks w).
  - intros [= <-]. done.
  - intros Hhook.
    pose proof (Department_BeforeSave_record (mkConn (committed w) (fails w Pool))
                  (mkDepartment (row_id old)
                     (match udr_Name req with Some name => name | None => row_name old end)
                     (match udr_ParentID req with
                      | Some p => Some p
                      | None => row_parent_id old
                      end)
                     (row_created_at old) [] [])) as Hrec.
    rewrite Hhook in Hrec. cbn [fst] in Hrec. subst d'. done.
Qed.

(** X11: a PATCH keeps the departments a forest, whatever the store makes
    fail: when no department is its own descendant before the request,
    none is after it.  A new parent that [CheckCycle] has passed is
    neither the department nor one of its descendants, so that the move
    closes no cycle; a request without a parent moves nothing.  (No
    department has the identifier 0, that the sequence never gives and
    that GORM reads as no identifier.) *)
Theorem updateDepartment_keeps_acyclic (w : World) (idStr : string)
    (body : option UpdateDepartmentRequest) :
  SkipHooks w = false ->
  Sql.has_department (committed w) 0 = false ->
  acyclic (committed w) ->
  acyclic (committed (snd (updateDepartment idStr body w))).
Proof.
  intros _ _ Hs.
  destruct (updateDepartment_saved w idStr body)
    as [->|(deptID & req & old & d' & _ & _ & Hold & Hcheck & Hhook & Hupd)]; [exact Hs|].
  destruct (updateDepartment_row w req old d' Hhook) as (Hid & Hparent & _).
  destruct (udr_ParentID req) as [p|].
  - apply CheckCycle_passes in Hcheck as [Hne Hnd]. cbn [gorm.scan dept_ID conn_rows] in *.
    apply (acyclic_update_department_parent (committed w) _ (gorm.row_of d') p);
      rewrite ?Hid; done.
  - apply (acyclic_update_department_same (committed w) _ (gorm.row_of d') old); try done.
    by apply (select_department_In _ deptID).
Qed.

Lemma acyclic_chain : acyclic Examples.chain.
Proof.
  assert (Hup : forall x y, descendant Examples.chain x y -> x < y).
  { intros x y Hd.
    assert (Hch : forall a c, child_of Examples.chain a c -> a < c).
    { intros a c (r & Hin & <- & Hp).
      repeat (destruct Hin as [<-|Hin]; [cbn in Hp; try discriminate;
                                         injection Hp as <-; cbn; lia|]).
      destruct Hin. }
    induction Hd as [c Hc|c y Hd IH Hy]; [by apply Hch|].
    apply Hch in Hy. lia. }
  intros x Hx. apply Hup in Hx. lia.
Qed.

Lemma updateDepartment_keeps_acyclic_witness :
  Sql.select_department
    (committed (snd (updateDepartment "4" (Some (mkUpdateDepartmentRequest None (Some 1)))
                       (Examples.world Examples.chain)))) 4
  = Some (mkDeptRow 4 "Storage" (Some 1) 40)
  /\ acyclic (committed (snd (updateDepartment "4"
                                (Some (mkUpdateDepartmentRequest None (Some 1)))
                                (Examples.world Examples.chain)))).
Proof.
  split; [vm_compute; reflexivity|].
  apply (updateDepartment_keeps_acyclic (Examples.world Examples.chain) "4"
           (Some (mkUpdateDepartmentRequest None (Some 1)))).
  - reflexivity.
  - reflexivity.
  - apply acyclic_chain.
Defined.

Lemma NoDup_ids_same (rows : list DeptRow) (r1 r2 : DeptRow) :
  NoDup (map row_id rows) -> In r1 rows -> In r2 rows -> row_id r1 = row_id r2 -> r1 = r2.
Proof.
  induction rows as [|r rows IH]; [intros _ []|].
  cbn [map]. intros Hnd H1 H2 Hid. apply NoDup_cons in Hnd as [Hout Hnd].
  destruct H1 as [->|H1], H2 as [->|H2]; [reflexivity| | |by apply IH].
  - exfalso. apply Hout. apply list_elem_of_In, in_map_iff. exists r2. done.
  - exfalso. apply Hout. apply list_elem_of_In, in_map_iff. exists r1. done.
Qed.

(** X12: a PATCH cannot make a department a root.  A [parent_id] that is
    null or absent is no move: the request changes at most the name of
    its department, and every department keeps its identifier, its
    parent and its creation time. *)
Theorem updateDepartment_without_parent (w : World) (idStr : string)
    (req : UpdateDepartmentRequest) :
  SkipHooks w = false ->
  consistent (committed w) ->
  udr_ParentID req = None ->
  map (fun r => (row_id r, row_parent_id r, row_created_at r))
      (departments (committed (snd (updateDepartment idStr (Some req) w))))
  = map (fun r => (row_id r, row_parent_id r, row_created_at r)) (departments (committed w))
  /\ forall r, In r (departments (committed w)) -> strconv.Atoi idStr <> Some (row_id r) ->
               In r (departments (committed (snd (updateDepartment idStr (Some req) w)))).
Proof.
  intros _ Hs Hnone.
  destruct (updateDepartment_saved w idStr (Some req))
    as [->|(deptID & req' & old & d' & Hatoi & [= <-] & Hold & _ & Hhook & Hupd)]; [done|].
  destruct (updateDepartment_row w req old d' Hhook) as (Hid & Hparent & Hcreated).
  rewrite Hnone in Hparent.
  pose proof (select_department_In _ _ _ Hold) as Hin.
  pose proof (select_department_id _ _ _ Hold) as Hdept.
  destruct Hs as (_ & _ & Hnd & _).
  unfold Sql.update_department in Hupd.
  destruct (Sql.fk_ok (committed w) _); [|discriminate]. injection Hupd as <-.
  cbn [departments gorm.row_of row_id row_parent_id row_created_at] in *. split.
  - rewrite map_map. apply map_ext_in. intros r Hr.
    destruct (Z.eqb_spec (row_id r) (dept_ID d')) as [E|E]; [|reflexivity].
    assert (r = old) as -> by (apply (NoDup_ids_same (departments (committed w))); congruence).
    cbn [gorm.row_of row_id row_parent_id row_created_at]. congruence.
  - intros r Hr Hne. apply in_map_iff. exists r. split; [|exact Hr].
    destruct (Z.eqb_spec (row_id r) (dept_ID d')) as [E|E]; [|reflexivity].
    exfalso. apply Hne. congruence.
Qed.

Lemma updateDepartment_without_parent_witness :
  departments (committed (snd (updateDepartment "3"
                                 (Some (mkUpdateDepartmentRequest (Some " Platform ") None))
                                 (Examples.world Examples.chain))))
  = [mkDeptRow 1 "Org" None 10; mkDeptRow 2 "Eng" (Some 1) 20;
     mkDeptRow 3 "Platform" (Some 2) 30; mkDeptRow 4 "Storage" (Some 3) 40]
  /\ map (fun r => (row_id r, row_parent_id r, row_created_at r))
         (departments (committed (snd (updateDepartment "3"
                                         (Some (mkUpdateDepartmentRequest (Some " Platform ")
                                                  None))
                                         (Examples.world Examples.chain)))))
     = map (fun r => (row_id r, row_parent_id r, row_created_at r))
           (departments (committed (Examples.world Examples.chain))).
Proof.
  split; [vm_compute; reflexivity|].
  destruct (updateDepartment_without_parent (Examples.world Examples.chain) "3"
              (mkUpdateDepartmentRequest (Some " Platform ") None) eq_refl consistent_chain
              eq_refl) as [Hmap _].
  exact Hmap.
Defined.

(** ** The names under a parent *)

(** [Create] writes nothing, or inserts the record as the hook has left
    it. *)
Lemma Create_Department_written (d : Department) (w : World) :
  committed (snd (gorm.Create_Department Pool d w)) = committed w
  \/ exists d',
       (if SkipHooks w then (d, None)
        else Department_BeforeSave (mkConn (committed w) (fails w Pool)) d) = (d', None)
       /\ committed (snd (gorm.Create_Department Pool d w))
          = fst (Sql.insert_department (committed w) (dept_Name d') (dept_ParentID d') (now w)).
Proof.
  unfold gorm.Create_Department. run_handler.
  destruct (if SkipHooks w then _ else _) as [d' [err|]];
    cbn [committed pending fails trace now SkipHooks fst snd]; [by left|].
  destruct (fails w Pool InsertDepartment);
    cbn [committed pending fails trace now SkipHooks fst snd]; [by left|].
  right. exists d'. split; [reflexivity|]. cbn [conn_rows].
  by destruct (Sql.insert_department _ _ _ _) as [s r].
Qed.

Lemma createDepartment_written (w : World) (body : option CreateDepartmentRequest) :
  committed (snd (createDepartment body w)) = committed w
  \/ exists req d',
       body = Some req
       /\ (if SkipHooks w then (mkDepartment 0 (cdr_Name req) (cdr_ParentID req) 0 [] [], None)
           else Department_BeforeSave (mkConn (committed w) (fails w Pool))
                  (mkDepartment 0 (cdr_Name req) (cdr_ParentID req) 0 [] [])) = (d', None)
       /\ committed (snd (createDepartment body w))
          = fst (Sql.insert_department (committed w) (dept_Name d') (dept_ParentID d') (now w)).
Proof.
  destruct body as [req|]; [|by left]. unfold createDepartment.
  destruct (cdr_ParentID req) as [p|] eqn:Hp; cbv [bind ret]; [rewrite First_run|].
  - destruct (if fails w Pool (SelectDepartment p) then _ else _) as [?|err];
      cbn [isRecordNotFound fst snd]; [|by left].
    match goal with
    | |- context [gorm.Create_Department Pool ?d ?w0] =>
        destruct (Create_Department_written d w0) as [Hs|(d' & Hhook & Hins)];
        destruct (gorm.Create_Department Pool d w0) as [r w1]
    end; cbn [fst snd] in *; [by left|].
    right. exists req, d'. rewrite Hp. done.
  - match goal with
    | |- context [gorm.Create_Department Pool ?d ?w0] =>
        destruct (Create_Department_written d w0) as [Hs|(d' & Hhook & Hins)];
        destruct (gorm.Create_Department Pool d w0) as [r w1]
    end; cbn [fst snd] in *; [by left|].
    right. exists req, d'. rewrite Hp. done.
Qed.

(** With the handle that runs the hooks a DELETE writes nothing or
    deletes the department, in every mode. *)
Lemma deleteDepartment_deployed (w : World) (idStr : string) (q : Values) :
  SkipHooks w = false -> pending w = None ->
  committed (snd (deleteDepartment idStr q w)) = committed w
  \/ exists deptID, committed (snd (deleteDepartment idStr q w))
                    = Sql.delete_department (committed w) deptID.
Proof.
  intros Hk Hp. unfold deleteDepartment. cbv zeta.
  destruct (strconv.Atoi idStr) as [deptID|]; [|by left].
  destruct (if String.eqb (Get q "reassign_to_department_id") "" then _ else _)
    as [reassignTo|]; [|by left].
  destruct (String.eqb _ "reassign" && _) eqn:Hreq; [by left|].
  destruct (String.eqb (if String.eqb (Get q "mode") "" then "cascade" else Get q "mode")
              "cascade");
    [|destruct (String.eqb (if String.eqb (Get q "mode") "" then "cascade" else Get q "mode")
                  "reassign"); [destruct reassignTo as [target|]|]];
    run_handler;
    repeat first [rewrite Hk | rewrite zero_Employee_refused | rewrite zero_Department_refused
                 | branch];
    cbn [committed pending fails trace now SkipHooks fst snd]; eauto.
Qed.

Lemma count_siblings_self_le (s : Store) (name : string) (parent self : option Z) :
  Sql.count_siblings s name parent self <= Sql.count_siblings s name parent None.
Proof.
  unfold Sql.count_siblings. apply inj_le.
  induction (departments s) as [|r rows IH]; [done|]. cbn [List.filter].
  destruct (String.eqb (row_name r) name && Sql.eq_nullable (row_parent_id r) parent);
    cbn [andb]; [|exact IH].
  destruct (match self with Some id => negb (row_id r =? id) | None => true end);
    cbn [List.length]; lia.
Qed.

Lemma count_siblings_insert (s : Store) (row : DeptRow) (es : list Employee) (dseq eseq : Z)
    (name : string) (parent : option Z) :
  Sql.count_siblings (mkStore (departments s ++ [row]) es dseq eseq) name parent None
  = Sql.count_siblings s name parent None
    + (if String.eqb (row_name row) name && Sql.eq_nullable (row_parent_id row) parent
       then 1 else 0).
Proof.
  unfold Sql.count_siblings. cbn [departments]. rewrite List.filter_app, length_app.
  cbn [List.filter]. rewrite andb_true_r.
  destruct (String.eqb (row_name row) name && Sql.eq_nullable (row_parent_id row) parent);
    cbn [List.length]; lia.
Qed.

Lemma count_siblings_update (rows : list DeptRow) (row old : DeptRow) (es : list Employee)
    (dseq eseq : Z) (name : string) (parent : option Z) :
  NoDup (map row_id rows) -> In old rows -> row_id old = row_id row ->
  Sql.count_siblings
    (mkStore (map (fun r => if row_id r =? row_id row then row else r) rows) es dseq eseq)
    name parent None
  = Sql.count_siblings (mkStore rows es dseq eseq) name parent (Some (row_id row))
    + (if String.eqb (row_name row) name && Sql.eq_nullable (row_parent_id row) parent
       then 1 else 0).
Proof.
  intros Hnd Hin Hid. unfold Sql.count_siblings. cbn [departments].
  set (m := fun r => String.eqb (row_name r) name && Sql.eq_nullable (row_parent_id r) parent).
  assert (Hgen : forall rows, NoDup (map row_id rows) ->
            List.length (List.filter (fun r => m r && true)
                           (map (fun r => if row_id r =? row_id row then row else r) rows))
            = Nat.add
                (List.length (List.filter (fun r => m r && negb (row_id r =? row_id row)) rows))
                (if existsb (fun r => row_id r =? row_id row) rows && m row then 1%nat
                 else 0%nat)).
  { clear. intros rows. induction rows as [|r rows IH]; [done|].
    cbn [map List.filter existsb]. intros Hnd. apply NoDup_cons in Hnd as [Hout Hnd].
    specialize (IH Hnd).
    destruct (Z.eqb_spec (row_id r) (row_id row)) as [E|E]; cbn [negb orb].
    - rewrite andb_false_r.
      assert (Hnone : existsb (fun r => row_id r =? row_id row) rows = false).
      { destruct (existsb _ rows) eqn:Hex; [|reflexivity]. exfalso. apply Hout.
        apply existsb_exists in Hex as (r' & Hr' & Hid'). apply Z.eqb_eq in Hid'.
        apply list_elem_of_In, in_map_iff. exists r'. split; [congruence|exact Hr']. }
      rewrite Hnone in IH. cbn [andb] in IH. rewrite andb_true_r.
      destruct (m row); cbn [List.length andb]; lia.
    - rewrite !andb_true_r in *. destruct (m r); cbn [List.length]; lia. }
  change (Z.of_nat (List.length
                      (List.filter (fun r => m r && true)
                         (map (fun r => if row_id r =? row_id row then row else r) rows)))
          = Z.of_nat (List.length
                        (List.filter (fun r => m r && negb (row_id r =? row_id row)) rows))
            + (if m row then 1 else 0)).
  rewrite (Hgen rows Hnd).
  assert (Hex : existsb (fun r => row_id r =? row_id row) rows = true).
  { apply existsb_exists. exists old. split; [exact Hin|by apply Z.eqb_eq]. }
  rewrite Hex. cbn [andb]. destruct (m row); lia.
Qed.

Lemma count_siblings_delete (s : Store) (id : Z) (name : string) (parent : option Z) :
  Sql.count_siblings (Sql.delete_department s id) name parent None
  <= Sql.count_siblings s name parent None.
Proof.
  unfold Sql.delete_department. destruct (Sql.has_department s id); [|lia].
  unfold Sql.count_siblings. cbn [departments]. apply inj_le.
  induction (departments s) as [|r rows IH]; [done|]. cbn [List.filter].
  destruct (bool_decide _); cbn [List.filter];
    destruct (String.eqb (row_name r) name && Sql.eq_nullable (row_parent_id r) parent
              && true); cbn [List.length]; lia.
Qed.

(** X13: the rule that the names of the departments under one parent are
    distinct is kept by every request that the handlers answer, with the
    handle that runs the hooks and whatever the store makes fail: when
    no two departments under a same parent have the same name before a
    POST, a PATCH or a DELETE, none have after it. *)
Theorem sibling_names_stay_unique (w : World) :
  SkipHooks w = false -> pending w = None ->
  consistent (committed w) ->
  unique_sibling_names (committed w) ->
  (forall body, unique_sibling_names (committed (snd (createDepartment body w))))
  /\ (forall idStr body, unique_sibling_names (committed (snd (updateDepartment idStr body w))))
  /\ (forall idStr q, unique_sibling_names (committed (snd (deleteDepartment idStr q w)))).
Proof.
  intros Hk Hp Hs Hu. split; [|split].
  - intros body.
    destruct (createDepartment_written w body) as [->|(req & d' & _ & Hhook & ->)]; [exact Hu|].
    rewrite Hk in Hhook.
    pose proof (Department_BeforeSave_accepts (mkConn (committed w) (fails w Pool))
                  (mkDepartment 0 (cdr_Name req) (cdr_ParentID req) 0 [] [])) as Hacc.
    pose proof (Department_BeforeSave_record (mkConn (committed w) (fails w Pool))
                  (mkDepartment 0 (cdr_Name req) (cdr_ParentID req) 0 [] [])) as Hrec.
    rewrite Hhook in Hacc, Hrec. cbn [fst snd] in Hacc, Hrec. subst d'.
    destruct (Hacc eq_refl) as (_ & _ & Hcount).
    cbn [dept_ID dept_Name dept_ParentID conn_rows set_Name] in *.
    change (0 =? 0) with true in Hcount. cbv iota in Hcount.
    unfold Sql.insert_department.
    destruct (Sql.fk_ok (committed w) (cdr_ParentID req)); cbn [fst]; [|exact Hu].
    intros name parent. rewrite count_siblings_insert. cbn [row_name row_parent_id].
    destruct (String.eqb_spec (GoString.TrimSpace (cdr_Name req)) name) as [<-|_];
      cbn [andb]; [|specialize (Hu name parent); lia].
    destruct (cdr_ParentID req) as [p|]; cbn [Sql.eq_nullable];
      [|specialize (Hu (GoString.TrimSpace (cdr_Name req)) parent); lia].
    destruct (Z.eqb_spec p parent) as [<-|_];
      [lia|specialize (Hu (GoString.TrimSpace (cdr_Name req)) parent); lia].
  - intros idStr body.
    destruct (updateDepartment_saved w idStr body)
      as [->|(deptID & req & old & d' & _ & _ & Hold & _ & Hhook & Hupd)]; [exact Hu|].
    rewrite Hk in Hhook.
    set (d := mkDepartment (row_id old) _ _ (row_created_at old) [] []) in Hhook.
    pose proof (Department_BeforeSave_accepts (mkConn (committed w) (fails w Pool)) d) as Hacc.
    pose proof (Department_BeforeSave_record (mkConn (committed w) (fails w Pool)) d) as Hrec.
    rewrite Hhook in Hacc, Hrec. cbn [fst snd] in Hacc, Hrec. subst d'.
    destruct (Hacc eq_refl) as (_ & _ & Hcount).
    pose proof (select_department_In _ _ _ Hold) as Hin.
    pose proof Hs as (_ & _ & Hnd & _ & Hrows & _).
    destruct (Hrows old Hin) as [Hpos _].
    cbn [d dept_ID conn_rows] in Hcount.
    destruct (Z.eqb_spec (row_id old) 0) as [|_]; [lia|].
    unfold Sql.update_department in Hupd.
    destruct (Sql.fk_ok (committed w) _); [|discriminate]. injection Hupd as <-.
    intros name parent.
    set (row := gorm.row_of (set_Name d (GoString.TrimSpace (dept_Name d)))).
    change (Sql.count_siblings
              (mkStore (map (fun r => if row_id r =? row_id row then row else r)
                          (departments (committed w)))
                 (employees (committed w)) (departments_id_seq (committed w))
                 (employees_id_seq (committed w))) name (Some parent) None <= 1).
    rewrite (count_siblings_update (departments (committed w)) row old) by done.
    cbn [row gorm.row_of set_Name row_id row_name row_parent_id dept_ID dept_Name
         dept_ParentID].
    pose proof (count_siblings_self_le (committed w) name (Some parent) (Some (row_id old)))
      as Hle.
    specialize (Hu name parent).
    assert (Hsame : Sql.count_siblings
                      (mkStore (departments (committed w)) (employees (committed w))
                         (departments_id_seq (committed w)) (employees_id_seq (committed w)))
                      name (Some parent) (Some (dept_ID d))
                    = Sql.count_siblings (committed w) name (Some parent) (Some (row_id old)))
      by reflexivity.
    rewrite Hsame.
    destruct (String.eqb_spec (GoString.TrimSpace (dept_Name d)) name) as [<-|_];
      cbn [andb]; [|lia].
    destruct (dept_ParentID d) as [p|]; cbn [Sql.eq_nullable]; [|lia].
    destruct (Z.eqb_spec p parent) as [<-|_]; lia.
  - intros idStr q.
    destruct (deleteDepartment_deployed w idStr q Hk Hp) as [->|[deptID ->]]; [exact Hu|].
    intros name parent.
    pose proof (count_siblings_delete (committed w) deptID name (Some parent)).
    specialize (Hu name parent). lia.
Qed.

Lemma unique_sibling_names_chain : unique_sibling_names Examples.chain.
Proof.
  intros name parent. unfold Sql.count_siblings.
  cbn [Examples.chain departments List.filter row_name row_parent_id Sql.eq_nullable].
  rewrite ?andb_true_r, ?andb_false_r.
  destruct (Z.eqb_spec 1 parent), (Z.eqb_spec 2 parent), (Z.eqb_spec 3 parent); try lia;
    rewrite ?andb_false_r, ?andb_true_r; cbn [List.filter];
    repeat match goal with |- context [if ?b then _ else _] => destruct b end;
    cbn [List.length]; lia.
Qed.

Lemma sibling_names_stay_unique_witness :
  status (fst (createDepartment (Some (mkCreateDepartmentRequest " Eng " (Some 1)))
                 (Examples.world Examples.chain))) = StatusBadRequest
  /\ status (fst (createDepartment (Some (mkCreateDepartmentRequest "Sales" (Some 1)))
                    (Examples.world Examples.chain))) = StatusCreated
  /\ unique_sibling_names
       (committed (snd (createDepartment (Some (mkCreateDepartmentRequest "Sales" (Some 1)))
                          (Examples.world Examples.chain))))
  /\ unique_sibling_names
       (committed (snd (updateDepartment "4"
                          (Some (mkUpdateDepartmentRequest (Some "Backend") (Some 1)))
                          (Examples.world Examples.chain))))
  /\ unique_sibling_names
       (committed (snd (deleteDepartment "3" [] (Examples.world Examples.chain)))).
Proof.
  split; [vm_compute; reflexivity|]. split; [vm_compute; reflexivity|].
  destruct (sibling_names_stay_unique (Examples.world Examples.chain) eq_refl eq_refl
              consistent_chain unique_sibling_names_chain) as (Hc & Hu & Hd).
  split; [apply Hc|]. split; [apply Hu|apply Hd].
Defined.

(** ** The forest, after a creation and after a deletion *)

Lemma descendant_first (s : Store) (a y : Z) :
  descendant s a y -> exists c, child_of s a c.
Proof. intros Hd. induction Hd as [c Hc|c y Hd IH Hy]; eauto. Qed.

Lemma descendant_incl (s s' : Store) :
  (forall a c, child_of s' a c -> child_of s a c) ->
  forall x y, descendant s' x y -> descendant s x y.
Proof.
  intros Hch x y Hd. induction Hd as [c Hc|c y Hd IH Hy].
  - by apply descendant_child, Hch.
  - by apply (descendant_step s x c); [|apply Hch].
Qed.

Lemma acyclic_delete_department (s : Store) (id : Z) :
  acyclic s -> acyclic (Sql.delete_department s id).
Proof.
  intros Hs x Hx. apply (Hs x). revert Hx. apply descendant_incl.
  intros a c (r & Hin & Hid & Hp). exists r. split; [|done].
  unfold Sql.delete_department in Hin. destruct (Sql.has_department s id); [|exact Hin].
  cbn [departments] in Hin. by apply filter_In in Hin as [Hin _].
Qed.

(** The department that an insertion adds has the identifier that the
    sequence gives, which no row references: it has no child. *)
Lemma acyclic_insert_department (s : Store) (name : string) (parent : option Z) (t : Time) :
  consistent s -> acyclic s -> acyclic (fst (Sql.insert_department s name parent t)).
Proof.
  intros (_ & _ & _ & _ & Hrows & _) Hs. unfold Sql.insert_department.
  assert (Hfresh : Sql.has_department s (departments_id_seq s + 1) = false).
  { destruct (Sql.has_department s (departments_id_seq s + 1)) eqn:E; [|reflexivity].
    apply has_department_In, in_map_iff in E as (r & Hid & Hin).
    destruct (Hrows r Hin) as [Hle _]. lia. }
  destruct (Sql.fk_ok s parent) eqn:Hfk; cbn [fst].
  2: { intros x Hx. apply (Hs x). revert Hx. apply descendant_incl.
       intros a c (r & Hin & Hid & Hp). by exists r. }
  set (s' := mkStore _ _ _ _).
  assert (Hch : forall a c, child_of s' a c ->
            a <> departments_id_seq s + 1
            /\ (child_of s a c \/ c = departments_id_seq s + 1)).
  { intros a c (r & Hin & Hid & Hp). cbn [s' departments] in Hin.
    apply in_app_iff in Hin as [Hin|[<-|[]]].
    - destruct (Hrows r Hin) as [_ Hr]. rewrite Hp in Hr. cbn [Sql.fk_ok] in Hr.
      split; [congruence|]. left. by exists r.
    - cbn [row_id row_parent_id] in *. subst parent. cbn [Sql.fk_ok] in Hfk.
      split; [congruence|]. by right. }
  assert (Hdesc : forall x y, descendant s' x y ->
            descendant s x y \/ y = departments_id_seq s + 1).
  { intros x y Hd. induction Hd as [c Hc|c y Hd IH Hy].
    - destruct (Hch _ _ Hc) as [_ [Hc'| ->]]; [left; by apply descendant_child|by right].
    - destruct (Hch _ _ Hy) as [Hne [Hy'| ->]]; [|by right].
      destruct IH as [IH| ->]; [|done]. left. by apply (descendant_step s x c). }
  intros x Hx. destruct (Hdesc x x Hx) as [Hold| ->]; [by apply (Hs x)|].
  apply descendant_first in Hx as [c Hc]. by destruct (Hch _ _ Hc) as [Hne _].
Qed.

(** X14: a POST and a DELETE keep the departments a forest, with the
    handle that runs the hooks and whatever the store makes fail: a new
    department has a fresh identifier, that no row references, and a
    deletion removes rows only. *)
Theorem create_delete_keep_acyclic (w : World) :
  SkipHooks w = false -> pending w = None ->
  consistent (committed w) ->
  acyclic (committed w) ->
  (forall body, acyclic (committed (snd (createDepartment body w))))
  /\ (forall idStr q, acyclic (committed (snd (deleteDepartment idStr q w)))).
Proof.
  intros Hk Hp Hs Ha. split.
  - intros body.
    destruct (createDepartment_written w body) as [->|(req & d' & _ & _ & ->)]; [exact Ha|].
    by apply acyclic_insert_department.
  - intros idStr q.
    destruct (deleteDepartment_deployed w idStr q Hk Hp) as [->|[deptID ->]]; [exact Ha|].
    by apply acyclic_delete_department.
Qed.

Lemma create_delete_keep_acyclic_witness :
  acyclic (committed (snd (createDepartment (Some (mkCreateDepartmentRequest "Sales" (Some 4)))
                             (Examples.world Examples.chain))))
  /\ acyclic (committed (snd (deleteDepartment "3" [("mode", "cascade")]
                                (Examples.world Examples.chain)))).
Proof.
  destruct (create_delete_keep_acyclic (Examples.world Examples.chain) eq_refl eq_refl
              consistent_chain acyclic_chain) as (Hc & Hd).
  split; [apply Hc|apply Hd].
Defined.

(** ** [updateDepartment]: two edges *)

Lemma Save_Department_refused (d : Department) (w : World) :
  Sql.fk_ok (committed w) (dept_ParentID d) = false ->
  exists err, fst (gorm.Save_Department Pool d w) = Err err.
Proof.
  intros Hfk. unfold gorm.Save_Department. run_handler.
  assert (Hparent : forall d', (if SkipHooks w then (d, None)
                                else Department_BeforeSave
                                       (mkConn (committed w) (fails w Pool)) d) = (d', None) ->
                               dept_ParentID d' = dept_ParentID d).
  { intros d'. destruct (SkipHooks w); [by intros [= <-]|]. intros Hhook.
    pose proof (Department_BeforeSave_record (mkConn (committed w) (fails w Pool)) d) as Hrec.
    rewrite Hhook in Hrec. cbn [fst] in Hrec. by subst d'. }
  destruct (if SkipHooks w then _ else _) as [d' [err|]];
    cbn [committed pending fails trace now SkipHooks fst snd]; [eauto|].
  destruct (fails w Pool _);
    cbn [committed pending fails trace now SkipHooks fst snd]; [eauto|].
  unfold Sql.update_department. cbn [conn_rows gorm.row_of row_parent_id].
  rewrite (Hparent d' eq_refl), Hfk. cbn. eauto.
Qed.

(** X15: the identifier 0 is not a way to the root.  For a new parent 0
    the handler skips the check that the parent exists; the cycle check
    passes, and it is the foreign key that refuses the row: the PATCH of
    a stored department is answered 400, not 404, and nothing is
    written. *)
Theorem updateDepartment_parent_zero (w : World) (idStr : string) (deptID : Z)
    (name : option string) :
  healthy w -> SkipHooks w = false ->
  consistent (committed w) ->
  strconv.Atoi idStr = Some deptID ->
  Sql.has_department (committed w) deptID = true ->
  status (fst (updateDepartment idStr (Some (mkUpdateDepartmentRequest name (Some 0))) w))
  = StatusBadRequest
  /\ committed (snd (updateDepartment idStr (Some (mkUpdateDepartmentRequest name (Some 0))) w))
     = committed w.
Proof.
  intros Hh _ Hs Hid Hhas.
  assert (Hzero : Sql.has_department (committed w) 0 = false).
  { destruct (Sql.has_department (committed w) 0) eqn:E; [|reflexivity].
    apply has_department_In, in_map_iff in E as (r & Hr & Hin).
    destruct Hs as (_ & _ & _ & _ & Hrows & _). destruct (Hrows r Hin) as [Hpos _]. lia. }
  split.
  - apply select_department_has in Hhas as [old Hold].
    pose proof (select_department_id _ _ _ Hold) as Hold_id.
    pose proof (select_department_In _ _ _ Hold) as Hin.
    destruct Hs as (_ & _ & _ & _ & Hrows & _). destruct (Hrows old Hin) as [Hpos _].
    assert (Hcheck : CheckCycle (mkConn (committed w) (fails w Pool)) (gorm.scan old) (Some 0)
                     = None).
    { apply CheckCycle_other.
      - intros q. apply Hh.
      - cbn [gorm.scan dept_ID]. lia.
      - cbn [conn_rows]. intros Hd. apply descendant_exists in Hd. congruence. }
    unfold updateDepartment. rewrite Hid. cbv [bind ret gorm.pool].
    cbn [udr_ParentID udr_Name]. rewrite First_run. run_healthy Hh.
    cbn [gorm.view]. rewrite Hold. run_healthy Hh.
    change (negb (0 =? 0)) with false. cbv iota.
    cbn [gorm.logged committed fails fst snd]. rewrite Hcheck.
    match goal with
    | |- context [gorm.Save_Department Pool ?d ?w0] =>
        destruct (Save_Department_refused d w0) as [err Herr]; [by destruct name|];
        destruct (gorm.Save_Department Pool d w0) as [r w1]
    end.
    cbn [fst] in *. by subst r.
  - destruct (updateDepartment_saved w idStr (Some (mkUpdateDepartmentRequest name (Some 0))))
      as [->|(deptID' & req & old & d' & _ & [= <-] & _ & _ & Hhook & Hupd)]; [done|].
    destruct (updateDepartment_row w _ old d' Hhook) as (_ & Hparent & _).
    cbn [udr_ParentID] in Hparent. unfold Sql.update_department in Hupd.
    rewrite Hparent in Hupd. cbn [Sql.fk_ok] in Hupd. rewrite Hzero in Hupd. discriminate.
Qed.

Lemma updateDepartment_parent_zero_witness :
  status (fst (updateDepartment "3" (Some (mkUpdateDepartmentRequest None (Some 0)))
                 (Examples.world Examples.chain))) = StatusBadRequest
  /\ committed (snd (updateDepartment "3" (Some (mkUpdateDepartmentRequest None (Some 0)))
                       (Examples.world Examples.chain))) = Examples.chain.
Proof.
  apply (updateDepartment_parent_zero (Examples.world Examples.chain) "3" 3 None).
  - intros h q. reflexivity.
  - reflexivity.
  - apply consistent_chain.
  - reflexivity.
  - reflexivity.
Defined.

(** X16: an error of the store during the cycle check is answered as a
    conflict: when the query for the children of the department fails,
    the PATCH that gives a new parent is answered 409, not 500, and
    nothing is written. *)
Theorem updateDepartment_check_failure (w : World) (idStr : string) (deptID p : Z)
    (name : option string) :
  strconv.Atoi idStr = Some deptID ->
  fails w Pool (SelectDepartment deptID) = false ->
  fails w Pool (SelectDepartment p) = false ->
  Sql.has_department (committed w) deptID = true ->
  Sql.has_department (committed w) p = true ->
  p <> deptID ->
  fails w Pool (PluckChildren deptID) = true ->
  fst (updateDepartment idStr (Some (mkUpdateDepartmentRequest name (Some p))) w)
  = respondError StatusConflict (Error ErrStore)
  /\ committed (snd (updateDepartment idStr (Some (mkUpdateDepartmentRequest name (Some p))) w))
     = committed w.
Proof.
  intros Hid Hf1 Hf2 Hhas Hp Hne Hfail.
  apply select_department_has in Hhas as [old Hold].
  pose proof (select_department_id _ _ _ Hold) as Hold_id.
  apply select_department_has in Hp as [prow Hprow].
  assert (Hcheck : CheckCycle (mkConn (committed w) (fails w Pool)) (gorm.scan old) (Some p)
                   = Some ErrStore).
  { unfold CheckCycle, Pluck. cbn [gorm.scan dept_ID conn_fails]. rewrite Hold_id.
    destruct (Z.eqb_spec p deptID); [done|]. by rewrite Hfail. }
  unfold updateDepartment. rewrite Hid. cbv [bind ret gorm.pool].
  cbn [udr_ParentID udr_Name]. rewrite First_run, Hf1.
  cbn [gorm.view]. rewrite Hold. cbn [fst snd].
  destruct (Z.eqb_spec p 0) as [->|_]; cbn [negb].
  - cbn [gorm.logged committed fails fst snd]. by rewrite Hcheck.
  - rewrite First_run. cbn [gorm.view gorm.logged committed fails]. rewrite Hf2, Hprow.
    cbn [gorm.logged fst snd committed fails]. by rewrite Hcheck.
Qed.

Lemma updateDepartment_check_failure_witness :
  fst (updateDepartment "4" (Some (mkUpdateDepartmentRequest None (Some 1)))
         (mkWorld Examples.chain None
            (fun _ q => match q with PluckChildren _ => true | _ => false end) [] 100 false))
  = respondError StatusConflict "store failure"
  /\ committed (snd (updateDepartment "4" (Some (mkUpdateDepartmentRequest None (Some 1)))
                       (mkWorld Examples.chain None
                          (fun _ q => match q with PluckChildren _ => true | _ => false end)
                          [] 100 false)))
     = Examples.chain.
Proof.
  apply (updateDepartment_check_failure
           (mkWorld Examples.chain None
              (fun _ q => match q with PluckChildren _ => true | _ => false end) [] 100 false)
           "4" 4 1 None); try reflexivity.
  discriminate.
Defined.

(** ** [createDepartment] and [createEmployee]: the order of the checks *)

(** X17: a department is created under a parent that is stored only: for
    a [parent_id] that no department has, the POST is answered 404 after
    the one read that looks for it; the hook is not run, no row is
    written and no identifier is taken from the sequence. *)
Theorem createDepartment_parent_missing (w : World) (name : string) (parent : Z) :
  healthy w ->
  Sql.has_department (committed w) parent = false ->
  createDepartment (Some (mkCreateDepartmentRequest name (Some parent))) w
  = (respondError StatusNotFound "parent department not found",
     gorm.logged w Pool (SelectDepartment parent)).
Proof.
  intros Hh Hhas. unfold createDepartment. cbn [cdr_ParentID]. cbv [bind ret].
  rewrite First_run, Hh. cbn [gorm.view]. by rewrite (select_department_none _ _ Hhas).
Qed.

Lemma createDepartment_parent_missing_witness :
  createDepartment (Some (mkCreateDepartmentRequest "Sales" (Some 9)))
    (Examples.world Examples.chain)
  = (respondError StatusNotFound "parent department not found",
     gorm.logged (Examples.world Examples.chain) Pool (SelectDepartment 9)).
Proof.
  apply (createDepartment_parent_missing (Examples.world Examples.chain) "Sales" 9).
  - intros h q. reflexivity.
  - reflexivity.
Defined.

(** X18: [createEmployee] looks for the department before it reads the
    body.  A path identifier that is not an integer is answered 400 with
    no statement issued; a department that is not stored is answered 404
    whatever the body, one that does not decode included; and a body that
    does not decode is answered 400 only for a department that is
    stored.  No row is written in any of the three cases. *)
Theorem createEmployee_checks (w : World) (idStr : string)
    (body : option CreateEmployeeRequest) :
  healthy w ->
  (strconv.Atoi idStr = None ->
   createEmployee idStr body w = (respondError StatusBadRequest "invalid department id", w))
  /\ (forall deptID,
        strconv.Atoi idStr = Some deptID ->
        Sql.has_department (committed w) deptID = false ->
        createEmployee idStr body w
        = (respondError StatusNotFound "department not found",
           gorm.logged w Pool (SelectDepartment deptID)))
  /\ (forall deptID,
        strconv.Atoi idStr = Some deptID ->
        Sql.has_department (committed w) deptID = true ->
        body = None ->
        createEmployee idStr body w
        = (respondError StatusBadRequest "invalid request body",
           gorm.logged w Pool (SelectDepartment deptID))).
Proof.
  intros Hh. unfold createEmployee. split; [|split].
  - intros ->. reflexivity.
  - intros deptID -> Hhas. cbv [bind ret]. rewrite First_run, Hh. cbn [gorm.view].
    by rewrite (select_department_none _ _ Hhas).
  - intros deptID -> Hhas ->. cbv [bind ret]. rewrite First_run, Hh. cbn [gorm.view].
    apply select_department_has in Hhas as [row ->]. reflexivity.
Qed.

Lemma createEmployee_checks_witness :
  createEmployee "9" None (Examples.world Examples.chain)
  = (respondError StatusNotFound "department not found",
     gorm.logged (Examples.world Examples.chain) Pool (SelectDepartment 9))
  /\ createEmployee "2" None (Examples.world Examples.chain)
     = (respondError StatusBadRequest "invalid request body",
        gorm.logged (Examples.world Examples.chain) Pool (SelectDepartment 2)).
Proof.
  destruct (createEmployee_checks (Examples.world Examples.chain) "9" None)
    as (_ & Hmissing & _); [intros h q; reflexivity|].
  destruct (createEmployee_checks (Examples.world Examples.chain) "2" None)
    as (_ & _ & Hbody); [intros h q; reflexivity|].
  split; [apply (Hmissing 9); reflexivity|apply (Hbody 2); reflexivity].
Defined.

(** ** What is created can be read *)

Lemma find_app_fresh (rows : list DeptRow) (row : DeptRow) :
  existsb (fun r => row_id r =? row_id row) rows = false ->
  find (fun r => row_id r =? row_id row) (rows ++ [row]) = Some row.
Proof.
  induction rows as [|r rows IH]; cbn [existsb find app].
  - by rewrite Z.eqb_refl.
  - destruct (row_id r =? row_id row); [discriminate|]. exact IH.
Qed.

Lemma sequence_fresh (s : Store) :
  consistent s -> Sql.has_department s (departments_id_seq s + 1) = false.
Proof.
  intros (_ & _ & _ & _ & Hrows & _).
  destruct (Sql.has_department s (departments_id_seq s + 1)) eqn:E; [|reflexivity].
  apply has_department_In, in_map_iff in E as (r & Hid & Hin).
  destruct (Hrows r Hin) as [Hle _]. lia.
Qed.

Lemma Create_Department_fresh (d d1 : Department) (w w1 : World) :
  consistent (committed w) ->
  gorm.Create_Department Pool d w = (Ok d1, w1) ->
  dept_ID d1 = departments_id_seq (committed w) + 1
  /\ Sql.has_department (committed w) (dept_ID d1) = false
  /\ Sql.select_department (committed w1) (dept_ID d1) = Some (gorm.row_of d1)
  /\ employees (committed w1) = employees (committed w)
  /\ forall r, In r (departments (committed w)) -> In r (departments (committed w1)).
Proof.
  intros Hs. pose proof (sequence_fresh _ Hs) as Hfresh.
  unfold gorm.Create_Department. run_handler.
  destruct (if SkipHooks w then _ else _) as [d' [err|]];
    cbn [committed pending fails trace now SkipHooks fst snd]; [wrong_status|].
  destruct (fails w Pool InsertDepartment);
    cbn [committed pending fails trace now SkipHooks fst snd]; [wrong_status|].
  unfold Sql.insert_department. cbn [conn_rows].
  destruct (Sql.fk_ok (committed w) _); cbn; [|wrong_status].
  intros [= <- <-]. cbn [dept_ID committed departments employees gorm.row_of
                          dept_Name dept_ParentID dept_CreatedAt row_id row_name row_parent_id
                          row_created_at].
  split; [reflexivity|]. split; [exact Hfresh|]. split; [|split; [reflexivity|]].
  - unfold Sql.select_department. cbn [departments].
    apply (find_app_fresh (departments (committed w))
             (mkDeptRow (departments_id_seq (committed w) + 1) (dept_Name d')
                (dept_ParentID d') (now w))).
    exact Hfresh.
  - intros r Hin. apply in_or_app. by left.
Qed.

(** X19: what a creation answers can be read.  On a store that has its
    integrity, a POST answered 201 carries the next identifier of the
    sequence, which no department had, with the trimmed name and the
    parent of the request; the department read by that identifier has
    the name and the parent of the answer; and every row that was stored
    is still there. *)
Theorem createDepartment_read_back (w : World) (req : CreateDepartmentRequest) :
  SkipHooks w = false ->
  consistent (committed w) ->
  status (fst (createDepartment (Some req) w)) = StatusCreated ->
  exists d,
    body (fst (createDepartment (Some req) w)) = DepartmentBody d
    /\ dept_ID d = departments_id_seq (committed w) + 1
    /\ Sql.has_department (committed w) (dept_ID d) = false
    /\ dept_Name d = GoString.TrimSpace (cdr_Name req)
    /\ dept_ParentID d = cdr_ParentID req
    /\ option_map (fun r => (row_id r, row_name r, row_parent_id r))
         (Sql.select_department (committed (snd (createDepartment (Some req) w))) (dept_ID d))
       = Some (dept_ID d, dept_Name d, dept_ParentID d)
    /\ forall r, In r (departments (committed w)) ->
                 In r (departments (committed (snd (createDepartment (Some req) w)))).
Proof.
  intros Hk Hs. unfold createDepartment.
  set (d0 := mkDepartment 0 (cdr_Name req) (cdr_ParentID req) 0 [] []).
  assert (Hgen : forall w0 r w1,
            committed w0 = committed w -> SkipHooks w0 = false ->
            gorm.Create_Department Pool d0 w0 = (r, w1) ->
            status (match r with
                    | Err err => respondError StatusBadRequest (Error err)
                    | Ok dept => respondJSON StatusCreated (DepartmentBody dept)
                    end) = StatusCreated ->
            exists d, body (match r with
                            | Err err => respondError StatusBadRequest (Error err)
                            | Ok dept => respondJSON StatusCreated (DepartmentBody dept)
                            end) = DepartmentBody d
                      /\ dept_ID d = departments_id_seq (committed w) + 1
                      /\ Sql.has_department (committed w) (dept_ID d) = false
                      /\ dept_Name d = GoString.TrimSpace (cdr_Name req)
                      /\ dept_ParentID d = cdr_ParentID req
                      /\ option_map (fun r => (row_id r, row_name r, row_parent_id r))
                           (Sql.select_department (committed w1) (dept_ID d))
                         = Some (dept_ID d, dept_Name d, dept_ParentID d)
                      /\ forall r, In r (departments (committed w)) ->
                                   In r (departments (committed w1))).
  { intros w0 [d1|err] w1 Hw0 Hk0 Hrun; [|discriminate]. intros _.
    exists d1. split; [reflexivity|].
    destruct (Create_Department_fresh d0 d1 w0 w1) as (Hid & Hf & Hsel & _ & Hkeep);
      [by rewrite Hw0|exact Hrun|].
    destruct (Create_Department_saved d0 d1 w0 w1 Hk0 Hrun) as (Hname & Hparent & _).
    rewrite Hw0 in *. rewrite Hsel. done. }
  destruct (cdr_ParentID req) as [p|] eqn:Hp; cbv [bind ret]; [rewrite First_run|].
  - destruct (if fails w Pool (SelectDepartment p) then _ else _) as [?|err];
      cbn [isRecordNotFound].
    + destruct (gorm.Create_Department Pool d0 _) as [r w1] eqn:Hrun. cbn [fst snd].
      by apply (Hgen (gorm.logged w Pool (SelectDepartment p)) _ _ eq_refl Hk Hrun).
    + destruct (isRecordNotFound err); discriminate.
  - destruct (gorm.Create_Department Pool d0 w) as [r w1] eqn:Hrun. cbn [fst snd].
    by apply (Hgen _ _ _ eq_refl Hk Hrun).
Qed.

Lemma createDepartment_read_back_witness :
  exists d,
    body (fst (createDepartment (Some (mkCreateDepartmentRequest " Sales " (Some 1)))
                 (Examples.world Examples.chain))) = DepartmentBody d
    /\ dept_ID d = departments_id_seq (committed (Examples.world Examples.chain)) + 1
    /\ Sql.has_department (committed (Examples.world Examples.chain)) (dept_ID d) = false
    /\ dept_Name d = GoString.TrimSpace (cdr_Name (mkCreateDepartmentRequest " Sales " (Some 1)))
    /\ dept_ParentID d = cdr_ParentID (mkCreateDepartmentRequest " Sales " (Some 1))
    /\ option_map (fun r => (row_id r, row_name r, row_parent_id r))
         (Sql.select_department
            (committed (snd (createDepartment
                               (Some (mkCreateDepartmentRequest " Sales " (Some 1)))
                               (Examples.world Examples.chain)))) (dept_ID d))
       = Some (dept_ID d, dept_Name d, dept_ParentID d)
    /\ forall r, In r (departments (committed (Examples.world Examples.chain))) ->
                 In r (departments
                         (committed (snd (createDepartment
                                            (Some (mkCreateDepartmentRequest " Sales " (Some 1)))
                                            (Examples.world Examples.chain))))).
Proof.
  apply (createDepartment_read_back (Examples.world Examples.chain)
           (mkCreateDepartmentRequest " Sales " (Some 1))).
  - reflexivity.
  - apply consistent_chain.
  - vm_compute. reflexivity.
Defined.

(** X20: an employee is created in the department of the path.  A POST
    answered 201 has added one row after the employees that were stored:
    it has the next identifier of the sequence, the department of the
    path, which is stored, and the trimmed full name and position, as
    the answer has, the answer carrying the hire date of the request;
    the departments are untouched. *)
Theorem createEmployee_stored (w : World) (idStr : string) (req : CreateEmployeeRequest) :
  SkipHooks w = false ->
  status (fst (createEmployee idStr (Some req) w)) = StatusCreated ->
  exists e,
    body (fst (createEmployee idStr (Some req) w)) = EmployeeBody e
    /\ strconv.Atoi idStr = Some (emp_DepartmentID e)
    /\ Sql.has_department (committed w) (emp_DepartmentID e) = true
    /\ emp_ID e = employees_id_seq (committed w) + 1
    /\ emp_FullName e = GoString.TrimSpace (cer_FullName req)
    /\ emp_Position e = GoString.TrimSpace (cer_Position req)
    /\ emp_HiredAt e = cer_HiredAt req
    /\ map (fun x => (emp_ID x, emp_DepartmentID x, emp_FullName x, emp_Position x))
         (employees (committed (snd (createEmployee idStr (Some req) w))))
       = (map (fun x => (emp_ID x, emp_DepartmentID x, emp_FullName x, emp_Position x))
            (employees (committed w))
          ++ [(emp_ID e, emp_DepartmentID e, emp_FullName e, emp_Position e)])%list
    /\ departments (committed (snd (createEmployee idStr (Some req) w)))
       = departments (committed w).
Proof.
  intros Hk. unfold createEmployee.
  destruct (strconv.Atoi idStr) as [deptID|]; [|wrong_status].
  run_create. rewrite Hk.
  destruct (fails w Pool (SelectDepartment deptID)); cbn [fst snd isRecordNotFound];
    [wrong_status|].
  destruct (Sql.select_department (committed w) deptID) eqn:Hsel;
    cbn [fst snd isRecordNotFound]; [|wrong_status].
  set (e0 := mkEmployee 0 deptID (cer_FullName req) (cer_Position req) (cer_HiredAt req) 0).
  set (c := mkConn _ _).
  destruct (Employee_BeforeSave_record c e0) as [_ Hacc].
  destruct (Employee_BeforeSave c e0) as [e' [err|]]; cbn [fst snd] in *; [wrong_status|].
  destruct (Hacc eq_refl) as (-> & Hf & Hp).
  cbn [committed pending fails trace now SkipHooks fst snd].
  destruct (fails w Pool InsertEmployee); cbn [fst snd]; [wrong_status|].
  unfold Sql.insert_employee. subst c e0.
  cbn [conn_rows committed pending fails trace now SkipHooks emp_DepartmentID set_Position
       set_FullName].
  destruct (Sql.has_department (committed w) deptID) eqn:Hhas; cbn; [|wrong_status].
  intros _. eexists. split; [reflexivity|]. cbn. rewrite map_app. done.
Qed.

Lemma createEmployee_stored_witness :
  exists e,
    body (fst (createEmployee "4"
                 (Some (mkCreateEmployeeRequest " Ann Lee " "Engineer " (Some 7)))
                 (Examples.world Examples.chain))) = EmployeeBody e
    /\ strconv.Atoi "4" = Some (emp_DepartmentID e)
    /\ Sql.has_department (committed (Examples.world Examples.chain)) (emp_DepartmentID e)
       = true
    /\ emp_ID e = employees_id_seq (committed (Examples.world Examples.chain)) + 1
    /\ emp_FullName e
       = GoString.TrimSpace
           (cer_FullName (mkCreateEmployeeRequest " Ann Lee " "Engineer " (Some 7)))
    /\ emp_Position e
       = GoString.TrimSpace
           (cer_Position (mkCreateEmployeeRequest " Ann Lee " "Engineer " (Some 7)))
    /\ emp_HiredAt e = cer_HiredAt (mkCreateEmployeeRequest " Ann Lee " "Engineer " (Some 7))
    /\ map (fun x => (emp_ID x, emp_DepartmentID x, emp_FullName x, emp_Position x))
         (employees (committed (snd (createEmployee "4"
                                       (Some (mkCreateEmployeeRequest " Ann Lee " "Engineer "
                                                (Some 7)))
                                       (Examples.world Examples.chain)))))
       = (map (fun x => (emp_ID x, emp_DepartmentID x, emp_FullName x, emp_Position x))
            (employees (committed (Examples.world Examples.chain)))
          ++ [(emp_ID e, emp_DepartmentID e, emp_FullName e, emp_Position e)])%list
    /\ departments (committed (snd (createEmployee "4"
                                      (Some (mkCreateEmployeeRequest " Ann Lee " "Engineer "
                                               (Some 7)))
                                      (Examples.world Examples.chain))))
       = departments (committed (Examples.world Examples.chain)).
Proof.
  apply (createEmployee_stored (Examples.world Examples.chain) "4"
           (mkCreateEmployeeRequest " Ann Lee " "Engineer " (Some 7))).
  - reflexivity.
  - vm_compute. reflexivity.
Defined.

(** ** [strings.TrimSpace]: trimming what is trimmed *)

Section Scan.

Variable scan : list ascii -> list ascii.
Variable step : list ascii -> option (list ascii).
Hypothesis scan_step : forall l,
  scan l = match step l with Some rest => scan rest | None => l end.
Hypothesis step_suffix : forall l rest,
  step l = Some rest -> exists gone, gone <> [] /\ l = (gone ++ rest)%list.

(** The scan ends where no white space begins, on a suffix of the
    bytes. *)
Lemma scan_spec (n : nat) : forall l, (List.length l <= n)%nat ->
  step (scan l) = None /\ exists skipped, l = (skipped ++ scan l)%list.
Proof.
  induction n as [|n IH]; intros l Hn; rewrite (scan_step l).
  - destruct (step l) as [rest|] eqn:E; [|split; [exact E|by exists []]].
    apply step_suffix in E as (gone & Hgone & ->). destruct gone; [done|cbn in Hn; lia].
  - destruct (step l) as [rest|] eqn:E; [|split; [exact E|by exists []]].
    apply step_suffix in E as (gone & Hgone & ->).
    destruct (IH rest) as [Hstop [skipped Hrest]].
    { destruct gone; [done|]. cbn [List.length app] in Hn. rewrite length_app in Hn. lia. }
    split; [exact Hstop|]. exists (gone ++ skipped)%list.
    rewrite <- app_assoc. by rewrite <- Hrest.
Qed.

Lemma scan_stopped (l : list ascii) : step l = None -> scan l = l.
Proof. intros H. by rewrite scan_step, H. Qed.

End Scan.

Lemma trimLeft_step (l : list ascii) :
  GoString.trimLeft l
  = match leadingSpace l with Some rest => GoString.trimLeft rest | None => l end.
Proof.
  destruct l as [|c1 s1]; [reflexivity|]. cbn [GoString.trimLeft leadingSpace].
  destruct (GoString.asciiSpace c1); [reflexivity|].
  destruct s1 as [|c2 s2]; [reflexivity|].
  destruct (GoString.space2 _ _); [reflexivity|].
  destruct s2 as [|c3 s3]; [reflexivity|].
  destruct (GoString.space3 _ _ _); reflexivity.
Qed.

Lemma trimRightRev_step (l : list ascii) :
  GoString.trimRightRev l
  = match trailingSpace l with Some rest => GoString.trimRightRev rest | None => l end.
Proof.
  destruct l as [|c1 s1]; [reflexivity|]. cbn [GoString.trimRightRev trailingSpace].
  destruct (GoString.asciiSpace c1); [reflexivity|].
  destruct s1 as [|c2 s2]; [reflexivity|].
  destruct (GoString.space2 _ _); [reflexivity|].
  destruct s2 as [|c3 s3]; [reflexivity|].
  destruct (GoString.space3 _ _ _); reflexivity.
Qed.

Lemma leadingSpace_suffix (l rest : list ascii) :
  leadingSpace l = Some rest -> exists gone, gone <> [] /\ l = (gone ++ rest)%list.
Proof.
  destruct l as [|c1 [|c2 [|c3 s3]]]; cbn [leadingSpace]; try discriminate;
    repeat match goal with |- context [if ?b then _ else _] => destruct b end;
    intros [= <-];
    first [by exists [c1] | by exists [c1; c2] | by exists [c1; c2; c3]].
Qed.

Lemma trailingSpace_suffix (l rest : list ascii) :
  trailingSpace l = Some rest -> exists gone, gone <> [] /\ l = (gone ++ rest)%list.
Proof.
  destruct l as [|c1 [|c2 [|c3 s3]]]; cbn [trailingSpace]; try discriminate;
    repeat match goal with |- context [if ?b then _ else _] => destruct b end;
    intros [= <-];
    first [by exists [c1] | by exists [c1; c2] | by exists [c1; c2; c3]].
Qed.

(** No white space begins a prefix of bytes that no white space
    begins. *)
Lemma leadingSpace_prefix (l rest : list ascii) :
  leadingSpace (l ++ rest) = None -> leadingSpace l = None.
Proof.
  destruct l as [|c1 [|c2 [|c3 s3]]]; cbn [leadingSpace app]; [done| | |].
  - destruct (GoString.asciiSpace c1); done.
  - destruct (GoString.asciiSpace c1); [done|].
    destruct (GoString.space2 _ _); done.
  - destruct (GoString.asciiSpace c1); [done|].
    destruct (GoString.space2 _ _); [done|].
    destruct (GoString.space3 _ _ _); done.
Qed.

Lemma TrimSpace_bytes (s : string) :
  exists l, GoString.TrimSpace s = string_of_list_ascii l
            /\ leadingSpace l = None /\ trailingSpace (rev l) = None.
Proof.
  unfold GoString.TrimSpace.
  set (L := GoString.trimLeft (list_ascii_of_string s)).
  set (T := GoString.trimRightRev (rev L)).
  exists (rev T). split; [reflexivity|].
  destruct (scan_spec GoString.trimLeft leadingSpace trimLeft_step leadingSpace_suffix
              _ (list_ascii_of_string s) (le_n _)) as [HL _]. fold L in HL.
  destruct (scan_spec GoString.trimRightRev trailingSpace trimRightRev_step
              trailingSpace_suffix _ (rev L) (le_n _)) as [HT [skipped Hskipped]].
  fold T in HT, Hskipped.
  split; [|by rewrite rev_involutive].
  apply (leadingSpace_prefix (rev T) (rev skipped)).
  rewrite <- rev_app_distr, <- Hskipped. by rewrite rev_involutive.
Qed.

(** A string that [TrimSpace] has returned is left as it is by
    [TrimSpace]. *)
Lemma TrimSpace_idempotent (s : string) :
  GoString.TrimSpace (GoString.TrimSpace s) = GoString.TrimSpace s.
Proof.
  destruct (TrimSpace_bytes s) as (l & -> & Hl & Hr).
  unfold GoString.TrimSpace. rewrite list_ascii_of_string_of_list_ascii.
  rewrite (scan_stopped GoString.trimLeft leadingSpace trimLeft_step l Hl).
  rewrite (scan_stopped GoString.trimRightRev trailingSpace trimRightRev_step (rev l) Hr).
  by rewrite rev_involutive.
Qed.

(** ** The names that are stored *)

Lemma Create_Employee_written (e : Employee) (w : World) :
  committed (snd (gorm.Create_Employee Pool e w)) = committed w
  \/ exists e',
       (if SkipHooks w then (e, None)
        else Employee_BeforeSave (mkConn (committed w) (fails w Pool)) e) = (e', None)
       /\ committed (snd (gorm.Create_Employee Pool e w))
          = fst (Sql.insert_employee (committed w) e' (now w)).
Proof.
  unfold gorm.Create_Employee. run_handler.
  destruct (if SkipHooks w then _ else _) as [e' [err|]];
    cbn [committed pending fails trace now SkipHooks fst snd]; [by left|].
  destruct (fails w Pool InsertEmployee);
    cbn [committed pending fails trace now SkipHooks fst snd]; [by left|].
  right. exists e'. split; [reflexivity|]. cbn [conn_rows].
  by destruct (Sql.insert_employee _ _ _) as [s r].
Qed.

Lemma createEmployee_written (w : World) (idStr : string)
    (body : option CreateEmployeeRequest) :
  committed (snd (createEmployee idStr body w)) = committed w
  \/ exists deptID req e',
       strconv.Atoi idStr = Some deptID /\ body = Some req
       /\ (if SkipHooks w
           then (mkEmployee 0 deptID (cer_FullName req) (cer_Position req) (cer_HiredAt req) 0,
                 None)
           else Employee_BeforeSave (mkConn (committed w) (fails w Pool))
                  (mkEmployee 0 deptID (cer_FullName req) (cer_Position req)
                     (cer_HiredAt req) 0)) = (e', None)
       /\ committed (snd (createEmployee idStr body w))
          = fst (Sql.insert_employee (committed w) e' (now w)).
Proof.
  unfold createEmployee.
  destruct (strconv.Atoi idStr) as [deptID|]; [|by left].
  cbv [bind ret]. rewrite First_run.
  destruct (if fails w Pool (SelectDepartment deptID) then _ else _) as [?|err];
    cbn [isRecordNotFound fst snd]; [|by left].
  destruct body as [req|]; [|by left].
  match goal with
  | |- context [gorm.Create_Employee Pool ?e ?w0] =>
      destruct (Create_Employee_written e w0) as [Hs|(e' & Hhook & Hins)];
      destruct (gorm.Create_Employee Pool e w0) as [r w1]
  end; cbn [fst snd] in *; [by left|].
  right. exists deptID, req, e'. done.
Qed.

Lemma Department_BeforeSave_name (tx : Conn) (d d' : Department) :
  Department_BeforeSave tx d = (d', None) ->
  d' = set_Name d (GoString.TrimSpace (dept_Name d)) /\ valid_name (dept_Name d').
Proof.
  intros Hhook.
  pose proof (Department_BeforeSave_record tx d) as Hrec.
  pose proof (Department_BeforeSave_accepts tx d) as Hacc.
  rewrite Hhook in Hrec, Hacc. cbn [fst snd] in *. subst d'.
  destruct (Hacc eq_refl) as (Hlen & _). split; [reflexivity|]. cbn [set_Name dept_Name].
  split; [apply TrimSpace_idempotent|exact Hlen].
Qed.

(** X21: what is stored has passed the hooks.  With the handle that
    runs the hooks and whatever the store makes fail, every request
    keeps the names of the departments and the full names and positions
    of the employees trimmed, not empty and of 200 bytes at most.  (No
    department has the identifier 0, that the sequence never gives.) *)
Theorem stored_names_stay_valid (w : World) :
  SkipHooks w = false -> pending w = None ->
  Sql.has_department (committed w) 0 = false ->
  names_valid (committed w) ->
  (forall body, names_valid (committed (snd (createDepartment body w))))
  /\ (forall idStr body, names_valid (committed (snd (createEmployee idStr body w))))
  /\ (forall idStr body, names_valid (committed (snd (updateDepartment idStr body w))))
  /\ (forall idStr q, names_valid (committed (snd (deleteDepartment idStr q w)))).
Proof.
  intros Hk Hp _ [Hrows Hemps]. split; [|split; [|split]].
  - intros body.
    destruct (createDepartment_written w body) as [->|(req & d' & _ & Hhook & ->)]; [done|].
    rewrite Hk in Hhook. apply Department_BeforeSave_name in Hhook as [_ Hname].
    unfold Sql.insert_department. destruct (Sql.fk_ok _ _); cbn [fst]; [|done].
    split; cbn [departments employees]; [|exact Hemps].
    intros r Hin. apply in_app_iff in Hin as [Hin|[<-|[]]]; [by apply Hrows|exact Hname].
  - intros idStr body.
    destruct (createEmployee_written w idStr body)
      as [->|(deptID & req & e' & _ & _ & Hhook & ->)]; [done|].
    rewrite Hk in Hhook.
    destruct (Employee_BeforeSave_record (mkConn (committed w) (fails w Pool))
                (mkEmployee 0 deptID (cer_FullName req) (cer_Position req) (cer_HiredAt req) 0))
      as [_ Hacc].
    rewrite Hhook in Hacc. cbn [fst snd] in Hacc. destruct (Hacc eq_refl) as (-> & Hf & Hpos).
    unfold Sql.insert_employee. destruct (Sql.has_department _ _); cbn [fst]; [|done].
    split; cbn [departments employees]; [exact Hrows|].
    intros e Hin. apply in_app_iff in Hin as [Hin|[<-|[]]]; [by apply Hemps|].
    cbn [emp_FullName emp_Position set_Position set_FullName] in *.
    split; (split; [apply TrimSpace_idempotent|done]).
  - intros idStr body.
    destruct (updateDepartment_saved w idStr body)
      as [->|(deptID & req & old & d' & _ & _ & _ & _ & Hhook & Hupd)]; [done|].
    rewrite Hk in Hhook. apply Department_BeforeSave_name in Hhook as [_ Hname].
    unfold Sql.update_department in Hupd.
    destruct (Sql.fk_ok (committed w) _); [|discriminate]. injection Hupd as <-.
    split; cbn [departments employees]; [|exact Hemps].
    intros r' Hin. apply in_map_iff in Hin as (r & <- & Hin).
    destruct (row_id r =? _); [exact Hname|by apply Hrows].
  - intros idStr q.
    destruct (deleteDepartment_deployed w idStr q Hk Hp) as [->|[deptID ->]]; [done|].
    unfold Sql.delete_department. destruct (Sql.has_department _ _); [|done].
    split; cbn [departments employees].
    + intros r Hin. apply filter_In in Hin as [Hin _]. by apply Hrows.
    + intros e Hin. apply filter_In in Hin as [Hin _]. by apply Hemps.
Qed.

Lemma names_valid_chain : names_valid Examples.chain.
Proof.
  split.
  - intros r Hin. cbn [Examples.chain departments] in Hin.
    repeat (destruct Hin as [<-|Hin];
            [split; [reflexivity|vm_compute; split; discriminate]|]).
    destruct Hin.
  - intros e Hin. cbn [Examples.chain employees] in Hin.
    repeat (destruct Hin as [<-|Hin];
            [split; (split; [reflexivity|vm_compute; split; discriminate])|]).
    destruct Hin.
Qed.

Lemma stored_names_stay_valid_witness :
  departments (committed (snd (updateDepartment "3"
                                 (Some (mkUpdateDepartmentRequest (Some "  Core  ") None))
                                 (Examples.world Examples.chain))))
  = [mkDeptRow 1 "Org" None 10; mkDeptRow 2 "Eng" (Some 1) 20;
     mkDeptRow 3 "Core" (Some 2) 30; mkDeptRow 4 "Storage" (Some 3) 40]
  /\ names_valid (committed (snd (updateDepartment "3"
                                    (Some (mkUpdateDepartmentRequest (Some "  Core  ") None))
                                    (Examples.world Examples.chain))))
  /\ names_valid (committed (snd (createEmployee "2"
                                    (Some (mkCreateEmployeeRequest " Ann Lee " " Engineer" None))
                                    (Examples.world Examples.chain)))).
Proof.
  split; [vm_compute; reflexivity|].
  destruct (stored_names_stay_valid (Examples.world Examples.chain) eq_refl eq_refl eq_refl
              names_valid_chain) as (_ & He & Hu & _).
  split; [apply Hu|apply He].
Defined.

(** ** A PATCH that changes nothing *)

Lemma count_siblings_own (s : Store) (old : DeptRow) :
  consistent s -> unique_sibling_names s -> In old (departments s) ->
  Sql.count_siblings s (row_name old) (row_parent_id old) (Some (row_id old)) = 0.
Proof.
  intros (_ & _ & Hnd & _) Hu Hin.
  destruct (row_parent_id old) as [p|] eqn:Hp; [|apply count_siblings_null].
  pose proof (count_siblings_update (departments s) old old (employees s)
                (departments_id_seq s) (employees_id_seq s) (row_name old) (Some p)
                Hnd Hin eq_refl) as Hcount.
  rewrite (map_fixed _ (departments s)) in Hcount.
  2: { intros r Hr. destruct (Z.eqb_spec (row_id r) (row_id old)); [|reflexivity].
       symmetry. by apply (NoDup_ids_same (departments s)). }
  rewrite String.eqb_refl, Hp in Hcount. cbn [Sql.eq_nullable andb] in Hcount.
  rewrite Z.eqb_refl in Hcount.
  specialize (Hu (row_name old) p).
  assert (Hsame : forall self,
            Sql.count_siblings (mkStore (departments s) (employees s) (departments_id_seq s)
                                  (employees_id_seq s)) (row_name old) (Some p) self
            = Sql.count_siblings s (row_name old) (Some p) self) by reflexivity.
  rewrite !Hsame in Hcount.
  assert (0 <= Sql.count_siblings s (row_name old) (Some p) (Some (row_id old)))
    by (unfold Sql.count_siblings; lia).
  lia.
Qed.

(** X22: the hook leaves a department out of the count of its own name,
    so that a department can be saved as it is.  On a store that has its
    integrity, where the names under a parent are distinct and valid, a
    PATCH that gives neither a name nor a parent is answered 200 with the
    stored record, and changes no row. *)
Theorem updateDepartment_unchanged (w : World) (idStr : string) (old : DeptRow) :
  healthy w -> SkipHooks w = false ->
  consistent (committed w) -> unique_sibling_names (committed w) ->
  names_valid (committed w) ->
  strconv.Atoi idStr = Some (row_id old) ->
  In old (departments (committed w)) ->
  fst (updateDepartment idStr (Some (mkUpdateDepartmentRequest None None)) w)
  = respondJSON StatusOK (DepartmentBody (gorm.scan old))
  /\ committed (snd (updateDepartment idStr (Some (mkUpdateDepartmentRequest None None)) w))
     = committed w.
Proof.
  intros Hh Hk Hs Hu [Hnames _] Hid Hin.
  pose proof Hs as (_ & _ & Hnd & _ & Hrows & _).
  destruct (Hrows old Hin) as [Hpos Hfk].
  destruct (Hnames old Hin) as [Htrim Hlen].
  assert (Hold : Sql.select_department (committed w) (row_id old) = Some old).
  { destruct (Sql.select_department (committed w) (row_id old)) as [r|] eqn:E.
    - f_equal. apply (NoDup_ids_same (departments (committed w))); try done.
      + by apply (select_department_In _ (row_id old)).
      + by apply (select_department_id _ _ _ E).
    - assert (Hhas : Sql.has_department (committed w) (row_id old) = true).
      { apply has_department_In, in_map_iff. eauto. }
      apply select_department_has in Hhas as [r Hr]. congruence. }
  assert (Hhook : Department_BeforeSave (mkConn (committed w) (fails w Pool)) (gorm.scan old)
                  = (gorm.scan old, None)).
  { rewrite Department_BeforeSave_valid.
    - cbn [gorm.scan dept_Name set_Name]. rewrite Htrim. by destruct old.
    - intros q. apply Hh.
    - cbn [gorm.scan dept_Name]. by rewrite Htrim.
    - cbn [gorm.scan dept_Name dept_ParentID dept_ID conn_rows]. rewrite Htrim.
      destruct (Z.eqb_spec (row_id old) 0); [lia|]. by apply count_siblings_own. }
  unfold updateDepartment. rewrite Hid. cbv [bind ret]. cbn [udr_ParentID udr_Name].
  rewrite First_run. run_healthy Hh. cbn [gorm.view]. rewrite Hold.
  cbn [fst snd]. unfold gorm.Save_Department. run_handler. run_deployed Hh Hk.
  rewrite Hhook. run_deployed Hh Hk.
  unfold Sql.update_department. cbn [conn_rows gorm.row_of gorm.scan dept_ID dept_Name
                                      dept_ParentID dept_CreatedAt row_parent_id row_id].
  rewrite Hfk. cbn [fst snd committed]. split; [reflexivity|].
  rewrite (map_fixed _ (departments (committed w))).
  - by destruct (committed w).
  - intros r Hr. destruct (Z.eqb_spec (row_id r) (row_id old)) as [E|]; [|reflexivity].
    rewrite <- (NoDup_ids_same (departments (committed w)) r old) by done. by destruct r.
Qed.

Lemma updateDepartment_unchanged_witness :
  fst (updateDepartment "3" (Some (mkUpdateDepartmentRequest None None))
         (Examples.world Examples.chain))
  = respondJSON StatusOK (DepartmentBody (gorm.scan (mkDeptRow 3 "Backend" (Some 2) 30)))
  /\ committed (snd (updateDepartment "3" (Some (mkUpdateDepartmentRequest None None))
                       (Examples.world Examples.chain)))
     = Examples.chain.
Proof.
  apply (updateDepartment_unchanged (Examples.world Examples.chain) "3"
           (mkDeptRow 3 "Backend" (Some 2) 30)).
  - intros h q. reflexivity.
  - reflexivity.
  - apply consistent_chain.
  - apply unique_sibling_names_chain.
  - apply names_valid_chain.
  - reflexivity.
  - right. right. left. reflexivity.
Defined.

(** ** [updateDepartment]: a move *)

(** X23: a department is moved, and renamed when a name is given.  For a
    stored department and a new parent that is stored and is neither
    the department nor one of its descendants, with a name (the new one,
    or the stored one when none is given) that is valid once trimmed and
    is not that of another department under the new parent, the PATCH is
    answered 200 with the record as saved, and the row of the
    department, and no other row, has the new parent and the trimmed
    name; its identifier and its creation time are kept. *)
Theorem updateDepartment_moved (w : World) (idStr : string) (old : DeptRow)
    (name : option string) (p : Z) :
  healthy w -> SkipHooks w = false ->
  strconv.Atoi idStr = Some (row_id old) ->
  Sql.select_department (committed w) (row_id old) = Some old ->
  row_id old <> 0 ->
  Sql.has_department (committed w) p = true ->
  p <> row_id old -> ~ descendant (committed w) (row_id old) p ->
  let saved :=
    GoString.TrimSpace (match name with Some n => n | None => row_name old end) in
  1 <= GoString.len saved <= 200 ->
  Sql.count_siblings (committed w) saved (Some p) (Some (row_id old)) = 0 ->
  fst (updateDepartment idStr (Some (mkUpdateDepartmentRequest name (Some p))) w)
  = respondJSON StatusOK
      (DepartmentBody (mkDepartment (row_id old) saved (Some p) (row_created_at old) [] []))
  /\ departments (committed (snd (updateDepartment idStr
                                    (Some (mkUpdateDepartmentRequest name (Some p))) w)))
     = map (fun r => if row_id r =? row_id old
                     then mkDeptRow (row_id old) saved (Some p) (row_created_at old)
                     else r)
           (departments (committed w))
  /\ employees (committed (snd (updateDepartment idStr
                                  (Some (mkUpdateDepartmentRequest name (Some p))) w)))
     = employees (committed w).
Proof.
  intros Hh Hk Hid Hold Hnz Hp Hne Hnd saved Hlen Hcount.
  assert (Hcheck : CheckCycle (mkConn (committed w) (fails w Pool)) (gorm.scan old) (Some p)
                   = None).
  { apply CheckCycle_other; [intros q; apply Hh|exact Hne|exact Hnd]. }
  set (d := mkDepartment (row_id old)
              (match name with Some n => n | None => row_name old end) (Some p)
              (row_created_at old) [] []).
  assert (Hhook : Department_BeforeSave (mkConn (committed w) (fails w Pool)) d
                  = (mkDepartment (row_id old) saved (Some p) (row_created_at old) [] [],
                     None)).
  { rewrite Department_BeforeSave_valid; [done|intros q; apply Hh|exact Hlen|].
    cbn [d dept_Name dept_ParentID dept_ID conn_rows].
    destruct (Z.eqb_spec (row_id old) 0); [done|exact Hcount]. }
  assert (Hsave : forall w0, committed w0 = committed w -> fails w0 = fails w ->
            SkipHooks w0 = SkipHooks w ->
            fst (gorm.Save_Department Pool d w0)
            = Ok (mkDepartment (row_id old) saved (Some p) (row_created_at old) [] [])
            /\ committed (snd (gorm.Save_Department Pool d w0))
               = mkStore
                   (map (fun r => if row_id r =? row_id old
                                  then mkDeptRow (row_id old) saved (Some p)
                                         (row_created_at old)
                                  else r) (departments (committed w)))
                   (employees (committed w)) (departments_id_seq (committed w))
                   (employees_id_seq (committed w))).
  { intros w0 Hc Hf Hs. unfold gorm.Save_Department. run_handler.
    rewrite Hs, Hk, Hc, Hf, Hhook. cbn [committed pending fails trace now SkipHooks fst snd].
    rewrite ?Hf, Hh. unfold Sql.update_department.
    cbn [conn_rows gorm.row_of dept_ID dept_Name dept_ParentID dept_CreatedAt row_parent_id
         row_id Sql.fk_ok].
    rewrite Hp. done. }
  unfold updateDepartment. rewrite Hid. cbv [bind ret gorm.pool].
  cbn [udr_ParentID udr_Name]. rewrite First_run. run_healthy Hh.
  cbn [gorm.view]. rewrite Hold. cbn [fst snd].
  assert (Hd : (match name with
                | Some n =>
                    set_Name (mkDepartment (dept_ID (gorm.scan old)) (dept_Name (gorm.scan old))
                                (Some p) (dept_CreatedAt (gorm.scan old))
                                (dept_Children (gorm.scan old))
                                (dept_Employees (gorm.scan old))) n
                | None =>
                    mkDepartment (dept_ID (gorm.scan old)) (dept_Name (gorm.scan old))
                      (Some p) (dept_CreatedAt (gorm.scan old))
                      (dept_Children (gorm.scan old)) (dept_Employees (gorm.scan old))
                end) = d) by (by destruct name).
  destruct (Z.eqb_spec p 0) as [->|_]; cbn [negb].
  - cbn [gorm.logged committed fails fst snd]. rewrite Hcheck, Hd.
    match goal with
    | |- context [gorm.Save_Department Pool d ?w0] =>
        destruct (Hsave w0 eq_refl eq_refl eq_refl) as [Hr Hc];
        destruct (gorm.Save_Department Pool d w0) as [r w1]
    end.
    cbn [fst snd] in *. subst r. rewrite Hc. done.
  - apply select_department_has in Hp as [prow Hprow].
    rewrite First_run. cbn [gorm.view gorm.logged committed fails]. rewrite Hh, Hprow.
    cbn [gorm.logged fst snd committed fails]. rewrite Hcheck, Hd.
    match goal with
    | |- context [gorm.Save_Department Pool d ?w0] =>
        destruct (Hsave w0 eq_refl eq_refl eq_refl) as [Hr Hc];
        destruct (gorm.Save_Department Pool d w0) as [r w1]
    end.
    cbn [fst snd] in *. subst r. rewrite Hc. done.
Qed.

Lemma updateDepartment_moved_witness :
  fst (updateDepartment "4" (Some (mkUpdateDepartmentRequest (Some " Disks ") (Some 1)))
         (Examples.world Examples.chain))
  = respondJSON StatusOK (DepartmentBody (mkDepartment 4 "Disks" (Some 1) 40 [] []))
  /\ departments (committed (snd (updateDepartment "4"
                                    (Some (mkUpdateDepartmentRequest (Some " Disks ") (Some 1)))
                                    (Examples.world Examples.chain))))
     = [mkDeptRow 1 "Org" None 10; mkDeptRow 2 "Eng" (Some 1) 20;
        mkDeptRow 3 "Backend" (Some 2) 30; mkDeptRow 4 "Disks" (Some 1) 40]
  /\ employees (committed (snd (updateDepartment "4"
                                  (Some (mkUpdateDepartmentRequest (Some " Disks ") (Some 1)))
                                  (Examples.world Examples.chain))))
     = employees Examples.chain.
Proof.
  apply (updateDepartment_moved (Examples.world Examples.chain) "4"
           (mkDeptRow 4 "Storage" (Some 3) 40) (Some " Disks ") 1).
  - intros h q. reflexivity.
  - reflexivity.
  - reflexivity.
  - reflexivity.
  - discriminate.
  - reflexivity.
  - discriminate.
  - cbn [row_id]. intros Hd. apply no_children_no_descendant in Hd; [exact Hd|reflexivity].
  - vm_compute. split; discriminate.
  - reflexivity.
Defined.

(** X24: the refusals of a PATCH, in their order.  A path identifier
    that is not an integer, then a body that does not decode, are
    answered 400 with no statement issued; a department that is not
    stored is answered 404 after the one read that finds it missing; and
    for a stored department a new parent, other than 0, that is not
    stored is answered 404 after a second read, before the cycle check
    and with nothing written. *)
Theorem updateDepartment_refusals (w : World) (idStr : string)
    (body : option UpdateDepartmentRequest) :
  healthy w ->
  (strconv.Atoi idStr = None ->
   updateDepartment idStr body w = (respondError StatusBadRequest "invalid department id", w))
  /\ (is_Some (strconv.Atoi idStr) -> body = None ->
      updateDepartment idStr body w
      = (respondError StatusBadRequest "invalid request body", w))
  /\ (forall deptID req,
        strconv.Atoi idStr = Some deptID -> body = Some req ->
        Sql.has_department (committed w) deptID = false ->
        updateDepartment idStr body w
        = (respondError StatusNotFound "department not found",
           gorm.logged w Pool (SelectDepartment deptID)))
  /\ (forall deptID req p,
        strconv.Atoi idStr = Some deptID -> body = Some req ->
        Sql.has_department (committed w) deptID = true ->
        udr_ParentID req = Some p -> p <> 0 ->
        Sql.has_department (committed w) p = false ->
        updateDepartment idStr body w
        = (respondError StatusNotFound "parent department not found",
           gorm.logged (gorm.logged w Pool (SelectDepartment deptID)) Pool
             (SelectDepartment p))).
Proof.
  intros Hh. unfold updateDepartment. split; [|split; [|split]].
  - intros ->. reflexivity.
  - intros [deptID ->] ->. reflexivity.
  - intros deptID req -> -> Hhas. cbv [bind ret]. rewrite First_run, Hh. cbn [gorm.view].
    by rewrite (select_department_none _ _ Hhas).
  - intros deptID req p -> -> Hhas Hparent Hnz Hp. cbv [bind ret]. rewrite First_run, Hh.
    cbn [gorm.view]. apply select_department_has in Hhas as [old ->]. cbn [fst snd].
    rewrite Hparent. destruct (Z.eqb_spec p 0); [done|]. cbn [negb].
    rewrite First_run. cbn [gorm.view gorm.logged committed fails]. rewrite Hh.
    by rewrite (select_department_none _ _ Hp).
Qed.

Lemma updateDepartment_refusals_witness :
  updateDepartment "2" None (Examples.world Examples.chain)
  = (respondError StatusBadRequest "invalid request body", Examples.world Examples.chain)
  /\ updateDepartment "2" (Some (mkUpdateDepartmentRequest None (Some 9)))
       (Examples.world Examples.chain)
     = (respondError StatusNotFound "parent department not found",
        gorm.logged (gorm.logged (Examples.world Examples.chain) Pool (SelectDepartment 2))
          Pool (SelectDepartment 9)).
Proof.
  destruct (updateDepartment_refusals (Examples.world Examples.chain) "2" None)
    as (_ & Hbody & _); [intros h q; reflexivity|].
  destruct (updateDepartment_refusals (Examples.world Examples.chain) "2"
              (Some (mkUpdateDepartmentRequest None (Some 9))))
    as (_ & _ & _ & Hparent); [intros h q; reflexivity|].
  split.
  - apply Hbody; [eexists|]; reflexivity.
  - apply (Hparent 2 (mkUpdateDepartmentRequest None (Some 9)) 9); try reflexivity.
    discriminate.
Defined.

(** ** [getDepartment]: what it reads *)

Lemma query_run {A} (h : Handle) (q : Stmt) (f : Store -> Result A) (w : World) :
  gorm.query h q f w
  = (match fails w h q, gorm.view w h with
     | false, Some s => f s
     | _, _ => Err ErrStore
     end, gorm.logged w h q).
Proof. unfold gorm.query. run_handler. by destruct h. Qed.

Lemma getDepartment_params_depth (q : Values) (p : GetParams) :
  getDepartment_params q = inr p -> 1 <= depth p <= 5.
Proof.
  unfold getDepartment_params. cbv zeta.
  destruct (negb (String.eqb (Get q "depth") "")).
  - destruct (strconv.Atoi (Get q "depth")) as [val|]; [|discriminate].
    destruct (Z.geb_spec val 1), (Z.leb_spec val 5); cbn [andb]; try discriminate.
    destruct (if negb _ then _ else _); [|discriminate].
    destruct (String.eqb _ ""); [intros [= <-]; cbn; lia|].
    destruct (negb _ && negb _); [discriminate|intros [= <-]; cbn; lia].
  - destruct (if negb _ then _ else _); [|discriminate].
    destruct (String.eqb _ ""); [intros [= <-]; cbn; lia|].
    destruct (negb _ && negb _); [discriminate|intros [= <-]; cbn; lia].
Qed.

Lemma only_read_refl (w : World) (bound : nat) : only_read w w bound.
Proof.
  exists []. split; [destruct w; cbn; by rewrite app_nil_r|]. split; [constructor|cbn; lia].
Qed.

Lemma only_read_logged (w w' : World) (q : Stmt) (bound : nat) :
  reads q = true ->
  only_read (gorm.logged w Pool q) w' bound -> only_read w w' (S bound).
Proof.
  intros Hq (t & -> & Hall & Hlen). exists ((Pool, q) :: t).
  cbn [gorm.logged committed pending fails trace now SkipHooks].
  split; [by rewrite <- app_assoc|]. split; [by constructor|cbn; lia].
Qed.

Lemma only_read_le (w w' : World) (n m : nat) :
  (n <= m)%nat -> only_read w w' n -> only_read w w' m.
Proof. intros Hle (t & Hw & Hall & Hlen). exists t. split; [done|]. split; [done|lia]. Qed.

Section GetDepartmentReads.

Variable rangeKeys : gmap Z deptNode -> list Z.
Variable orderBy : string -> list Employee -> list Employee.

Lemma loadLevels_only_read (n : nat) : forall (level : Z) (ids : list Z)
    (m : gmap Z deptNode) (w : World),
  only_read w (snd (loadLevels n level ids m w)) n.
Proof.
  induction n as [|n IH]; intros level ids m w; cbn [loadLevels].
  - apply only_read_refl.
  - destruct ids as [|i ids]; [apply only_read_refl|].
    cbv [bind ret gorm.Find_children]. rewrite query_run.
    destruct (match fails w Pool _ with true => _ | false => _ end) as [children|err];
      cbn [snd].
    + by apply (only_read_logged w _ (SelectChildrenIn (i :: ids))).
    + apply (only_read_logged w _ (SelectChildrenIn (i :: ids))); [done|].
      apply only_read_refl.
Qed.

Lemma buildTree_only_read (p : GetParams) (rootDept : Department) (w : World) :
  only_read w (snd (buildTree rangeKeys orderBy p rootDept w)) (S (Z.to_nat (depth p))).
Proof.
  unfold buildTree. cbv [bind ret].
  pose proof (loadLevels_only_read (Z.to_nat (depth p)) 1 [dept_ID rootDept]
                {[dept_ID rootDept := mkDeptNode rootDept 0]} w) as Hload.
  destruct (loadLevels _ _ _ _ w) as [[deptMap|err] w1]; cbn [snd] in *.
  2: { by apply (only_read_le w w1 (Z.to_nat (depth p))); [lia|]. }
  destruct (includeEmployees p).
  2: { by apply (only_read_le w w1 (Z.to_nat (depth p))); [lia|]. }
  unfold Find_employees. rewrite query_run.
  destruct Hload as (t & -> & Hall & Hlen).
  match goal with
  | |- context [gorm.logged _ Pool ?q] => exists (t ++ [(Pool, q)])%list
  end.
  split.
  - match goal with
    | |- context [match ?x with Ok _ => _ | Err _ => _ end] => destruct x
    end; unfold gorm.logged; cbn [snd committed pending fails trace now SkipHooks];
      by rewrite <- app_assoc.
  - split; [apply Forall_app; split; [exact Hall|by repeat constructor]|].
    rewrite length_app. cbn [List.length]. lia.
Qed.

(** X25: a GET only reads.  Whatever the request and whatever the store
    makes fail, the handler leaves the committed rows and the open
    transaction as they are, and issues at most seven statements, all
    of them reads on the pool: the read of the department, one query
    for the children per level, five at most, and one for the
    employees. *)
Theorem getDepartment_only_reads (idStr : string) (q : Values) (w : World) :
  exists t,
    snd (getDepartment rangeKeys orderBy idStr q w)
    = mkWorld (committed w) (pending w) (fails w) (trace w ++ t) (now w) (SkipHooks w)
    /\ Forall (fun hq => fst hq = Pool /\ reads (snd hq) = true) t
    /\ (List.length t <= 7)%nat.
Proof.
  change (only_read w (snd (getDepartment rangeKeys orderBy idStr q w)) 7).
  unfold getDepartment.
  destruct (strconv.Atoi idStr) as [deptID|]; [|apply only_read_refl].
  destruct (getDepartment_params q) as [r|p] eqn:Hp; [apply only_read_refl|].
  apply getDepartment_params_depth in Hp.
  cbv [bind ret]. rewrite First_run.
  destruct (if fails w Pool (SelectDepartment deptID) then _ else _) as [rootDept|err];
    cbn [snd].
  - apply (only_read_logged w _ (SelectDepartment deptID)); [done|].
    pose proof (buildTree_only_read p rootDept (gorm.logged w Pool (SelectDepartment deptID)))
      as Htree.
    destruct (buildTree _ _ _ _ _) as [[deptMap|err] w1]; cbn [snd] in *;
      (eapply only_read_le; [|exact Htree]); lia.
  - apply (only_read_logged w _ (SelectDepartment deptID)); [done|apply only_read_refl].
Qed.

End GetDepartmentReads.

(** ** [toResponse] *)

Lemma fold_max_le {A B} (g : A -> B) (f : B -> nat) (l : list A) (bound : nat) :
  Forall (fun x => (f (g x) <= bound)%nat) l ->
  (fold_right (fun x n => Nat.max (f x) n) O (map g l) <= bound)%nat.
Proof. induction 1 as [|x l Hx _ IH]; cbn [fold_right map]; lia. Qed.

Lemma fold_sum_zero {A B} (g : A -> B) (f : B -> nat) (l : list A) :
  Forall (fun x => f (g x) = O) l ->
  fold_right (fun x n => (f x + n)%nat) O (map g l) = O.
Proof. induction 1 as [|x l Hx _ IH]; cbn [fold_right map]; lia. Qed.

(** X26: the rendering of a department, for any record with its
    children and employees linked: below the level [currentDepth] it
    renders the levels up to [depth] and no further, so that the tree
    rendered from level 0 has the root and at most [depth] levels under
    it, a department at the level [depth] being rendered without its
    children; and when the employees are not asked for, the tree lists
    none, at any level. *)
Theorem toResponse_bounds (includeEmployees : bool) (depth : Z) :
  forall (dept : Department) (currentDepth : Z),
    (levels (toResponse includeEmployees depth dept currentDepth)
     <= S (Z.to_nat (depth - currentDepth)))%nat
    /\ (depth <= currentDepth ->
        resp_Children (toResponse includeEmployees depth dept currentDepth) = [])
    /\ (includeEmployees = false ->
        listed (toResponse includeEmployees depth dept currentDepth) = O).
Proof.
  fix IH 1. intros [id name parent created children emps] currentDepth.
  cbn [toResponse levels listed dept_ID dept_Name dept_ParentID dept_CreatedAt dept_Children
       dept_Employees resp_Children].
  assert (Hall : Forall (fun child =>
                   forall cd,
                     (levels (toResponse includeEmployees depth child cd)
                      <= S (Z.to_nat (depth - cd)))%nat
                     /\ (depth <= cd ->
                         resp_Children (toResponse includeEmployees depth child cd) = [])
                     /\ (includeEmployees = false ->
                         listed (toResponse includeEmployees depth child cd) = O)) children).
  { induction children as [|child children IHc]; constructor; [apply IH|exact IHc]. }
  clear IH.
  destruct (Z.ltb_spec currentDepth depth) as [Hlt|Hge].
  - split; [|split; [lia|]].
    + apply le_n_S. apply fold_max_le. eapply Forall_impl; [exact Hall|].
      intros child Hchild. destruct (Hchild (currentDepth + 1)) as [Hle _].
      replace (depth - (currentDepth + 1)) with (depth - currentDepth - 1) in Hle by lia.
      lia.
    + intros ->. cbn [List.length Nat.add].
      apply fold_sum_zero. eapply Forall_impl; [exact Hall|].
      intros child Hchild. by destruct (Hchild (currentDepth + 1)) as (_ & _ & ->).
  - cbn [fold_right]. split; [lia|]. split; [done|]. by intros ->.
Qed.

(** ** [getDepartment]: the load of the levels *)

Lemma select_children_in_spec (s : Store) (ids : list Z) (r : DeptRow) :
  In r (Sql.select_children_in s ids)
  <-> In r (departments s) /\ exists a, In a ids /\ row_parent_id r = Some a.
Proof.
  unfold Sql.select_children_in. rewrite filter_In, existsb_exists. split.
  - intros (Hin & a & Ha & Hp). split; [exact Hin|]. exists a. split; [exact Ha|].
    destruct (row_parent_id r) as [p|]; [|discriminate]. cbn in Hp.
    apply Z.eqb_eq in Hp. by subst.
  - intros (Hin & a & Ha & Hp). split; [exact Hin|]. exists a. split; [exact Ha|].
    rewrite Hp. cbn. apply Z.eqb_refl.
Qed.

Lemma loaded_children (children : list Department) (level : Z) :
  forall (m : gmap Z deptNode) (x : Z),
    is_Some (fold_left (fun m child => <[dept_ID child := mkDeptNode child level]> m)
               children m !! x)
    <-> is_Some (m !! x) \/ In x (map dept_ID children).
Proof.
  induction children as [|child children IH]; intros m x; cbn [fold_left map In].
  - tauto.
  - rewrite IH. destruct (decide (dept_ID child = x)) as [<-|Hne].
    + rewrite lookup_insert_eq. split; [intros _; right; by left|intros _; left; eauto].
    + rewrite lookup_insert_ne by done. tauto.
Qed.

(** [n] rounds of the loop from the identifiers [currentIDs] add to
    [deptMap] the departments of the generations 1 to [n] below them. *)
Lemma loadLevels_loaded (s : Store) (n : nat) :
  forall (level : Z) (currentIDs : list Z) (deptMap : gmap Z deptNode) (w : World),
    healthy w -> committed w = s ->
    exists loaded,
      fst (loadLevels n level currentIDs deptMap w) = Ok loaded
      /\ forall x, is_Some (loaded !! x)
                   <-> is_Some (deptMap !! x)
                       \/ exists k a, (1 <= k <= n)%nat /\ In a currentIDs
                                      /\ generation s k a x.
Proof.
  induction n as [|n IH]; intros level ids m w Hh Hs; cbn [loadLevels].
  - exists m. split; [reflexivity|]. intros x. split; [by left|].
    intros [?|(k & a & Hk & _)]; [done|lia].
  - destruct ids as [|i ids].
    + exists m. split; [reflexivity|]. intros x. split; [by left|].
      intros [?|(k & a & _ & [] & _)]; done.
    + cbv [bind ret gorm.Find_children]. rewrite query_run, Hh. cbn [gorm.view]. rewrite Hs.
      set (rows := Sql.select_children_in s (i :: ids)).
      destruct (IH (level + 1) (map dept_ID (map gorm.scan rows))
                  (fold_left (fun m child => <[dept_ID child := mkDeptNode child level]> m)
                     (map gorm.scan rows) m)
                  (gorm.logged w Pool (SelectChildrenIn (i :: ids))))
        as (loaded & Hrun & Hloaded); [exact Hh|exact Hs|].
      exists loaded. split; [exact Hrun|].
      assert (Hnext : forall c, In c (map dept_ID (map gorm.scan rows))
                                <-> exists a, In a (i :: ids) /\ child_of s a c).
      { intros c. rewrite map_map, in_map_iff. split.
        - intros (r & <- & Hr). apply select_children_in_spec in Hr as (Hin & a & Ha & Hp).
          exists a. split; [exact Ha|]. by exists r.
        - intros (a & Ha & r & Hin & <- & Hp). exists r. split; [reflexivity|].
          apply select_children_in_spec. eauto. }
      intros x. rewrite Hloaded, loaded_children. split.
      * intros [[Hm|Hx]|(k & c & Hk & Hc & Hgen)].
        -- by left.
        -- apply Hnext in Hx as (a & Ha & Hchild). right. exists 1%nat, a.
           split; [lia|]. split; [exact Ha|].
           apply (generation_S s O a x x Hchild). apply generation_O.
        -- apply Hnext in Hc as (a & Ha & Hchild). right. exists (S k), a.
           split; [lia|]. split; [exact Ha|]. by apply (generation_S s k a c x).
      * intros [Hm|(k & a & Hk & Ha & Hgen)]; [by left; left|].
        inversion Hgen as [|k0 a0 c x0 Hchild Hrest]; subst; [lia|].
        assert (Hc : In c (map dept_ID (map gorm.scan rows))) by (apply Hnext; eauto).
        destruct k0 as [|k0].
        -- inversion Hrest; subst. left. by right.
        -- right. exists (S k0), c. split; [lia|]. done.
Qed.

(** X27: the loop that loads the levels loads the generations under the
    root.  On a store that reports no failure, the map that the loop
    builds for a root and a depth holds the root, its children, their
    children and so on down to the generation [depth], and no other
    department: the loop makes one round per level and ends early when a
    generation is empty. *)
Theorem loadLevels_generations (w : World) (rootDept : Department) (depth : Z) :
  healthy w ->
  exists loaded,
    fst (loadLevels (Z.to_nat depth) 1 [dept_ID rootDept]
           {[dept_ID rootDept := mkDeptNode rootDept 0]} w) = Ok loaded
    /\ forall x, is_Some (loaded !! x)
                 <-> exists k, (k <= Z.to_nat depth)%nat
                               /\ generation (committed w) k (dept_ID rootDept) x.
Proof.
  intros Hh.
  destruct (loadLevels_loaded (committed w) (Z.to_nat depth) 1 [dept_ID rootDept]
              {[dept_ID rootDept := mkDeptNode rootDept 0]} w Hh eq_refl)
    as (loaded & Hrun & Hloaded).
  exists loaded. split; [exact Hrun|]. intros x. rewrite Hloaded. split.
  - intros [Hroot|(k & a & Hk & Ha & Hgen)].
    + exists O. split; [lia|].
      destruct (decide (x = dept_ID rootDept)) as [->|Hne]; [apply generation_O|].
      rewrite lookup_singleton_ne in Hroot by done. by destruct Hroot.
    + destruct Ha as [<-|[]]. exists k. split; [lia|exact Hgen].
  - intros (k & Hk & Hgen). destruct k as [|k].
    + inversion Hgen; subst. left. rewrite lookup_singleton_eq. eauto.
    + right. exists (S k), (dept_ID rootDept). split; [lia|]. split; [by left|exact Hgen].
Qed.

Lemma loadLevels_generations_witness :
  exists loaded,
    fst (loadLevels (Z.to_nat 2) 1 [dept_ID (gorm.scan (mkDeptRow 1 "Org" None 10))]
           {[dept_ID (gorm.scan (mkDeptRow 1 "Org" None 10))
             := mkDeptNode (gorm.scan (mkDeptRow 1 "Org" None 10)) 0]}
           (Examples.world Examples.chain)) = Ok loaded
    /\ forall x, is_Some (loaded !! x)
                 <-> exists k, (k <= Z.to_nat 2)%nat
                               /\ generation (committed (Examples.world Examples.chain)) k
                                    (dept_ID (gorm.scan (mkDeptRow 1 "Org" None 10))) x.
Proof.
  apply (loadLevels_generations (Examples.world Examples.chain)
           (gorm.scan (mkDeptRow 1 "Org" None 10)) 2).
  intros h q. reflexivity.
Defined.

(** ** [getDepartment]: the answers *)

Section GetDepartmentAnswers.

Variable rangeKeys : gmap Z deptNode -> list Z.
Variable orderBy : string -> list Employee -> list Employee.

Lemma buildTree_ok (p : GetParams) (rootDept : Department) (w : World) :
  healthy w -> exists deptMap, fst (buildTree rangeKeys orderBy p rootDept w) = Ok deptMap.
Proof.
  intros Hh. unfold buildTree. cbv [bind ret].
  destruct (loadLevels_loaded (committed w) (Z.to_nat (depth p)) 1 [dept_ID rootDept]
              {[dept_ID rootDept := mkDeptNode rootDept 0]} w Hh eq_refl)
    as (loaded & Hrun & _).
  assert (Hw : healthy (snd (loadLevels (Z.to_nat (depth p)) 1 [dept_ID rootDept]
                               {[dept_ID rootDept := mkDeptNode rootDept 0]} w))).
  { destruct (loadLevels_only_read (Z.to_nat (depth p)) 1 [dept_ID rootDept]
                {[dept_ID rootDept := mkDeptNode rootDept 0]} w) as (t & -> & _).
    exact Hh. }
  destruct (loadLevels _ _ _ _ w) as [r w1]. cbn [fst snd] in *. subst r.
  destruct (includeEmployees p); [|eauto].
  unfold Find_employees. rewrite query_run, Hw. cbn [gorm.view fst]. eauto.
Qed.

(** X28: the answers of a GET on a store that reports no failure, once
    the parameters are accepted: 404 after one read for a department
    that is not stored, and 200 for every department that is stored,
    whatever the tree under it and the depth. *)
Theorem getDepartment_answers (idStr : string) (q : Values) (w : World) (deptID : Z)
    (p : GetParams) :
  healthy w ->
  strconv.Atoi idStr = Some deptID ->
  getDepartment_params q = inr p ->
  (Sql.has_department (committed w) deptID = false ->
   getDepartment rangeKeys orderBy idStr q w
   = (respondError StatusNotFound "department not found",
      gorm.logged w Pool (SelectDepartment deptID)))
  /\ (Sql.has_department (committed w) deptID = true ->
      status (fst (getDepartment rangeKeys orderBy idStr q w)) = StatusOK).
Proof.
  intros Hh Hid Hp. unfold getDepartment. rewrite Hid, Hp. cbv [bind ret].
  rewrite First_run, Hh. cbn [gorm.view]. split.
  - intros Hhas. by rewrite (select_department_none _ _ Hhas).
  - intros Hhas. apply select_department_has in Hhas as [row ->].
    destruct (buildTree_ok p (gorm.scan row) (gorm.logged w Pool (SelectDepartment deptID)))
      as [deptMap Hok]; [exact Hh|].
    destruct (buildTree _ _ _ _ _) as [r w1]. cbn [fst] in *. by subst r.
Qed.

End GetDepartmentAnswers.

Lemma getDepartment_answers_witness :
  getDepartment Examples.ascending Examples.as_stored "9" [("depth", "3")]
    (Examples.world Examples.chain)
  = (respondError StatusNotFound "department not found",
     gorm.logged (Examples.world Examples.chain) Pool (SelectDepartment 9))
  /\ status (fst (getDepartment Examples.ascending Examples.as_stored "2" [("depth", "3")]
                    (Examples.world Examples.chain))) = StatusOK.
Proof.
  destruct (getDepartment_answers Examples.ascending Examples.as_stored "9" [("depth", "3")]
              (Examples.world Examples.chain) 9 (mkGetParams 3 true "full_name"))
    as [Hmissing _]; [intros h q; reflexivity|reflexivity|reflexivity|].
  destruct (getDepartment_answers Examples.ascending Examples.as_stored "2" [("depth", "3")]
              (Examples.world Examples.chain) 2 (mkGetParams 3 true "full_name"))
    as [_ Hfound]; [intros h q; reflexivity|reflexivity|reflexivity|].
  split; [apply Hmissing|apply Hfound]; reflexivity.
Defined.

Lemma generation_last (s : Store) (k : nat) (a c x : Z) :
  generation s k a c -> child_of s c x -> generation s (S k) a x.
Proof.
  intros Hgen Hx. induction Hgen as [a|k a c0 c Hc Hgen IH].
  - apply (generation_S s O a x x Hx). apply generation_O.
  - apply (generation_S s (S k) a c0 x Hc). by apply IH.
Qed.

(** The descendants of a department are its generations from the first
    on. *)
Lemma descendant_generation (s : Store) (a x : Z) :
  descendant s a x <-> exists k, generation s (S k) a x.
Proof.
  split.
  - intros Hd. induction Hd as [c Hc|c x Hd [k IH] Hx].
    + exists O. apply (generation_S s O a c c Hc). apply generation_O.
    + exists (S k). by apply (generation_last s (S k) a c x).
  - intros [k Hgen]. revert a Hgen. induction k as [|k IH]; intros a Hgen.
    + inversion Hgen as [|k0 a0 c x0 Hc Hrest]; subst. inversion Hrest; subst.
      by apply descendant_child.
    + inversion Hgen as [|k0 a0 c x0 Hc Hrest]; subst.
      apply (descendant_trans s a c x); [by apply descendant_child|by apply IH].
Qed.

(** ** [getDepartment]: the employees of a department *)

Lemma groupEmployee_lookup (emps : list Employee) :
  forall (empMap : gmap Z (list Employee)) (k : Z),
    default [] (fold_left groupEmployee emps empMap !! k)
    = (default [] (empMap !! k)
       ++ List.filter (fun e => emp_DepartmentID e =? k) emps)%list.
Proof.
  induction emps as [|e emps IH]; intros empMap k; cbn [fold_left List.filter].
  - by rewrite app_nil_r.
  - rewrite IH. unfold groupEmployee.
    destruct (Z.eqb_spec (emp_DepartmentID e) k) as [<-|Hne].
    + rewrite lookup_insert_eq. cbn [default id]. by rewrite <- app_assoc.
    + by rewrite lookup_insert_ne.
Qed.

(** X29: the employees are grouped by department in the order of the
    query.  Whatever the rows that the query returns, the node of a
    department is given those of them whose [department_id] is the
    identifier of the node, all of them and no other, in the order in
    which they were returned, and none when there is none; the
    identifier and the children of the node are left as they are. *)
Theorem setEmployees_groups (emps : list Employee) (node : deptNode) :
  dept_Employees (node_Department (setEmployees (fold_left groupEmployee emps ∅) node))
  = List.filter (fun e => emp_DepartmentID e =? dept_ID (node_Department node)) emps
  /\ dept_ID (node_Department (setEmployees (fold_left groupEmployee emps ∅) node))
     = dept_ID (node_Department node)
  /\ dept_Children (node_Department (setEmployees (fold_left groupEmployee emps ∅) node))
     = dept_Children (node_Department node).
Proof.
  unfold setEmployees. cbn [node_Department dept_Employees dept_ID dept_Children].
  split; [|done]. rewrite groupEmployee_lookup. by rewrite lookup_empty.
Qed.
